(** * EvalPro: cache-first analysis scheduling and move classification

    A shallow embedding of the analysis core of the chess analyzer:

    - [context_builders.get_score_from_line]   (score normalisation),
    - [analysis_provider.AnalysisProvider]     (position planning, cache and
      engine reconciliation),
    - [move_classifier.MoveClassifier]         (the classification stages),
    - [context_builders.build_game_summary]    (per-player aggregation).

    Modelling conventions.

    - Python [float] values are exact rationals ([Q]).  Every number the
      pipeline handles is a centipawn integer, a small multiple of a tenth of a
      pawn or a difference of two of those, so comparisons agree with the
      binary64 ones; NaN, infinities and the negative zero are outside the
      model.
    - Python [str] is [string]; the Unicode-aware builtins ([str.lower],
      [str.strip], [int(str)], [float(str)]) are fields of the class
      [PyBuiltins], so that every statement holds for the real builtins.
    - A Python [dict] read through [.get] is a [gmap]; a [dict] that the code
      iterates is an insertion-ordered association list ([odict]).
    - The python-chess board is the class [ChessBoard]: a type of boards with
      [fen], [push] and [piece_map].
    - Raising is explicit: fallible code returns a [result]. *)

From Stdlib Require Import ZArith QArith Qminmax Qround Qabs Lia Lqa Ascii.
From stdpp Require Import gmap strings list pretty.

Set Default Proof Using "Type".
Set Warnings "-clear-no-such-hyp".

(** ** Python values and exceptions *)

Inductive exn : Type :=
| TypeError
| ValueError
| StockfishError
| StockfishAnalysisError
| CacheError
| CacheConnectionError
| CacheReadError
| CacheWriteError.

Inductive result (A : Type) : Type :=
| Ret (a : A)
| Raise (e : exn).
Arguments Ret {A} a.
Arguments Raise {A} e.

(** The values found in an engine line ([Dict[str, Any]]): what the engine
    wrapper produces and what [json.loads] gives back from the cache. *)
Inductive pyval : Type :=
| VNone
| VBool (b : bool)
| VInt (z : Z)
| VFloat (q : Q)
| VStr (s : string)
| VSeq (l : list string).

(** Builtins of the Python runtime that work on Unicode text.  [None] from a
    parser stands for the builtin raising [ValueError]. *)
Class PyBuiltins : Type := {
  int_of_str : string -> option Z;
  float_of_str : string -> option Q;
  str_lower : string -> string;
  str_strip : string -> string
}.

(** [int(v)]: truncation toward zero on floats. *)
Definition py_int `{PyBuiltins} (v : pyval) : result Z :=
  match v with
  | VInt z => Ret z
  | VBool b => Ret (if b then 1 else 0)%Z
  | VFloat q => Ret (Z.quot (Qnum q) (Z.pos (Qden q)))
  | VStr s => match int_of_str s with Some z => Ret z | None => Raise ValueError end
  | VNone | VSeq _ => Raise TypeError
  end.

(** [float(v)]. *)
Definition py_float `{PyBuiltins} (v : pyval) : result Q :=
  match v with
  | VInt z => Ret (inject_Z z)
  | VBool b => Ret (if b then 1 else 0)%Q
  | VFloat q => Ret q
  | VStr s => match float_of_str s with Some q => Ret q | None => Raise ValueError end
  | VNone | VSeq _ => Raise TypeError
  end.

(** An engine line and [line.get(key)]: a missing key reads as [None]. *)
Abbreviation Line := (gmap string pyval).

Definition dict_get (d : Line) (k : string) : pyval :=
  match d !! k with Some v => v | None => VNone end.

Definition is_none (v : pyval) : bool :=
  match v with VNone => true | _ => false end.

(** Rational comparisons as booleans. *)
Definition Qltb (a b : Q) : bool := negb (Qle_bool b a).
Definition Qgtb (a b : Q) : bool := Qltb b a.
Definition Qgeb (a b : Q) : bool := Qle_bool b a.

(** Python's two-argument [max] and [min] keep the first argument on a tie. *)
Definition py_max (a b : Q) : Q := if Qgtb b a then b else a.
Definition py_min (a b : Q) : Q := if Qltb b a then b else a.

(** ** types.py: the criteria bundles *)

Record BrilliantMoveCriteria : Type := {
  max_cpl : Q;
  eval_drop_leniency_cp : Q;
  max_eval_before_move_cp : Q;
  min_sacrifice_net_material_pawns : Q
}.

Record GreatMoveCriteria : Type := { min_uniqueness_gain_cp : Q }.

(** ** config/settings.py *)

Module settings.
Definition DEFAULT_MULTI_PV : Z := 2.
Definition MATE_SCORE_EQUIVALENT_CP : Q := 30000.
Definition CPL_INDIVIDUAL_EVAL_CAP_CP : Q := 1000.
Definition ACPL_MOVE_CPL_CAP_CP : Q := 1000.
Definition MOVE_CLASSIFICATION_THRESHOLDS : list (string * Q) :=
    [ ("Best", 5); ("Good", 40); ("OK", 70); ("Dubious", 90);
      ("Inaccuracy", 180); ("Mistake", 300) ]%Q.
Definition BRILLIANT_CRITERIA : BrilliantMoveCriteria := {|
    max_cpl := 20;
    eval_drop_leniency_cp := 15;
    max_eval_before_move_cp := 350;
    min_sacrifice_net_material_pawns := 2.5
  |}.
Definition GREAT_CRITERIA : GreatMoveCriteria :=
    {| min_uniqueness_gain_cp := 120 |}.
End settings.

(** ** context_builders.get_score_from_line *)

(** [chess.Color] is a boolean in python-chess, [WHITE = True]. *)
Inductive Color : Type := WHITE | BLACK.

Global Instance Color_eq_dec : EqDecision Color.
Proof. solve_decision. Defined.

Definition opposite (c : Color) : Color :=
  match c with WHITE => BLACK | BLACK => WHITE end.

(** The white-point-of-view triple [(score_wpov, is_mate, mate_moves_wpov)]
    as it stands before the perspective is applied (source lines 34-59). *)
Definition score_wpov_of_line `{PyBuiltins} (d : Line)
  : option Q * bool * option Z :=
  let mate_val := dict_get d "Mate" in
  let cp_val := dict_get d "Centipawn" in
  if negb (is_none mate_val) then
    match py_int mate_val with
    | Ret mate_moves_wpov =>
        if (mate_moves_wpov =? 0)%Z then (Some 0%Q, false, Some mate_moves_wpov)
        else if (mate_moves_wpov >? 0)%Z then
          (Some (settings.MATE_SCORE_EQUIVALENT_CP
                 - inject_Z (Z.abs mate_moves_wpov))%Q, true, Some mate_moves_wpov)
        else
          (Some (- settings.MATE_SCORE_EQUIVALENT_CP
                 + inject_Z (Z.abs mate_moves_wpov))%Q, true, Some mate_moves_wpov)
    | Raise _ => (None, false, None)
    end
  else if negb (is_none cp_val) then
    match py_float cp_val with
    | Ret q => (Some q, false, None)
    | Raise _ => (None, false, None)
    end
  else (None, false, None).

Definition get_score_from_line `{PyBuiltins}
    (line : option Line) (perspective : Color) : option Q * bool * option Z :=
  match line with
  | None => (None, false, None)
  | Some d =>
      if decide (d = ∅) then (None, false, None)
      else
        match score_wpov_of_line d with
        | (None, _, _) => (None, false, None)
        | (Some score_wpov, is_mate, mate_moves_wpov) =>
            match perspective with
            | WHITE => (Some score_wpov, is_mate, mate_moves_wpov)
            | BLACK =>
                let mate_moves_for_black :=
                  if is_mate then
                    match mate_moves_wpov with Some m => Some (- m)%Z | None => None end
                  else None in
                (Some (- score_wpov)%Q, is_mate, mate_moves_for_black)
            end
        end
  end.

(** An ASCII instance of the builtins, for evaluating the model on concrete
    lines: decimal integers with an optional sign, and the same for floats. *)
Module Ascii_builtins.

Definition digit_of (a : Ascii.ascii) : option Z :=
    let n := Z.of_nat (Ascii.nat_of_ascii a) in
    if ((48 <=? n) && (n <=? 57))%Z then Some (n - 48)%Z else None.

Fixpoint digits_acc (s : string) (acc : Z) : option Z :=
    match s with
    | EmptyString => Some acc
    | String a s' =>
        match digit_of a with
        | Some d => digits_acc s' (10 * acc + d)%Z
        | None => None
        end
    end.

Definition parse_int (s : string) : option Z :=
    match s with
    | EmptyString => None
    | String a EmptyString => digits_acc s 0
    | String a s' =>
        if Ascii.eqb a "-"%char then Z.opp <$> digits_acc s' 0
        else if Ascii.eqb a "+"%char then digits_acc s' 0
        else digits_acc s 0
    end.

Definition lower_ascii (a : Ascii.ascii) : Ascii.ascii :=
    let n := Ascii.nat_of_ascii a in
    if ((65 <=? n) && (n <=? 90))%nat then Ascii.ascii_of_nat (n + 32) else a.

Fixpoint lower (s : string) : string :=
    match s with
    | EmptyString => EmptyString
    | String a s' => String (lower_ascii a) (lower s')
    end.

Definition is_space (a : Ascii.ascii) : bool :=
    let n := Ascii.nat_of_ascii a in
    ((9 <=? n) && (n <=? 13) || (28 <=? n) && (n <=? 32))%nat.

Fixpoint lstrip (s : string) : string :=
    match s with
    | String a s' => if is_space a then lstrip s' else s
    | EmptyString => EmptyString
    end.

Definition strip (s : string) : string :=
    String.rev (lstrip (String.rev (lstrip s))).

Definition builtins : PyBuiltins := {|
    int_of_str := parse_int;
    float_of_str := fun s => inject_Z <$> parse_int s;
    str_lower := lower;
    str_strip := strip
  |}.

End Ascii_builtins.

(** ** python-chess: pieces, moves and the board capability *)

Inductive PieceType : Type := PAWN | KNIGHT | BISHOP | ROOK | QUEEN | KING.

Global Instance PieceType_eq_dec : EqDecision PieceType.
Proof. solve_decision. Defined.

Record Piece : Type := { piece_type : PieceType; color : Color }.

(** [chess.Move]; squares are numbered 0 (a1) to 63 (h8). *)
Record Move : Type := {
  from_square : N;
  to_square : N;
  promotion : option PieceType;
  drop : option PieceType
}.

(** [Move.__bool__]: the null move (0000) is the only falsy move. *)
Definition Move_bool (m : Move) : bool :=
  negb (from_square m =? 0)%N || negb (to_square m =? 0)%N
  || bool_decide (is_Some (promotion m)) || bool_decide (is_Some (drop m)).

Definition Move_null : Move :=
  {| from_square := 0; to_square := 0; promotion := None; drop := None |}.

Definition piece_symbol (t : PieceType) : string :=
  match t with
  | PAWN => "p" | KNIGHT => "n" | BISHOP => "b"
  | ROOK => "r" | QUEEN => "q" | KING => "k"
  end.

Definition square_name (sq : N) : string :=
  String (ascii_of_N (97 + sq mod 8)) (String (ascii_of_N (49 + sq / 8)) EmptyString).

(** [Move.uci]. *)
Definition Move_uci (m : Move) : string :=
  match drop m, promotion m with
  | Some d, _ =>
      match piece_symbol d with
      | String a _ => String (ascii_of_N (N_of_ascii a - 32)) EmptyString
      | EmptyString => EmptyString
      end +:+ "@" +:+ square_name (to_square m)
  | None, Some p =>
      square_name (from_square m) +:+ square_name (to_square m) +:+ piece_symbol p
  | None, None =>
      if Move_bool m then square_name (from_square m) +:+ square_name (to_square m)
      else "0000"
  end.

(** What the analysis core asks of a [chess.Board]. *)
Class ChessBoard : Type := {
  Board : Type;
  fen : Board -> string;
  push : Board -> Move -> Board;
  turn : Board -> Color;
  piece_map : Board -> list (N * Piece)
}.

(** ** types.py *)

Record ClassificationResult : Type := {
  classification_text : string;
  cpl : Q;
  raw_cpl : Q;
  is_brilliant : bool;
  is_great : bool;
  is_engine_top_choice : bool;
  is_engine_top_n_choice : bool
}.

Record MoveAnalysisContext `{ChessBoard} : Type := {
  eval_best_move : option Q;
  is_mate_best_move : bool;
  eval_second_best_move : option Q;
  is_mate_second_best_move : bool;
  eval_player_move : option Q;
  is_mate_player_move : bool;
  eval_before_move : option Q;
  is_mate_before_move : bool;
  engine_top_lines : list Line;
  player_move_uci : string;
  board_before_move : Board;
  board_after_move : Board;
  player_color : Color;
  engine_multipv : Z;
  brilliant_criteria : BrilliantMoveCriteria;
  great_criteria : GreatMoveCriteria
}.

(** ** Calling a dataclass with keyword arguments

    A call that unpacks a mapping with the double-star operator and also
    passes explicit keywords merges both into one keyword dictionary; a
    keyword given twice raises [TypeError] before the constructor runs. *)

Inductive field_val : Type :=
| FStr (s : string)
| FNum (q : Q)
| FBool (b : bool).

Definition kwargs : Type := list (string * field_val).

Definition kw_lookup (kw : kwargs) (k : string) : option field_val :=
  snd <$> find (fun p => bool_decide (fst p = k)) kw.

Fixpoint kw_merge (unpacked explicit : kwargs) : result kwargs :=
  match explicit with
  | [] => Ret unpacked
  | (k, v) :: rest =>
      match kw_lookup unpacked k with
      | Some _ => Raise TypeError
      | None => kw_merge (unpacked ++ [(k, v)]) rest
      end
  end.

(** [instance.__dict__] of the frozen dataclass: every field, set or
    defaulted, in declaration order. *)
Definition ClassificationResult_dict (r : ClassificationResult) : kwargs :=
  [ ("classification_text", FStr (classification_text r));
    ("cpl", FNum (cpl r));
    ("raw_cpl", FNum (raw_cpl r));
    ("is_brilliant", FBool (is_brilliant r));
    ("is_great", FBool (is_great r));
    ("is_engine_top_choice", FBool (is_engine_top_choice r));
    ("is_engine_top_n_choice", FBool (is_engine_top_n_choice r)) ].

Definition ClassificationResult_fields : list string :=
  [ "classification_text"; "cpl"; "raw_cpl"; "is_brilliant"; "is_great";
    "is_engine_top_choice"; "is_engine_top_n_choice" ].

Definition kw_bool (kw : kwargs) (k : string) (default : bool) : result bool :=
  match kw_lookup kw k with
  | None => Ret default
  | Some (FBool b) => Ret b
  | Some _ => Raise TypeError
  end.

(** The generated [__init__] called with keywords only: the three fields
    without a default are required, an unknown keyword is refused.  The
    record is typed, so a value of another type is refused as well (no call
    site passes one). *)
Definition ClassificationResult_init (kw : kwargs) : result ClassificationResult :=
  if negb (forallb (fun p => bool_decide (fst p ∈ ClassificationResult_fields)) kw)
  then Raise TypeError
  else
    match kw_lookup kw "classification_text", kw_lookup kw "cpl",
          kw_lookup kw "raw_cpl" with
    | Some (FStr t), Some (FNum c), Some (FNum rc) =>
        match kw_bool kw "is_brilliant" false, kw_bool kw "is_great" false,
              kw_bool kw "is_engine_top_choice" false,
              kw_bool kw "is_engine_top_n_choice" false with
        | Ret b, Ret g, Ret t1, Ret tn =>
            Ret {| classification_text := t; cpl := c; raw_cpl := rc;
                   is_brilliant := b; is_great := g;
                   is_engine_top_choice := t1; is_engine_top_n_choice := tn |}
        | _, _, _, _ => Raise TypeError
        end
    | _, _, _ => Raise TypeError
    end.

(** ** utils/chess_utils.py *)

Definition PIECE_VALUES (t : PieceType) : Q :=
  match t with
  | PAWN => 1 | KNIGHT => 3 | BISHOP => 3.2
  | ROOK => 5 | QUEEN => 9 | KING => 0
  end.

(** Rounding to the nearest integer, ties to even: the rule of [round] and of
    the [.0f] format. *)
Definition round_half_even (q : Q) : Z :=
  let f := Qfloor q in
  match (q - inject_Z f ?= 1 # 2)%Q with
  | Lt => f
  | Gt => (f + 1)%Z
  | Eq => if Z.even f then f else (f + 1)%Z
  end.

(** [round(x, 2)]. *)
Definition py_round2 (q : Q) : Q :=
  (inject_Z (round_half_even (q * 100)) / 100)%Q.

(** [format(x, ".0f")]. *)
Definition format_0f (q : Q) : string :=
  (if Qltb q 0 then "-" else "") +:+ pretty (Z.abs_N (round_half_even q)).

Definition get_material_diff `{ChessBoard}
    (board : Board) (perspective_color : Color) : Q :=
  let diff :=
    foldl (fun (diff : Q) (entry : N * Piece) =>
             let piece := snd entry in
             let value := PIECE_VALUES (piece_type piece) in
             if decide (color piece = perspective_color)
             then (diff + value)%Q else (diff - value)%Q)
          0%Q (piece_map board) in
  py_round2 diff.

(** ** analysis/move_classifier.py *)

Definition _cap_score (score_cp : option Q) (is_mate : bool) : Q :=
  match score_cp with
  | None => 0
  | Some s =>
      if is_mate then s
      else
        let cap := settings.CPL_INDIVIDUAL_EVAL_CAP_CP in
        py_min cap (py_max (- cap) s)
  end.

Section MoveClassifier.
Context `{ChessBoard}.

Definition _is_significant_piece_sacrifice (context : MoveAnalysisContext) : bool :=
    let diff_before := get_material_diff (board_before_move context) (player_color context) in
    let diff_after := get_material_diff (board_after_move context) (player_color context) in
    let net_material_loss := (diff_before - diff_after)%Q in
    let criteria := brilliant_criteria context in
    Qgeb net_material_loss (min_sacrifice_net_material_pawns criteria).

Definition _check_for_brilliant (context : MoveAnalysisContext) (raw_cpl : Q)
    : option ClassificationResult :=
    let criteria := brilliant_criteria context in
    match eval_player_move context, eval_before_move context with
    | Some eval_player, Some eval_before =>
        if Qgtb raw_cpl (max_cpl criteria) then None
        else if is_mate_before_move context && Qgtb eval_before 0 then None
        else if negb (is_mate_before_move context)
                && Qgtb eval_before (max_eval_before_move_cp criteria) then None
        else
          let eval_drop := (eval_before - eval_player)%Q in
          if Qgtb eval_drop (eval_drop_leniency_cp criteria) then None
          else if negb (_is_significant_piece_sacrifice context) then None
          else Some {| classification_text := "Brilliant ✨"; cpl := 0;
                       raw_cpl := raw_cpl; is_brilliant := true; is_great := false;
                       is_engine_top_choice := false;
                       is_engine_top_n_choice := false |}
    | _, _ => None
    end.

Definition _check_for_great (context : MoveAnalysisContext) (is_top_choice : bool)
    : option ClassificationResult :=
    let criteria := great_criteria context in
    if negb is_top_choice || (engine_multipv context <? 2)%Z then None
    else
      match eval_best_move context, eval_second_best_move context with
      | Some eval_best, Some eval_second =>
          if is_mate_best_move context || is_mate_second_best_move context then None
          else
            let uniqueness_gain := (eval_best - eval_second)%Q in
            if Qltb uniqueness_gain (min_uniqueness_gain_cp criteria) then None
            else Some {| classification_text := "Great Move !"; cpl := 0;
                         raw_cpl := 0; is_brilliant := false; is_great := true;
                         is_engine_top_choice := true;
                         is_engine_top_n_choice := true |}
      | _, _ => None
      end.

Fixpoint first_tier (tiers : list (string * Q)) (cpl : Q) : string :=
    match tiers with
    | [] => "Blunder"
    | (name, threshold) :: rest =>
        if Qle_bool cpl threshold then name else first_tier rest cpl
    end.

Definition _get_standard_classification (cpl : Q) : string :=
    first_tier settings.MOVE_CLASSIFICATION_THRESHOLDS cpl.

  (** [player_move_uci == line.get('Move')]: a string equals only a string. *)
Definition uci_matches (uci : string) (line : Line) : bool :=
    match dict_get line "Move" with
    | VStr s => bool_decide (uci = s)
    | _ => false
    end.

Definition top_choice (context : MoveAnalysisContext) : bool :=
    match engine_top_lines context with
    | [] => false
    | line0 :: _ => uci_matches (player_move_uci context) line0
    end.

Definition top_n_choice (context : MoveAnalysisContext) : bool :=
    top_choice context
    || existsb (uci_matches (player_move_uci context)) (engine_top_lines context).

Definition raw_cpl_of (context : MoveAnalysisContext) : Q :=
    let capped_eval_best :=
      _cap_score (eval_best_move context) (is_mate_best_move context) in
    let capped_eval_player :=
      _cap_score (eval_player_move context) (is_mate_player_move context) in
    (capped_eval_best - capped_eval_player)%Q.

Definition cpl_for_metrics_of (raw_cpl : Q) : Q :=
    py_min settings.ACPL_MOVE_CPL_CAP_CP (py_max 0 raw_cpl).

Definition standard_text (classification_name : string) (cpl_for_metrics : Q) : string :=
    if bool_decide (classification_name = "Best") then classification_name
    else if bool_decide (classification_name = "Blunder")
    then "Blunder !!! (CPL: " +:+ format_0f cpl_for_metrics +:+ ")"
    else classification_name +:+ " (CPL: " +:+ format_0f cpl_for_metrics +:+ ")".

Definition classify_move (context : MoveAnalysisContext)
    : result ClassificationResult :=
    match eval_best_move context, eval_player_move context with
    | Some _, Some _ =>
        let raw_cpl := raw_cpl_of context in
        let cpl_for_metrics := cpl_for_metrics_of raw_cpl in
        let is_top_choice := top_choice context in
        let is_top_n_choice := top_n_choice context in
        match _check_for_brilliant context raw_cpl with
        | Some brilliant_result =>
            match kw_merge (ClassificationResult_dict brilliant_result)
                    [ ("is_engine_top_choice", FBool is_top_choice);
                      ("is_engine_top_n_choice", FBool is_top_n_choice) ] with
            | Ret kw => ClassificationResult_init kw
            | Raise e => Raise e
            end
        | None =>
            match _check_for_great context is_top_choice with
            | Some great_result => Ret great_result
            | None =>
                let classification_name :=
                  _get_standard_classification cpl_for_metrics in
                Ret {| classification_text :=
                         standard_text classification_name cpl_for_metrics;
                       cpl := cpl_for_metrics;
                       raw_cpl := raw_cpl;
                       is_brilliant := false; is_great := false;
                       is_engine_top_choice := is_top_choice;
                       is_engine_top_n_choice := is_top_n_choice |}
            end
        end
    | _, _ =>
        Ret {| classification_text := "Unavailable (eval error)"; cpl := 0;
               raw_cpl := 0; is_brilliant := false; is_great := false;
               is_engine_top_choice := false; is_engine_top_n_choice := false |}
    end.

End MoveClassifier.


(** ** chess.pgn: a game as its headers, starting board and mainline *)

Record GameNode : Type := { node_move : Move; node_comment : string }.

Record Game `{ChessBoard} : Type := {
  headers : gmap string string;
  game_board : Board;
  mainline : list GameNode
}.

(** ** Collaborators of the provider: cache rows, engine, progress sink *)

Abbreviation Analysis := (list Line).

Record CacheKey : Type := {
  key_fen : string;
  key_analysis_depth : Z;
  key_multipv_count : Z;
  key_stockfish_path_canon : string;
  key_stockfish_version : string
}.

Global Instance CacheKey_eq_dec : EqDecision CacheKey.
Proof. solve_decision. Defined.

Global Instance CacheKey_countable : Countable CacheKey.
Proof.
  refine (inj_countable'
    (fun k => (key_fen k, key_analysis_depth k, key_multipv_count k,
               key_stockfish_path_canon k, key_stockfish_version k))
    (fun t => match t with (f, d, m, p, v) =>
       {| key_fen := f; key_analysis_depth := d; key_multipv_count := m;
          key_stockfish_path_canon := p; key_stockfish_version := v |} end) _).
  by intros [].
Defined.

Record CacheEntry : Type := { key : CacheKey; analysis_result : Analysis }.

(** The [analysis_result_json] text of a stored row as [json.loads] sees it:
    it decodes to the evaluation set that [json.dumps] wrote, or it is
    corrupt. *)
Inductive Row : Type :=
| Json (a : Analysis)
| CorruptJson.

(** [DBManager]: the table, the connection handle, the closed flag, and the
    batches committed so far (one entry per successful [executemany]). *)
Record DBManager : Type := {
  db_rows : gmap CacheKey Row;
  db_conn : bool;
  db_is_closed : bool;
  db_batches : list (list CacheEntry)
}.

(** [StockfishController]: whether [_stockfish] holds an engine, and the
    closed flag. *)
Record StockfishController : Type := {
  sf_stockfish : bool;
  sf_is_closed : bool;
  sf_multipv_count : Z
}.

(** The injected [ProgressReporter], a passive observer: the announced total
    and the units advanced so far (the description label is not kept). *)
Record Progress : Type := { progress_total : nat; progress_n : nat }.

Record World : Type := {
  w_db : DBManager;
  w_sf : StockfishController;
  w_progress : Progress
}.

(** What one iteration of the engine loop meets inside its [try]. *)
Inductive sf_outcome : Type :=
| SfInvalidFen
| SfTopMoves (a : Analysis)
| SfException.

(** The behaviour of the external processes during one call. *)
Record Env : Type := {
  sf_respond : string -> Z -> sf_outcome;
  sf_responsive : bool;
  sf_restart_ok : bool;
  sqlite_read_error : bool;
  sqlite_write_error : bool
}.

(** State and exceptions: a computation maps a world to an outcome and the
    world it leaves behind (effects made before a raise stay). *)
Definition M (A : Type) : Type := World -> result A * World.

Global Instance M_ret : MRet M := fun A a w => (Ret a, w).
Global Instance M_bind : MBind M := fun A B f m w =>
  match m w with
  | (Ret a, w') => f a w'
  | (Raise e, w') => (Raise e, w')
  end.

Definition raise {A} (e : exn) : M A := fun w => (Raise e, w).
Definition get_world : M World := fun w => (Ret w, w).
Definition set_db (d : DBManager) : M unit :=
  fun w => (Ret tt, {| w_db := d; w_sf := w_sf w; w_progress := w_progress w |}).
Definition set_sf (s : StockfishController) : M unit :=
  fun w => (Ret tt, {| w_db := w_db w; w_sf := s; w_progress := w_progress w |}).
Definition set_progress (p : Progress) : M unit :=
  fun w => (Ret tt, {| w_db := w_db w; w_sf := w_sf w; w_progress := p |}).

Definition progress_reset (total : nat) : M unit :=
  set_progress {| progress_total := total; progress_n := 0 |}.
Definition progress_update (n : nat) : M unit :=
  w ← get_world;
  set_progress {| progress_total := progress_total (w_progress w);
                  progress_n := progress_n (w_progress w) + n |}.

(** An insertion-ordered dictionary, for the dictionaries the code iterates. *)
Definition odict (V : Type) : Type := list (string * V).

Fixpoint odict_set {V} (d : odict V) (k : string) (v : V) : odict V :=
  match d with
  | [] => [(k, v)]
  | (k', v') :: rest =>
      if decide (k' = k) then (k, v) :: rest else (k', v') :: odict_set rest k v
  end.

Definition odict_lookup {V} (d : odict V) (k : string) : option V :=
  snd <$> find (fun p => bool_decide (fst p = k)) d.

(** ** cache/db_manager.py *)

Definition _ensure_connected : M unit :=
  w ← get_world;
  if db_is_closed (w_db w) then raise CacheError
  else if negb (db_conn (w_db w)) then raise CacheConnectionError
  else mret tt.

Section Collaborators.
Context (env : Env).

Definition get_cached_analyses_batch (fens : list string)
    (analysis_depth multipv_count : Z)
    (stockfish_path_canon stockfish_version : string) : M (gmap string Analysis) :=
  if bool_decide (fens = []) then mret ∅
  else
    _ ← _ensure_connected;
    if sqlite_read_error env then raise CacheReadError
    else
      w ← get_world;
      mret (foldl (fun (results : gmap string Analysis) fen =>
                     match db_rows (w_db w) !!
                             {| key_fen := fen; key_analysis_depth := analysis_depth;
                                key_multipv_count := multipv_count;
                                key_stockfish_path_canon := stockfish_path_canon;
                                key_stockfish_version := stockfish_version |} with
                     | Some (Json a) => <[fen := a]> results
                     | Some CorruptJson | None => results
                     end) ∅ fens).

(** [INSERT OR REPLACE] of every entry, committed together; a database error
    rolls the batch back. *)
Definition store_analyses_batch (entries : list CacheEntry) : M unit :=
  if bool_decide (entries = []) then mret tt
  else
    _ ← _ensure_connected;
    if sqlite_write_error env then raise CacheWriteError
    else
      w ← get_world;
      set_db {| db_rows := foldl (fun rows e => <[key e := Json (analysis_result e)]> rows)
                                 (db_rows (w_db w)) entries;
                db_conn := db_conn (w_db w);
                db_is_closed := db_is_closed (w_db w);
                db_batches := db_batches (w_db w) ++ [entries] |}.

(** ** engine/stockfish_controller.py *)

Definition is_ready (w : World) : bool :=
  if sf_is_closed (w_sf w) || negb (sf_stockfish (w_sf w)) then false
  else sf_responsive env.

Definition _ensure_engine_ready : M unit :=
  w ← get_world;
  if sf_is_closed (w_sf w) then raise StockfishError
  else if negb (is_ready w) then
    if sf_restart_ok env then
      set_sf {| sf_stockfish := true; sf_is_closed := sf_is_closed (w_sf w);
                sf_multipv_count := sf_multipv_count (w_sf w) |}
    else
      _ ← set_sf {| sf_stockfish := false; sf_is_closed := sf_is_closed (w_sf w);
                    sf_multipv_count := sf_multipv_count (w_sf w) |};
      raise StockfishError
  else mret tt.

(** The [for] loop of [analyze_fens_batch]; the callback of the [finally]
    clause runs on every path out of the [try]. *)
Fixpoint analyze_loop (num_moves_to_get : Z) (progress_callback : M unit)
    (fen_list : list string) (results : odict (option Analysis))
  : M (odict (option Analysis)) :=
  match fen_list with
  | [] => mret results
  | fen :: rest =>
      match sf_respond env fen num_moves_to_get with
      | SfInvalidFen =>
          _ ← progress_callback;
          analyze_loop num_moves_to_get progress_callback rest
            (odict_set results fen None)
      | SfTopMoves top_moves =>
          _ ← progress_callback;
          analyze_loop num_moves_to_get progress_callback rest
            (odict_set results fen (Some top_moves))
      | SfException =>
          w ← get_world;
          _ ← set_sf {| sf_stockfish := false; sf_is_closed := sf_is_closed (w_sf w);
                        sf_multipv_count := sf_multipv_count (w_sf w) |};
          _ ← progress_callback;
          raise StockfishAnalysisError
      end
  end.

(** The provider passes no shutdown event, so the loop never breaks early. *)
Definition analyze_fens_batch (fen_list : list string) (progress_callback : M unit)
  : M (odict (option Analysis)) :=
  _ ← _ensure_engine_ready;
  if bool_decide (fen_list = []) then mret []
  else
    w ← get_world;
    let num_moves_to_get := Z.max 1 (sf_multipv_count (w_sf w)) in
    analyze_loop num_moves_to_get progress_callback fen_list [].

End Collaborators.

(** ** analysis/analysis_provider.py *)

Record AnalysisProvider : Type := {
  analysis_depth : Z;
  multipv_count : Z;
  stockfish_path : string;
  stockfish_version : string
}.

Section Provider.
Context `{ChessBoard} (env : Env).

(** One turn of the planner's loop: a falsy move is skipped without being
    pushed on the board. *)
Definition plan_step (acc : gset string * Board) (node : GameNode)
  : gset string * Board :=
  let '(required_fens, board) := acc in
  if negb (Move_bool (node_move node)) then (required_fens, board)
  else
    let required_fens := {[ fen board ]} ∪ required_fens in
    let board := push board (node_move node) in
    ({[ fen board ]} ∪ required_fens, board).

Definition _get_required_fens (game : Game) : gset string :=
  let board := game_board game in
  let required_fens : gset string := {[ fen board ]} in
  fst (foldl plan_step (required_fens, board) (mainline game)).

Definition cache_key (self : AnalysisProvider) (fen : string) : CacheKey :=
  {| key_fen := fen; key_analysis_depth := analysis_depth self;
     key_multipv_count := multipv_count self;
     key_stockfish_path_canon := stockfish_path self;
     key_stockfish_version := stockfish_version self |}.

(** [all_analyses.update(newly_analyzed)]. *)
Definition dict_update (all_analyses : gmap string (option Analysis))
    (newly_analyzed : odict (option Analysis)) : gmap string (option Analysis) :=
  foldl (fun m p => <[fst p := snd p]> m) all_analyses newly_analyzed.

Definition entries_to_cache (self : AnalysisProvider)
    (newly_analyzed : odict (option Analysis)) : list CacheEntry :=
  omap (fun p => match snd p with
                 | Some result =>
                     Some {| key := cache_key self (fst p); analysis_result := result |}
                 | None => None
                 end) newly_analyzed.

Definition get_analyses_for_game (self : AnalysisProvider) (game : Game)
  : M (gmap string (option Analysis) * nat * nat) :=
  let required_fens := _get_required_fens game in
  if decide (required_fens = ∅) then mret (∅, 0, 0)
  else
    _ ← progress_reset (size required_fens);
    cached_analyses ← get_cached_analyses_batch env (elements required_fens)
                        (analysis_depth self) (multipv_count self)
                        (stockfish_path self) (stockfish_version self);
    let cache_hits := size cached_analyses in
    _ ← progress_update cache_hits;
    let all_analyses : gmap string (option Analysis) := Some <$> cached_analyses in
    let fens_to_analyze :=
      filter (fun fen => cached_analyses !! fen = None) (elements required_fens) in
    let engine_runs := length fens_to_analyze in
    if bool_decide (fens_to_analyze = []) then mret (all_analyses, cache_hits, engine_runs)
    else
      newly_analyzed ← analyze_fens_batch env fens_to_analyze (progress_update 1);
      let all_analyses := dict_update all_analyses newly_analyzed in
      let entries := entries_to_cache self newly_analyzed in
      _ ← (if bool_decide (entries = []) then mret tt
           else store_analyses_batch env entries);
      mret (all_analyses, cache_hits, engine_runs).

End Provider.

(** ** pgn/pgn_handler.py: the move collector used by the game loop *)

Record MoveData `{ChessBoard} : Type := {
  pgn_node : GameNode;
  actual_move_obj : Move;
  md_board_before_move : Board;
  fen_before_move : string;
  fen_after_move : string
}.

Section PGNHandler.
Context `{ChessBoard}.

(** Every node of the mainline carries a move, so the [is None] test never
    fires: each move, the null move included, is pushed and recorded. *)
Definition collect_step (acc : list MoveData * odict unit * Board) (node : GameNode)
  : list MoveData * odict unit * Board :=
  let '(all_move_details, game_unique_fens, board) := acc in
  let move := node_move node in
  let fen_before := fen board in
  let board_before_copy := board in
  let board := push board move in
  let fen_after := fen board in
  (all_move_details ++
     [ {| pgn_node := node; actual_move_obj := move;
          md_board_before_move := board_before_copy;
          fen_before_move := fen_before; fen_after_move := fen_after |} ],
   odict_set (odict_set game_unique_fens fen_before tt) fen_after tt,
   board).

Definition collect_move_data_and_fens (game : Game) : list MoveData * odict unit :=
  let board := game_board game in
  fst (foldl collect_step ([], odict_set [] (fen board) tt, board) (mainline game)).

End PGNHandler.

(** ** context_builders.build_game_summary *)

Record GameSummary : Type := {
  game_id : string;
  analyzed_player_name : string;
  player_color_str : string;
  player_cpls : list Q;
  move_classification_counts : gmap string nat;
  engine_top1_match_count : nat;
  engine_topN_match_count : nat;
  pgn_headers : gmap string string
}.

(** [text.split("(")[0]]: the text before the first opening parenthesis. *)
Fixpoint before_paren (s : string) : string :=
  match s with
  | EmptyString => EmptyString
  | String a s' => if Ascii.eqb a "("%char then EmptyString else String a (before_paren s')
  end.

(** [collections.Counter] of a list. *)
Definition Counter (names : list string) : gmap string nat :=
  foldl (fun c name => <[name := S (default 0 (c !! name))]> c) ∅ names.

(** [enumerate]. *)
Definition enumerate {A} (l : list A) : list (nat * A) := imap pair l.

Section GameSummaryBuilder.
Context `{PyBuiltins} `{ChessBoard}.

Definition simplified_label (r : ClassificationResult) : string :=
  str_strip (before_paren (classification_text r)).

Definition build_game_summary (game : Game) (game_id : string)
    (target_player : option string) (move_results : list ClassificationResult)
  : option GameSummary :=
  match target_player with
  | None => None
  | Some target_player =>
      if bool_decide (target_player = "") then None
      else
        let white_player := default "" (headers game !! "White") in
        let black_player := default "" (headers game !! "Black") in
        let is_white_targeted :=
          bool_decide (str_lower target_player = str_lower white_player) in
        let is_black_targeted :=
          bool_decide (str_lower target_player = str_lower black_player) in
        if negb (is_white_targeted || is_black_targeted) then None
        else
          let player_results :=
            snd <$> filter (fun ir =>
                     is_white_targeted && Nat.even (fst ir)
                     || is_black_targeted && negb (Nat.even (fst ir)))
                   (enumerate move_results) in
          match player_results with
          | [] => None
          | _ =>
              let classification_names := simplified_label <$> player_results in
              Some {| game_id := game_id;
                      analyzed_player_name :=
                        if is_white_targeted then white_player else black_player;
                      player_color_str :=
                        if is_white_targeted then "White" else "Black";
                      player_cpls := cpl <$> player_results;
                      move_classification_counts := Counter classification_names;
                      engine_top1_match_count :=
                        length (filter (fun r => is_engine_top_choice r = true)
                                       player_results);
                      engine_topN_match_count :=
                        length (filter (fun r => is_engine_top_n_choice r = true)
                                       player_results);
                      pgn_headers := headers game |}
          end
  end.

End GameSummaryBuilder.

(** ** A concrete board: the quiet-move fragment of [chess.Board]

    Piece placement, side to move, castling field and the two move counters.
    [q_push] follows [Board.push] for the null move and for moves that are
    neither castling nor en passant and do not touch a king or rook (the
    castling field is carried unchanged); [q_fen] prints no en-passant square,
    as [Board.fen] does when no en-passant capture is legal. *)
Module Quiet_board.

Record qboard : Type := {
  q_pieces : list (N * Piece);
  q_turn : Color;
  q_castling : string;
  q_halfmove : N;
  q_fullmove : N
}.

Definition q_piece_at (b : qboard) (sq : N) : option Piece :=
  snd <$> find (fun p => (fst p =? sq)%N) (q_pieces b).

Definition q_remove (sq : N) (l : list (N * Piece)) : list (N * Piece) :=
  filter (fun p => fst p ≠ sq) l.

Definition q_push (b : qboard) (m : Move) : qboard :=
  let halfmove := (q_halfmove b + 1)%N in
  let fullmove :=
    match q_turn b with BLACK => (q_fullmove b + 1)%N | WHITE => q_fullmove b end in
  if negb (Move_bool m) then
    {| q_pieces := q_pieces b; q_turn := opposite (q_turn b);
       q_castling := q_castling b; q_halfmove := halfmove; q_fullmove := fullmove |}
  else
    match q_piece_at b (from_square m) with
    | None =>
        {| q_pieces := q_pieces b; q_turn := opposite (q_turn b);
           q_castling := q_castling b; q_halfmove := halfmove; q_fullmove := fullmove |}
    | Some p =>
        let zeroing :=
          bool_decide (piece_type p = PAWN)
          || bool_decide (is_Some (q_piece_at b (to_square m))) in
        let placed :=
          match promotion m with
          | Some t => {| piece_type := t; color := color p |}
          | None => p
          end in
        {| q_pieces :=
             (to_square m, placed)
             :: q_remove (from_square m) (q_remove (to_square m) (q_pieces b));
           q_turn := opposite (q_turn b);
           q_castling := q_castling b;
           q_halfmove := if zeroing then 0%N else halfmove;
           q_fullmove := fullmove |}
    end.

Definition piece_letter (p : Piece) : string :=
  match color p, piece_symbol (piece_type p) with
  | WHITE, String a _ => String (ascii_of_N (N_of_ascii a - 32)) EmptyString
  | _, s => s
  end.

Definition flush_empty (empty : N) : string :=
  if (empty =? 0)%N then "" else pretty empty.

Fixpoint fen_rank (b : qboard) (rank : N) (files : list N) (empty : N) : string :=
  match files with
  | [] => flush_empty empty
  | f :: rest =>
      match q_piece_at b (rank * 8 + f) with
      | Some p => flush_empty empty +:+ piece_letter p +:+ fen_rank b rank rest 0
      | None => fen_rank b rank rest (empty + 1)
      end
  end.

Definition board_fen (b : qboard) : string :=
  String.concat "/"
    ((fun r => fen_rank b r [0; 1; 2; 3; 4; 5; 6; 7]%N 0) <$> [7; 6; 5; 4; 3; 2; 1; 0]%N).

Definition q_fen (b : qboard) : string :=
  board_fen b +:+ " " +:+ match q_turn b with WHITE => "w" | BLACK => "b" end
  +:+ " " +:+ q_castling b +:+ " - "
  +:+ pretty (q_halfmove b) +:+ " " +:+ pretty (q_fullmove b).

Global Instance quiet_board : ChessBoard := {|
  Board := qboard;
  fen := q_fen;
  push := q_push;
  turn := q_turn;
  piece_map := q_pieces
|}.

Definition back_rank (c : Color) (rank : N) : list (N * Piece) :=
  imap (fun i t => ((rank * 8 + N.of_nat i)%N, {| piece_type := t; color := c |}))
       [ROOK; KNIGHT; BISHOP; QUEEN; KING; BISHOP; KNIGHT; ROOK].

Definition pawn_rank (c : Color) (rank : N) : list (N * Piece) :=
  (fun f => ((rank * 8 + f)%N, {| piece_type := PAWN; color := c |}))
    <$> [0; 1; 2; 3; 4; 5; 6; 7]%N.

(** [chess.Board()]: the standard starting position. *)
Definition starting_board : qboard := {|
  q_pieces := back_rank WHITE 0 ++ pawn_rank WHITE 1
              ++ pawn_rank BLACK 6 ++ back_rank BLACK 7;
  q_turn := WHITE;
  q_castling := "KQkq";
  q_halfmove := 0;
  q_fullmove := 1
|}.

Definition uci_move (from to : N) : Move :=
  {| from_square := from; to_square := to; promotion := None; drop := None |}.

Definition e2e4 : Move := uci_move 12 28.
Definition e7e5 : Move := uci_move 52 36.
Definition g1f3 : Move := uci_move 6 21.
Definition d2d4 : Move := uci_move 11 27.

End Quiet_board.

(** ** Projections used in the statements *)

Definition score_of (t : option Q * bool * option Z) : option Q := t.1.1.
Definition mate_flag_of (t : option Q * bool * option Z) : bool := t.1.2.
Definition mate_distance_of (t : option Q * bool * option Z) : option Z := t.2.



(** ** Concrete contexts on the quiet board *)

Module Scenarios.
Import Quiet_board.

Definition piece (t : PieceType) (c : Color) : Piece :=
  {| piece_type := t; color := c |}.

(** White king e1, black king e8, and the same with a white knight on f3. *)
Definition bare_kings : qboard := {|
  q_pieces := [(4%N, piece KING WHITE); (60%N, piece KING BLACK)];
  q_turn := WHITE; q_castling := "-"; q_halfmove := 0; q_fullmove := 40
|}.

Definition knight_up : qboard := {|
  q_pieces := [(4%N, piece KING WHITE); (21%N, piece KNIGHT WHITE);
               (60%N, piece KING BLACK)];
  q_turn := WHITE; q_castling := "-"; q_halfmove := 0; q_fullmove := 40
|}.

Definition cp_line (move : string) (cp : Z) : Line :=
  {[ "Move" := VStr move; "Centipawn" := VInt cp ]}.

Definition context_of (best second played before : option Q) (lines : list Line)
    (uci : string) (board_before board_after : qboard) : MoveAnalysisContext := {|
  eval_best_move := best; is_mate_best_move := false;
  eval_second_best_move := second; is_mate_second_best_move := false;
  eval_player_move := played; is_mate_player_move := false;
  eval_before_move := before; is_mate_before_move := false;
  engine_top_lines := lines;
  player_move_uci := uci;
  board_before_move := board_before;
  board_after_move := board_after;
  player_color := WHITE;
  engine_multipv := 2;
  brilliant_criteria := settings.BRILLIANT_CRITERIA;
  great_criteria := settings.GREAT_CRITERIA
|}.

(** Best and played evaluation +50, the mover's knight gone after the move. *)
Definition sacrifice_ctx : MoveAnalysisContext :=
  context_of (Some 50%Q) (Some 45%Q) (Some 50%Q) (Some 50%Q)
             [cp_line "f3e5" 50; cp_line "e1e2" 45] "f3e5" knight_up bare_kings.

(** The same sacrifice, played as the engine's first line with a gap of 200 cp
    to the second line. *)
Definition sacrifice_great_ctx : MoveAnalysisContext :=
  context_of (Some 300%Q) (Some 100%Q) (Some 300%Q) (Some 300%Q)
             [cp_line "f3e5" 300; cp_line "e1e2" 100] "f3e5" knight_up bare_kings.

(** The engine's first line, 300 cp ahead of the second, is played and leaves
    a position for which no evaluation came back. *)
Definition great_without_eval_ctx : MoveAnalysisContext :=
  context_of (Some 0%Q) (Some (-300)%Q) None (Some 0%Q)
             [cp_line "e1e2" 0; cp_line "e1d1" (-300)] "e1e2" bare_kings bare_kings.

(** First line +400, second +250, first line played. *)
Definition great_ctx : MoveAnalysisContext :=
  context_of (Some 400%Q) (Some 250%Q) (Some 400%Q) (Some 400%Q)
             [cp_line "e1e2" 400; cp_line "e1d1" 250] "e1e2" bare_kings bare_kings.

(** Best +300, played move drops to +50, nothing sacrificed. *)
Definition mistake_ctx : MoveAnalysisContext :=
  context_of (Some 300%Q) (Some 290%Q) (Some 50%Q) (Some 300%Q)
             [cp_line "e1e2" 300; cp_line "e1d1" 290] "e1f1" bare_kings bare_kings.

End Scenarios.

(** ** Positions of a game, and concrete games *)

(** The board after the first [i] moves of the mainline, every move pushed. *)
Definition board_at `{ChessBoard} (game : Game) (i : nat) : Board :=
  foldl push (game_board game) (node_move <$> take i (mainline game)).

(** [lines[0] if lines else None], as the context builder reads a position's
    evaluation set out of the provider's mapping with [analyses.get]. *)
Definition analyses_get (analyses : gmap string (option Analysis)) (fen : string)
  : option Analysis :=
  match analyses !! fen with Some lines => lines | None => None end.

Definition first_line (lines : option Analysis) : option Line :=
  match lines with Some (line :: _) => Some line | _ => None end.


Module Games.
Import Quiet_board.

Definition node (m : Move) : GameNode := {| node_move := m; node_comment := "" |}.

(** 1. e4 e5 2. Nf3 Nc6 3. Bb5 a6, the game of the test fixtures. *)
Definition sample_game : Game := {|
  headers := {[ "Event" := "Test Game"; "White" := "Player A"; "Black" := "Player B" ]};
  game_board := starting_board;
  mainline := node <$> [e2e4; e7e5; g1f3; uci_move 57 42; uci_move 5 33; uci_move 48 40]
|}.

(** 1. e4 -- 2. d4: Black passes with a null move. *)
Definition null_move_game : Game := {|
  headers := ∅;
  game_board := starting_board;
  mainline := node <$> [e2e4; Move_null; d2d4]
|}.


Definition fen_start : string :=
  "rnbqkbnr/pppppppp/8/8/8/8/PPPPPPPP/RNBQKBNR w KQkq - 0 1".
Definition fen_after_e4 : string :=
  "rnbqkbnr/pppppppp/8/8/4P3/8/PPPP1PPP/RNBQKBNR b KQkq - 0 1".
Definition fen_after_e4_d4_unpassed : string :=
  "rnbqkbnr/pppppppp/8/8/3PP3/8/PPP2PPP/RNBQKBNR w KQkq - 0 2".

End Games.

(** ** Reading the cache and the engine, for the statements *)



(** What the batch read finds for a position under the provider's key. *)
Definition cache_hit (self : AnalysisProvider) (db : DBManager) (fen : string)
  : option Analysis :=
  match db_rows db !! {| key_fen := fen; key_analysis_depth := analysis_depth self;
                         key_multipv_count := multipv_count self;
                         key_stockfish_path_canon := stockfish_path self;
                         key_stockfish_version := stockfish_version self |} with
  | Some (Json a) => Some a
  | Some CorruptJson | None => None
  end.

(** What an engine outcome leaves in the result dictionary. *)
Definition outcome_result (o : sf_outcome) : option Analysis :=
  match o with SfTopMoves a => Some a | SfInvalidFen | SfException => None end.

(** A run of the provider on the game 1. e4 -- 2. d4: the starting position
    is cached, the engine rejects the position after 1. e4 and evaluates
    anything else. *)
Module Runs.
Import Quiet_board.

Definition provider : AnalysisProvider := {|
  analysis_depth := 18; multipv_count := 2;
  stockfish_path := "/usr/bin/stockfish"; stockfish_version := "16"
|}.

Definition cached_start : Analysis :=
  [Scenarios.cp_line "e2e4" 35; Scenarios.cp_line "d2d4" 30].

Definition engine_answer : Analysis :=
  [Scenarios.cp_line "e7e5" (-30); Scenarios.cp_line "c7c5" (-35)].

Definition env : Env := {|
  sf_respond := fun fen _ =>
    if bool_decide (fen = Games.fen_after_e4) then SfInvalidFen
    else SfTopMoves engine_answer;
  sf_responsive := true;
  sf_restart_ok := true;
  sqlite_read_error := false;
  sqlite_write_error := false
|}.

Definition world : World := {|
  w_db := {| db_rows := {[ {| key_fen := Games.fen_start; key_analysis_depth := 18;
                              key_multipv_count := 2;
                              key_stockfish_path_canon := "/usr/bin/stockfish";
                              key_stockfish_version := "16" |} := Json cached_start ]};
             db_conn := true; db_is_closed := false; db_batches := [] |};
  w_sf := {| sf_stockfish := true; sf_is_closed := false; sf_multipv_count := 2 |};
  w_progress := {| progress_total := 0; progress_n := 0 |}
|}.

End Runs.

(** ** utils/chess_utils.get_material_value *)



(** ** context_builders.build_move_analysis_context *)

(** [lines[1] if lines and len(lines) > 1 else None]. *)
Definition second_line (lines : option Analysis) : option Line :=
  match lines with Some (_ :: line :: _) => Some line | _ => None end.

Section ContextBuilder.
Context `{PyBuiltins} `{ChessBoard}.

(** [move_data.pgn_node.board()]: the board python-chess rebuilds for the
    node from its ancestors in the game tree. *)
Variable pgn_node_board : MoveData -> Board.

Definition build_move_analysis_context (move_data : MoveData)
    (analyses : gmap string (option Analysis)) (multipv_setting : Z)
  : MoveAnalysisContext :=
  let lines_before := analyses_get analyses (fen_before_move move_data) in
  let lines_after := analyses_get analyses (fen_after_move move_data) in
  let player := turn (md_board_before_move move_data) in
  let best_line := first_line lines_before in
  let second_best_line := second_line lines_before in
  let player_move_line := first_line lines_after in
  let '(eval_best, mate_best, _) := get_score_from_line best_line player in
  let '(eval_second, mate_second, _) := get_score_from_line second_best_line player in
  let '(eval_player, mate_player, _) := get_score_from_line player_move_line player in
  let eval_before := eval_best in
  let mate_before := mate_best in
  {| eval_best_move := eval_best; is_mate_best_move := mate_best;
     eval_second_best_move := eval_second; is_mate_second_best_move := mate_second;
     eval_player_move := eval_player; is_mate_player_move := mate_player;
     eval_before_move := eval_before; is_mate_before_move := mate_before;
     engine_top_lines := default [] lines_before;
     player_move_uci := Move_uci (actual_move_obj move_data);
     board_before_move := md_board_before_move move_data;
     board_after_move := pgn_node_board move_data;
     player_color := player;
     engine_multipv := multipv_setting;
     brilliant_criteria := settings.BRILLIANT_CRITERIA;
     great_criteria := settings.GREAT_CRITERIA |}.

End ContextBuilder.

(** ** cache/db_manager.py: single read and close;
       engine/stockfish_controller.close *)

Definition get_cached_analysis (env : Env) (k : CacheKey) : M (option Analysis) :=
  _ ← _ensure_connected;
  if sqlite_read_error env then raise CacheReadError
  else
    w ← get_world;
    mret (match db_rows (w_db w) !! k with
          | Some (Json a) => Some a
          | Some CorruptJson | None => None
          end).

Definition DBManager_close : M unit :=
  w ← get_world;
  if db_is_closed (w_db w) then mret tt
  else set_db {| db_rows := db_rows (w_db w); db_conn := false;
                 db_is_closed := true; db_batches := db_batches (w_db w) |}.

Definition StockfishController_close : M unit :=
  w ← get_world;
  if sf_is_closed (w_sf w) then mret tt
  else set_sf {| sf_stockfish := false; sf_is_closed := true;
                 sf_multipv_count := sf_multipv_count (w_sf w) |}.

(** ** game_processor.GameProcessor._add_final_pgn_headers *)

(** [sum] of a list of floats. *)
Definition py_sum (l : list Q) : Q := foldl Qplus 0%Q l.

(** [format(x, ".1f")]. *)
Definition format_1f (q : Q) : string :=
  let n := round_half_even (Qabs q * 10) in
  (if Qltb q 0 then "-" else "")
  +:+ pretty (Z.to_N (n / 10)) +:+ "." +:+ pretty (Z.to_N (n mod 10)).

Definition acpl_header (cpls : list Q) : string :=
  match cpls with
  | [] => "0.0"
  | _ => format_1f (py_sum cpls / inject_Z (Z.of_nat (length cpls)))
  end.

Definition _add_final_pgn_headers `{ChessBoard} (game : Game)
    (results : list ClassificationResult) : Game :=
  let white_cpls :=
    (fun ir : nat * ClassificationResult => cpl ir.2)
      <$> filter (fun ir : nat * ClassificationResult => Nat.even ir.1 = true)
                 (enumerate results) in
  let black_cpls :=
    (fun ir : nat * ClassificationResult => cpl ir.2)
      <$> filter (fun ir : nat * ClassificationResult => Nat.even ir.1 <> true)
                 (enumerate results) in
  {| headers := <["BlackACPL" := acpl_header black_cpls]>
                  (<["WhiteACPL" := acpl_header white_cpls]> (headers game));
     game_board := game_board game;
     mainline := mainline game |}.

(** ** reporting/report_generator.py *)

Module accuracy_settings.
Definition ACCURACY_CONSTANT_A : Q := 103.1668.
Definition ACCURACY_CONSTANT_B : Q := - 0.004354.
Definition ACCURACY_CONSTANT_C : Q := - 3.1668.
End accuracy_settings.

(** A cell of a report row: text or a count. *)
Inductive cell : Type :=
| CellStr (s : string)
| CellInt (n : Z).

Section ReportGenerator.

(** [math.exp]; [None] stands for [OverflowError]. *)
Variable math_exp : Q -> option Q.

Definition _calculate_accuracy (average_cpl : Q) : Q :=
  let average_cpl := if Qltb average_cpl 0 then 0%Q else average_cpl in
  let accuracy :=
    match math_exp (accuracy_settings.ACCURACY_CONSTANT_B * average_cpl) with
    | Some e => (accuracy_settings.ACCURACY_CONSTANT_A * e
                 + accuracy_settings.ACCURACY_CONSTANT_C)%Q
    | None => 0%Q
    end in
  py_max 0 (py_min 100 accuracy).

(** The dictionary built for one summary: the computed columns, then every
    PGN header on top of them. *)
Definition row_data (summary : GameSummary) : gmap string cell :=
  let total_moves := length (player_cpls summary) in
  let total := inject_Z (Z.of_nat total_moves) in
  let average_cpl := (py_sum (player_cpls summary) / total)%Q in
  let accuracy_percent := _calculate_accuracy average_cpl in
  let top1_match_percent :=
    (inject_Z (Z.of_nat (engine_top1_match_count summary)) / total * 100)%Q in
  let topN_match_percent :=
    (inject_Z (Z.of_nat (engine_topN_match_count summary)) / total * 100)%Q in
  let counts := move_classification_counts summary in
  let count_of := fun label => CellInt (Z.of_nat (default 0 (counts !! label))) in
  (CellStr <$> pgn_headers summary)
  ∪ list_to_map
      [ ("GameID", CellStr (game_id summary));
        ("AnalyzedPlayer", CellStr (analyzed_player_name summary));
        ("PlayerColor", CellStr (player_color_str summary));
        ("AccuracyPercent", CellStr (format_1f accuracy_percent));
        ("AverageCPL", CellStr (format_1f average_cpl));
        ("TotalMoves", CellInt (Z.of_nat total_moves));
        ("Brilliant", count_of "Brilliant ✨");
        ("Great", count_of "Great Move !");
        ("Best", count_of "Best");
        ("Good", count_of "Good");
        ("OK", count_of "OK");
        ("Dubious", count_of "Dubious");
        ("Inaccuracy", count_of "Inaccuracy");
        ("Mistake", count_of "Mistake");
        ("Blunder", count_of "Blunder");
        ("EngineTop1MatchPercent", CellStr (format_1f top1_match_percent));
        ("EngineTopNMatchPercent", CellStr (format_1f topN_match_percent)) ].

(** The rows [generate_csv_report] hands to the CSV writer: one per summary
    with at least one move. *)
Definition rows_to_write (game_summaries : list GameSummary)
  : list (gmap string cell) :=
  omap (fun summary =>
          if (length (player_cpls summary) =? 0)%nat then None
          else Some (row_data summary)) game_summaries.

End ReportGenerator.

(** ** Concrete data for the game loop: the first move of the sample game *)

Module Plies.
Import Quiet_board.

(** [node.board()] when the node's move is the one recorded beside it. *)
Definition node_board (move_data : MoveData) : qboard :=
  q_push (md_board_before_move move_data) (actual_move_obj move_data).

(** 1. e4 as the collector records it. *)
Definition first_ply : MoveData := {|
  pgn_node := Games.node e2e4;
  actual_move_obj := e2e4;
  md_board_before_move := starting_board;
  fen_before_move := Games.fen_start;
  fen_after_move := Games.fen_after_e4
|}.

(** Both positions of the ply evaluated. *)
Definition both_evaluated : gmap string (option Analysis) :=
  {[ Games.fen_start := Some Runs.cached_start;
     Games.fen_after_e4 := Some Runs.engine_answer ]}.

(** The position after the move rejected by the engine. *)
Definition after_rejected : gmap string (option Analysis) :=
  {[ Games.fen_start := Some Runs.cached_start; Games.fen_after_e4 := None ]}.

End Plies.

(** ** Runs that fail: an engine fault, a closed cache *)

Module Faults.

(** The engine process dies on the position after 1. e4. *)
Definition env_engine_fault : Env := {|
  sf_respond := fun fen _ =>
    if bool_decide (fen = Games.fen_after_e4) then SfException
    else SfTopMoves Runs.engine_answer;
  sf_responsive := true;
  sf_restart_ok := true;
  sqlite_read_error := false;
  sqlite_write_error := false
|}.

(** The world of [Runs.world] after the cache was closed. *)
Definition closed_cache_world : World := {|
  w_db := {| db_rows := db_rows (w_db Runs.world); db_conn := false;
             db_is_closed := true; db_batches := [] |};
  w_sf := w_sf Runs.world;
  w_progress := w_progress Runs.world
|}.

End Faults.

(** ** A game without moves, and a batch of one entry *)

Module Cached.

(** Headers only: the starting position is the one planned position. *)
Definition no_move_game : Game := {|
  headers := {[ "White" := "Player A"; "Black" := "Player B" ]};
  game_board := Quiet_board.starting_board;
  mainline := []
|}.

(** The engine's answer for the position after 1. e4, as the provider
    hands it to the cache. *)
Definition one_entry : list CacheEntry :=
  [ {| key := cache_key Runs.provider Games.fen_after_e4;
       analysis_result := Runs.engine_answer |} ].

(** The world of [Runs.world] with the controller closed. *)
Definition closed_engine_world : World := {|
  w_db := w_db Runs.world;
  w_sf := {| sf_stockfish := false; sf_is_closed := true; sf_multipv_count := 2 |};
  w_progress := w_progress Runs.world
|}.

End Cached.

(** ** game_processor.GameProcessor.process_game, step 3

    The summary is built from the game as it stands (it copies the headers),
    then the ACPL headers are added to the game. *)
Definition finalize_results `{PyBuiltins} `{ChessBoard} (game : Game)
    (game_id : string) (target_player : option string)
    (all_classification_results : list ClassificationResult)
  : Game * option GameSummary :=
  let game_summary :=
    build_game_summary game game_id target_player all_classification_results in
  let game := _add_final_pgn_headers game all_classification_results in
  (game, game_summary).

(** ** Classified plies for the tallies, and a stand-in for [math.exp] *)

Module Tallies.
Import Quiet_board.

(** Best +400, the played move drops to 0. *)
Definition blunder_ctx : MoveAnalysisContext :=
  Scenarios.context_of (Some 400%Q) (Some 390%Q) (Some 0%Q) (Some 400%Q)
    [Scenarios.cp_line "e1e2" 400; Scenarios.cp_line "e1d1" 390] "e1f1"
    Scenarios.bare_kings Scenarios.bare_kings.

Definition plain_result (text : string) (c : Q) : ClassificationResult :=
  {| classification_text := text; cpl := c; raw_cpl := c;
     is_brilliant := false; is_great := false;
     is_engine_top_choice := false; is_engine_top_n_choice := false |}.

(** White blunders on the first ply, Black answers with a mistake. *)
Definition results : list ClassificationResult :=
  [ plain_result "Blunder !!! (CPL: 400)" 400;
    plain_result "Mistake (CPL: 250)" (300 - 50) ].

(** The tangent at 0, cut at 0: below [exp] everywhere, total and monotone. *)
Definition exp_tangent (x : Q) : option Q := Some (Qmax 0 (1 + x)).

End Tallies.

(** ** statistics.py

    The tracker's counters and the number of summarized games (the two file
    paths, which are only printed, are left out). *)

Record StatisticsTracker : Type := {
  stats : gmap string Z;
  games_summarized_for_report : Z
}.

(** [counter[key] += n] on a [collections.Counter]: a missing key counts
    as 0 and is created by the assignment. *)
Definition counter_add (counter : gmap string Z) (k : string) (n : Z)
  : gmap string Z :=
  <[k := (default 0 (counter !! k) + n)%Z]> counter.

Definition StatisticsTracker_reset (self : StatisticsTracker) : StatisticsTracker :=
  {| stats := ∅; games_summarized_for_report := 0 |}.

Definition add_game_read (self : StatisticsTracker) : StatisticsTracker :=
  {| stats := counter_add (stats self) "games_read" 1;
     games_summarized_for_report := games_summarized_for_report self |}.

Definition add_game_skipped (self : StatisticsTracker) (reason : string)
  : StatisticsTracker :=
  {| stats := counter_add (counter_add (stats self) "games_skipped_total" 1)
                          ("skipped_" +:+ reason) 1;
     games_summarized_for_report := games_summarized_for_report self |}.

Definition add_game_analyzed (self : StatisticsTracker) : StatisticsTracker :=
  {| stats := counter_add (stats self) "games_analyzed" 1;
     games_summarized_for_report := games_summarized_for_report self |}.

Definition add_game_with_error (self : StatisticsTracker) : StatisticsTracker :=
  {| stats := counter_add (stats self) "games_with_errors" 1;
     games_summarized_for_report := games_summarized_for_report self |}.

Definition add_fen_cache_hits (self : StatisticsTracker) (count : Z)
  : StatisticsTracker :=
  {| stats := counter_add (stats self) "fen_cache_hits" count;
     games_summarized_for_report := games_summarized_for_report self |}.

Definition add_fens_analyzed_by_engine (self : StatisticsTracker) (count : Z)
  : StatisticsTracker :=
  {| stats := counter_add (stats self) "fens_analyzed_by_engine" count;
     games_summarized_for_report := games_summarized_for_report self |}.

Definition set_games_summarized_for_report (self : StatisticsTracker) (count : Z)
  : StatisticsTracker :=
  {| stats := stats self; games_summarized_for_report := count |}.

Definition display_order : list (string * string) :=
  [ ("games_read", "Total Games Read from PGN");
    ("games_analyzed", "Games Fully Analyzed");
    ("games_skipped_total", "Total Games Skipped");
    ("skipped_already_processed", "  - Skipped (Already Processed)");
    ("skipped_no_moves", "  - Skipped (No Moves Found)");
    ("games_with_errors", "Games with Critical Errors");
    ("fen_cache_hits", "FENs Found in Cache");
    ("fens_analyzed_by_engine", "FENs Analyzed by Engine") ].

(** The counter lines [log_summary] prints: one per key of the display order
    that is in the counter, as the pair of its text and its value. *)
Definition log_summary (self : StatisticsTracker) : list (string * Z) :=
  omap (fun entry : string * string =>
          (fun value => (entry.2, value)) <$> stats self !! entry.1)
       display_order.

(** ** pipeline.py: [AnalysisPipeline.run]

    What one game of the input meets in the loop body: [process_game]
    raises; or it returns and the export raises [PGNExportError]; or the game
    is exported.  The shutdown event is never set, and the input file is
    readable. *)
Inductive game_outcome : Type :=
| ProcessRaises (e : exn)
| ExportRaises (cache_hits engine_runs : nat)
| Exported (summary : option GameSummary) (cache_hits engine_runs : nat).

(** [except (StockfishError, CacheError, PGNError)]: the classes of the
    exception hierarchy that the loop body catches. *)
Definition caught_per_game (e : exn) : bool :=
  match e with
  | StockfishError | StockfishAnalysisError
  | CacheError | CacheConnectionError | CacheReadError | CacheWriteError => true
  | TypeError | ValueError => false
  end.

Record RunState : Type := {
  stats_tracker : StatisticsTracker;
  game_summaries : list GameSummary;
  exported_games : nat
}.

(** The [for] loop over the streamed games; [Some e] is an exception that
    leaves the loop for the outer handler. *)
Fixpoint game_loop (outcomes : list game_outcome) (st : RunState)
  : RunState * option exn :=
  match outcomes with
  | [] => (st, None)
  | outcome :: rest =>
      let tracker := add_game_read (stats_tracker st) in
      match outcome with
      | ProcessRaises e =>
          if caught_per_game e then
            game_loop rest {| stats_tracker := add_game_with_error tracker;
                              game_summaries := game_summaries st;
                              exported_games := exported_games st |}
          else
            ({| stats_tracker := tracker; game_summaries := game_summaries st;
                exported_games := exported_games st |}, Some e)
      | ExportRaises cache_hits engine_runs =>
          let tracker := add_fen_cache_hits tracker (Z.of_nat cache_hits) in
          let tracker := add_fens_analyzed_by_engine tracker (Z.of_nat engine_runs) in
          game_loop rest {| stats_tracker := add_game_with_error tracker;
                            game_summaries := game_summaries st;
                            exported_games := exported_games st |}
      | Exported summary cache_hits engine_runs =>
          let tracker := add_fen_cache_hits tracker (Z.of_nat cache_hits) in
          let tracker := add_fens_analyzed_by_engine tracker (Z.of_nat engine_runs) in
          let tracker := add_game_analyzed tracker in
          game_loop rest {| stats_tracker := tracker;
                            game_summaries :=
                              match summary with
                              | Some s => game_summaries st ++ [s]
                              | None => game_summaries st
                              end;
                            exported_games := S (exported_games st) |}
      end
  end.

(** The outcome of a run: the tracker as [log_summary] finds it, the games
    written, the summaries handed to [generate_csv_report] if it was called,
    and the exception that left the game loop for the outer handler, if
    any. *)
Record RunResult : Type := {
  final_stats : StatisticsTracker;
  games_written : nat;
  report_input : option (list GameSummary);
  fatal_error : option exn
}.

Definition run (processed_ids : nat) (outcomes : list game_outcome) : RunResult :=
  let tracker := StatisticsTracker_reset {| stats := ∅; games_summarized_for_report := 0 |} in
  let tracker :=
    add_game_skipped tracker ("already_processed', " +:+ pretty processed_ids) in
  let '(st, err) :=
    game_loop outcomes {| stats_tracker := tracker; game_summaries := [];
                          exported_games := 0 |} in
  match err with
  | Some e =>
      {| final_stats := stats_tracker st; games_written := exported_games st;
         report_input := None; fatal_error := Some e |}
  | None =>
      match game_summaries st with
      | [] =>
          {| final_stats := stats_tracker st; games_written := exported_games st;
             report_input := None; fatal_error := None |}
      | summaries =>
          {| final_stats :=
               set_games_summarized_for_report (stats_tracker st)
                 (Z.of_nat (length summaries));
             games_written := exported_games st;
             report_input := Some summaries; fatal_error := None |}
      end
  end.

(** For the statements: the outcomes the loop gets to (up to and including
    the first exception it does not catch), and what they add up to. *)
Definition leaves_loop (outcome : game_outcome) : bool :=
  match outcome with
  | ProcessRaises e => negb (caught_per_game e)
  | _ => false
  end.

Fixpoint reached (outcomes : list game_outcome) : list game_outcome :=
  match outcomes with
  | [] => []
  | outcome :: rest =>
      outcome :: (if leaves_loop outcome then [] else reached rest)
  end.

Definition is_exported (outcome : game_outcome) : bool :=
  match outcome with Exported _ _ _ => true | _ => false end.

Definition is_counted_error (outcome : game_outcome) : bool :=
  match outcome with
  | ProcessRaises e => caught_per_game e
  | ExportRaises _ _ => true
  | Exported _ _ _ => false
  end.

Definition outcome_cache_hits (outcome : game_outcome) : Z :=
  match outcome with
  | ProcessRaises _ => 0
  | ExportRaises cache_hits _ | Exported _ cache_hits _ => Z.of_nat cache_hits
  end.

Definition outcome_engine_runs (outcome : game_outcome) : Z :=
  match outcome with
  | ProcessRaises _ => 0
  | ExportRaises _ engine_runs | Exported _ _ engine_runs => Z.of_nat engine_runs
  end.

Definition outcome_summary (outcome : game_outcome) : option GameSummary :=
  match outcome with Exported summary _ _ => summary | _ => None end.

Definition count_of (counter : gmap string Z) (k : string) : Z :=
  default 0%Z (counter !! k).

Definition sum_Z (l : list Z) : Z := foldr Z.add 0%Z l.

(** What one reached outcome adds to the counter [k]. *)
Definition outcome_delta (k : string) (outcome : game_outcome) : Z :=
  ((if decide (k = "games_read") then 1 else 0)
   + (if decide (k = "games_analyzed")
      then (if is_exported outcome then 1 else 0) else 0)
   + (if decide (k = "games_with_errors")
      then (if is_counted_error outcome then 1 else 0) else 0)
   + (if decide (k = "fen_cache_hits") then outcome_cache_hits outcome else 0)
   + (if decide (k = "fens_analyzed_by_engine")
      then outcome_engine_runs outcome else 0))%Z.

(** ** A run of three games: exported, failing in the classifier, exported *)

Module Batch.

Definition outcomes : list game_outcome :=
  [ Exported None 3 0; ProcessRaises TypeError; Exported None 0 2 ].

(** Three games, the second losing its engine. *)
Definition recovering : list game_outcome :=
  [ Exported None 3 0; ProcessRaises StockfishAnalysisError; Exported None 0 2 ].

End Batch.
(** * Properties *)

(** ** Rational comparisons *)

Lemma Qltb_lt (a b : Q) : Qltb a b = true <-> (a < b)%Q.
Proof.
  unfold Qltb. rewrite negb_true_iff, <- not_true_iff_false, Qle_bool_iff.
  split; [apply Qnot_le_lt | apply Qlt_not_le].
Qed.

Lemma Qltb_ge (a b : Q) : Qltb a b = false <-> (b <= a)%Q.
Proof.
  unfold Qltb. rewrite negb_false_iff. apply Qle_bool_iff.
Qed.

Lemma Qgtb_gt (a b : Q) : Qgtb a b = true <-> (b < a)%Q.
Proof. apply Qltb_lt. Qed.

Lemma Qgtb_le (a b : Q) : Qgtb a b = false <-> (a <= b)%Q.
Proof. apply Qltb_ge. Qed.

Lemma Qgeb_ge (a b : Q) : Qgeb a b = true <-> (b <= a)%Q.
Proof. apply Qle_bool_iff. Qed.

Lemma Qgeb_lt (a b : Q) : Qgeb a b = false <-> (a < b)%Q.
Proof.
  unfold Qgeb. rewrite <- not_true_iff_false, Qle_bool_iff.
  split; [apply Qnot_le_lt | apply Qlt_not_le].
Qed.

Lemma Qle_bool_false (a b : Q) : Qle_bool a b = false <-> (b < a)%Q.
Proof. apply Qgeb_lt. Qed.

Lemma py_max_spec (a b : Q) : (py_max a b == Qmax a b)%Q.
Proof.
  unfold py_max. destruct (Qgtb b a) eqn:E.
  - apply Qgtb_gt in E. symmetry. apply Q.max_r. by apply Qlt_le_weak.
  - apply Qgtb_le in E. symmetry. by apply Q.max_l.
Qed.

Lemma py_min_spec (a b : Q) : (py_min a b == Qmin a b)%Q.
Proof.
  unfold py_min. destruct (Qltb b a) eqn:E.
  - apply Qltb_lt in E. symmetry. apply Q.min_r. by apply Qlt_le_weak.
  - apply Qltb_ge in E. symmetry. by apply Q.min_l.
Qed.

(** ** Score normalisation *)

Section ScoreNormalizer.
Context `{PyBuiltins}.

Lemma get_score_from_line_absent (p : Color) :
  get_score_from_line None p = (None, false, None)
  /\ get_score_from_line (Some ∅) p = (None, false, None).
Proof. split; [done|]. unfold get_score_from_line. by rewrite decide_True. Qed.


(** When the line carries a real mate ([is_mate] set) or no mate at all as
    seen from White, the mate distance is negated too. *)
Lemma get_score_from_line_distance_negation (line : option Line) :
  (mate_flag_of (get_score_from_line line WHITE) = true
   \/ mate_distance_of (get_score_from_line line WHITE) = None) ->
  mate_distance_of (get_score_from_line line BLACK)
    = Z.opp <$> mate_distance_of (get_score_from_line line WHITE).
Proof.
  destruct line as [d|]; [|done]. unfold get_score_from_line.
  destruct (decide (d = ∅)); [done|].
  destruct (score_wpov_of_line d) as [[[s|] b] m]; [|done].
  cbn. intros [->| ->]; [done|]. by destruct b.
Qed.

Lemma score_wpov_of_line_mate (d : Line) (v : pyval) (m : Z) :
  dict_get d "Mate" = v -> v <> VNone -> py_int v = Ret m ->
  score_wpov_of_line d =
    if (m =? 0)%Z then (Some 0%Q, false, Some m)
    else if (m >? 0)%Z then (Some (30000 - inject_Z (Z.abs m))%Q, true, Some m)
    else (Some (- (30000) + inject_Z (Z.abs m))%Q, true, Some m).
Proof.
  intros Hv Hn Hm. unfold score_wpov_of_line. rewrite Hv.
  destruct v; try done; cbn [is_none negb]; by rewrite Hm.
Qed.

End ScoreNormalizer.

Lemma mate_line_nonempty (m : Z) : ({[ "Mate" := VInt m ]} : Line) <> ∅.
Proof. apply map_non_empty_singleton. Qed.

Lemma get_score_from_line_mate_line `{PyBuiltins} (m : Z) :
  get_score_from_line (Some {[ "Mate" := VInt m ]}) WHITE =
    if (m =? 0)%Z then (Some 0%Q, false, Some m)
    else if (m >? 0)%Z then (Some (30000 - inject_Z (Z.abs m))%Q, true, Some m)
    else (Some (- (30000) + inject_Z (Z.abs m))%Q, true, Some m).
Proof.
  unfold get_score_from_line.
  rewrite decide_False by apply mate_line_nonempty.
  rewrite (score_wpov_of_line_mate _ (VInt m) m); [|done..].
  by destruct (m =? 0)%Z, (m >? 0)%Z.
Qed.



(** C7 (evaluation at the failing input).  On the line [{"Mate": 0}] the
    normaliser hands White the mate distance [0] and Black no mate distance at
    all: the two sides do not return negated mate distances, although the
    scores ([0] and [-0]) and the mate flags agree.  The repository's own
    test expects [None] for White on this line. *)
Theorem get_score_from_line_mate_zero_sides `{PyBuiltins} :
  get_score_from_line (Some {[ "Mate" := VInt 0 ]}) WHITE
    = (Some 0%Q, false, Some 0%Z)
  /\ get_score_from_line (Some {[ "Mate" := VInt 0 ]}) BLACK
    = (Some (- 0)%Q, false, None)
  /\ mate_distance_of (get_score_from_line (Some {[ "Mate" := VInt 0 ]}) BLACK)
    <> Z.opp <$> mate_distance_of
                   (get_score_from_line (Some {[ "Mate" := VInt 0 ]}) WHITE).
Proof.
  assert (HW : get_score_from_line (Some {[ "Mate" := VInt 0 ]}) WHITE
               = (Some 0%Q, false, Some 0%Z))
    by (by rewrite get_score_from_line_mate_line).
  assert (HB : get_score_from_line (Some {[ "Mate" := VInt 0 ]}) BLACK
               = (Some (- 0)%Q, false, None)).
  { unfold get_score_from_line in *.
    rewrite decide_False in * by apply mate_line_nonempty.
    by destruct (score_wpov_of_line _) as [[[s|] b] m]; simplify_eq. }
  split; [exact HW|]. split; [exact HB|].
  rewrite HW, HB. cbn. discriminate.
Qed.




(** ** Material count *)

Lemma round_half_even_Z (q : Q) (z : Z) :
  (q == inject_Z z)%Q -> round_half_even q = z.
Proof.
  intros Hq. unfold round_half_even. cbv zeta.
  rewrite (Qfloor_comp _ _ Hq), Qfloor_Z.
  assert (Hlt : (q - inject_Z z < 1 # 2)%Q) by (rewrite Hq; lra).
  apply Qlt_alt in Hlt. unfold Qcompare in *. by rewrite Hlt.
Qed.

Lemma py_round2_tenths (z : Z) :
  (py_round2 (inject_Z z / 10) == inject_Z z / 10)%Q.
Proof.
  unfold py_round2. rewrite (round_half_even_Z _ (10 * z)).
  - rewrite inject_Z_mult. field.
  - rewrite inject_Z_mult. field.
Qed.



(** ** Move classification *)

Section ClassifierProperties.
Context `{ChessBoard}.

(** The dictionary of a result already holds both top-choice keys, so the
    merge with the two explicit keywords is refused. *)
Lemma kw_merge_top_flags_raises (r : ClassificationResult) (b1 b2 : bool) :
  kw_merge (ClassificationResult_dict r)
    [ ("is_engine_top_choice", FBool b1); ("is_engine_top_n_choice", FBool b2) ]
  = Raise TypeError.
Proof. reflexivity. Qed.

(** Without the duplicated keywords the constructor rebuilds the record. *)
Lemma ClassificationResult_init_dict (r : ClassificationResult) :
  ClassificationResult_init (ClassificationResult_dict r) = Ret r.
Proof. by destruct r. Qed.

(** Stage 1: the missing-data guard. *)
Lemma classify_move_missing_data (ctx : MoveAnalysisContext) :
  eval_best_move ctx = None \/ eval_player_move ctx = None ->
  classify_move ctx
  = Ret {| classification_text := "Unavailable (eval error)"; cpl := 0; raw_cpl := 0;
           is_brilliant := false; is_great := false;
           is_engine_top_choice := false; is_engine_top_n_choice := false |}.
Proof.
  unfold classify_move. intros [-> | ->]; [done|].
  by destruct (eval_best_move ctx).
Qed.

Lemma _check_for_brilliant_spec (ctx : MoveAnalysisContext) (raw : Q) :
  let crit := brilliant_criteria ctx in
  (exists played before,
      eval_player_move ctx = Some played /\ eval_before_move ctx = Some before
      /\ (raw <= max_cpl crit)%Q
      /\ ~ (is_mate_before_move ctx = true /\ (0 < before)%Q)
      /\ ~ (is_mate_before_move ctx = false
            /\ (max_eval_before_move_cp crit < before)%Q)
      /\ (before - played <= eval_drop_leniency_cp crit)%Q
      /\ (min_sacrifice_net_material_pawns crit
          <= get_material_diff (board_before_move ctx) (player_color ctx)
             - get_material_diff (board_after_move ctx) (player_color ctx))%Q)
  <-> _check_for_brilliant ctx raw
      = Some {| classification_text := "Brilliant ✨"; cpl := 0; raw_cpl := raw;
                is_brilliant := true; is_great := false;
                is_engine_top_choice := false; is_engine_top_n_choice := false |}.
Proof.
  cbn zeta. unfold _check_for_brilliant, _is_significant_piece_sacrifice.
  destruct (eval_player_move ctx) as [played|]; [|split; [intros (?&?&?&_)|]; done].
  destruct (eval_before_move ctx) as [before|];
    [|split; [intros (?&?&_&?&_)|]; done].
  destruct (Qgtb raw _) eqn:E1.
  { apply Qgtb_gt in E1. split; [|done].
    intros (?&?&_&_&Hle&_). by apply Qle_not_lt in Hle. }
  apply Qgtb_le in E1.
  destruct (is_mate_before_move ctx) eqn:Em; cbn [andb negb].
  - destruct (Qgtb before 0) eqn:E2.
    { apply Qgtb_gt in E2. split; [|done].
      intros (?&?&_&?&_&Hn&_). simplify_eq. by destruct Hn. }
    destruct (Qgtb (before - played) _) eqn:E3.
    { apply Qgtb_gt in E3. split; [|done].
      intros (?&?&?&?&_&_&_&Hle&_). simplify_eq. by apply Qle_not_lt in Hle. }
    apply Qgtb_le in E3.
    destruct (Qgeb _ _) eqn:E4; cbn [negb].
    + apply Qgeb_ge in E4. split; [done|]. intros _.
      exists played, before. repeat split; try done.
      * intros [_ Hlt]. apply Qgtb_le in E2. by apply Qle_not_lt in E2.
      * by intros [? _].
    + apply Qgeb_lt in E4. split; [|done].
      intros (?&?&_&_&_&_&_&_&Hle). by apply Qle_not_lt in Hle.
  - destruct (Qgtb before _) eqn:E2.
    { apply Qgtb_gt in E2. split; [|done].
      intros (?&?&_&?&_&_&Hn&_). simplify_eq. by destruct Hn. }
    destruct (Qgtb (before - played) _) eqn:E3.
    { apply Qgtb_gt in E3. split; [|done].
      intros (?&?&?&?&_&_&_&Hle&_). simplify_eq. by apply Qle_not_lt in Hle. }
    apply Qgtb_le in E3.
    destruct (Qgeb _ _) eqn:E4; cbn [negb].
    + apply Qgeb_ge in E4. split; [done|]. intros _.
      exists played, before. repeat split; try done.
      * by intros [? _].
      * intros [_ Hlt]. apply Qgtb_le in E2. by apply Qle_not_lt in E2.
    + apply Qgeb_lt in E4. split; [|done].
      intros (?&?&_&_&_&_&_&_&Hle). by apply Qle_not_lt in Hle.
Qed.

Lemma _check_for_brilliant_result (ctx : MoveAnalysisContext) (raw : Q)
    (r : ClassificationResult) :
  _check_for_brilliant ctx raw = Some r ->
  r = {| classification_text := "Brilliant ✨"; cpl := 0; raw_cpl := raw;
         is_brilliant := true; is_great := false;
         is_engine_top_choice := false; is_engine_top_n_choice := false |}.
Proof.
  unfold _check_for_brilliant. intros Hr.
  repeat (match type of Hr with
          | context [match ?x with _ => _ end] => destruct x
          end; try done).
  by simplify_eq.
Qed.

Lemma _check_for_great_result (ctx : MoveAnalysisContext) (top : bool)
    (r : ClassificationResult) :
  _check_for_great ctx top = Some r ->
  r = {| classification_text := "Great Move !"; cpl := 0; raw_cpl := 0;
         is_brilliant := false; is_great := true;
         is_engine_top_choice := true; is_engine_top_n_choice := true |}.
Proof.
  unfold _check_for_great. intros Hr.
  repeat (match type of Hr with
          | context [match ?x with _ => _ end] => destruct x
          end; try done).
  by simplify_eq.
Qed.

(** Whenever stage 2 matches, the call that should attach the top-choice
    flags raises. *)
Lemma classify_move_brilliant_raises (ctx : MoveAnalysisContext)
    (r : ClassificationResult) :
  is_Some (eval_best_move ctx) ->
  _check_for_brilliant ctx (raw_cpl_of ctx) = Some r ->
  classify_move ctx = Raise TypeError.
Proof.
  intros [best Hbest] Hr. unfold classify_move. rewrite Hbest.
  destruct (eval_player_move ctx) as [played|] eqn:Hp.
  - by rewrite Hr.
  - unfold _check_for_brilliant in Hr. by rewrite Hp in Hr.
Qed.

(** The only way out of [classify_move] with an exception is stage 2. *)
Lemma classify_move_raise_inv (ctx : MoveAnalysisContext) (e : exn) :
  classify_move ctx = Raise e ->
  e = TypeError /\ is_Some (eval_best_move ctx)
  /\ is_Some (_check_for_brilliant ctx (raw_cpl_of ctx)).
Proof.
  unfold classify_move.
  destruct (eval_best_move ctx) as [best|]; [|done].
  destruct (eval_player_move ctx) as [played|]; [|done].
  destruct (_check_for_brilliant ctx (raw_cpl_of ctx)) as [b|] eqn:Hb.
  - rewrite kw_merge_top_flags_raises. intros [= <-]. eauto.
  - by destruct (_check_for_great ctx (top_choice ctx)).
Qed.

End ClassifierProperties.

(** C1 (evaluation at the failing input).  With both evaluations present
    (+50 each) and the mover's knight gone after the move, stage 2 matches and
    [classify_move] leaves with [TypeError] instead of returning a
    classification. *)
Theorem classify_move_raises_on_sacrifice :
  _check_for_brilliant Scenarios.sacrifice_ctx (raw_cpl_of Scenarios.sacrifice_ctx)
    = Some {| classification_text := "Brilliant ✨"; cpl := 0; raw_cpl := 50 - 50;
              is_brilliant := true; is_great := false;
              is_engine_top_choice := false; is_engine_top_n_choice := false |}
  /\ classify_move Scenarios.sacrifice_ctx = Raise TypeError.
Proof. split; reflexivity. Qed.

(** C3 (what the code does).  When the Brilliant stage and the Great stage
    both match, [classify_move] returns neither result: it raises
    [TypeError] in the Brilliant branch, before the Great stage is reached. *)
Theorem brilliant_and_great_raises `{ChessBoard} (ctx : MoveAnalysisContext)
    (b g : ClassificationResult) :
  _check_for_brilliant ctx (raw_cpl_of ctx) = Some b ->
  _check_for_great ctx (top_choice ctx) = Some g ->
  classify_move ctx = Raise TypeError
  /\ classify_move ctx <> Ret b /\ classify_move ctx <> Ret g.
Proof.
  intros Hb Hg.
  assert (Hbest : is_Some (eval_best_move ctx)).
  { unfold _check_for_great in Hg.
    destruct (negb _ || _); [done|]. destruct (eval_best_move ctx); [eauto|done]. }
  rewrite (classify_move_brilliant_raises ctx b Hbest Hb). by repeat split.
Qed.

Lemma brilliant_and_great_raises_witness :
  classify_move Scenarios.sacrifice_great_ctx = Raise TypeError.
Proof.
  refine (proj1 (brilliant_and_great_raises Scenarios.sacrifice_great_ctx _ _ _ _));
    reflexivity.
Defined.

(** C4 (what the code does).  The Brilliant conditions (the three evaluations
    exist, raw CPL within the maximum, position not already won, evaluation
    drop within the leniency, net material given up at least the threshold)
    are exactly the conditions under which [classify_move] raises [TypeError];
    no returned result has [is_brilliant] set. *)
Theorem classify_move_brilliant_conditions_raise `{ChessBoard}
    (ctx : MoveAnalysisContext) :
  let crit := brilliant_criteria ctx in
  ((exists best played before,
      eval_best_move ctx = Some best
      /\ eval_player_move ctx = Some played /\ eval_before_move ctx = Some before
      /\ (raw_cpl_of ctx <= max_cpl crit)%Q
      /\ ~ (is_mate_before_move ctx = true /\ (0 < before)%Q)
      /\ ~ (is_mate_before_move ctx = false
            /\ (max_eval_before_move_cp crit < before)%Q)
      /\ (before - played <= eval_drop_leniency_cp crit)%Q
      /\ (min_sacrifice_net_material_pawns crit
          <= get_material_diff (board_before_move ctx) (player_color ctx)
             - get_material_diff (board_after_move ctx) (player_color ctx))%Q)
   <-> classify_move ctx = Raise TypeError)
  /\ (forall r, classify_move ctx = Ret r -> is_brilliant r = false).
Proof.
  cbn zeta. split; [split|].
  - intros (best & played & before & Hbest & Hrest).
    eapply classify_move_brilliant_raises; [by rewrite Hbest|].
    apply _check_for_brilliant_spec. eauto.
  - intros Hraise. apply classify_move_raise_inv in Hraise as (_ & [best Hbest] & [b Hb]).
    pose proof (_check_for_brilliant_result _ _ _ Hb) as ->.
    apply _check_for_brilliant_spec in Hb as (played & before & Hrest).
    exists best, played, before. by split.
  - intros r. unfold classify_move.
    destruct (eval_best_move ctx); [|by intros [= <-]].
    destruct (eval_player_move ctx); [|by intros [= <-]].
    destruct (_check_for_brilliant ctx (raw_cpl_of ctx)) eqn:Hb.
    { by rewrite kw_merge_top_flags_raises. }
    destruct (_check_for_great ctx (top_choice ctx)) eqn:Hg; [|by intros [= <-]].
    apply _check_for_great_result in Hg as ->. by intros [= <-].
Qed.

Lemma classify_move_brilliant_conditions_raise_witness :
  classify_move Scenarios.sacrifice_ctx = Raise TypeError.
Proof.
  apply (proj1 (proj1 (classify_move_brilliant_conditions_raise Scenarios.sacrifice_ctx))).
  exists 50%Q, 50%Q, 50%Q.
  repeat split; try reflexivity; try discriminate; by intros [? ?].
Defined.

(** ** The tier table *)

Ltac qcmp :=
  repeat match goal with
         | H : Qle_bool _ _ = true |- _ => apply Qle_bool_iff in H
         | H : Qle_bool _ _ = false |- _ => apply Qle_bool_false in H
         | H : Qltb _ _ = true |- _ => apply Qltb_lt in H
         | H : Qltb _ _ = false |- _ => apply Qltb_ge in H
         | H : Qgtb _ _ = true |- _ => apply Qgtb_gt in H
         | H : Qgtb _ _ = false |- _ => apply Qgtb_le in H
         end.

(** The loop returns the first tier, in table order, whose threshold is not
    below the CPL, and "Blunder" when there is none. *)
Lemma first_tier_first_match (tiers : list (string * Q)) (c : Q)
    (i : nat) (name : string) (thr : Q) :
  tiers !! i = Some (name, thr) -> (c <= thr)%Q ->
  (forall j n t, (j < i)%nat -> tiers !! j = Some (n, t) -> (t < c)%Q) ->
  first_tier tiers c = name.
Proof.
  revert i. induction tiers as [|[n0 t0] tiers IH]; intros i Hi Hle Hbefore; [done|].
  destruct i as [|i]; cbn in *.
  - simplify_eq. apply Qle_bool_iff in Hle. by rewrite Hle.
  - assert (Ht0 : (t0 < c)%Q) by (apply (Hbefore 0%nat n0 t0); [lia|done]).
    apply Qle_bool_false in Ht0. rewrite Ht0.
    apply (IH i); [done..|]. intros j n t Hj Hjt.
    apply (Hbefore (S j) n t); [lia|done].
Qed.

Lemma first_tier_blunder (tiers : list (string * Q)) (c : Q) :
  (forall n t, (n, t) ∈ tiers -> (t < c)%Q) -> first_tier tiers c = "Blunder".
Proof.
  induction tiers as [|[n0 t0] tiers IH]; intros Hall; [done|]. cbn.
  assert (Ht0 : (t0 < c)%Q) by (apply (Hall n0); left).
  apply Qle_bool_false in Ht0. rewrite Ht0. apply IH.
  intros n t Hin. apply (Hall n). by right.
Qed.

Lemma standard_text_intervals (c : Q) :
  let text := standard_text (_get_standard_classification c) c in
  ((c <= 5)%Q -> text = "Best")
  /\ ((5 < c)%Q /\ (c <= 40)%Q -> text = "Good (CPL: " +:+ format_0f c +:+ ")")
  /\ ((40 < c)%Q /\ (c <= 70)%Q -> text = "OK (CPL: " +:+ format_0f c +:+ ")")
  /\ ((70 < c)%Q /\ (c <= 90)%Q -> text = "Dubious (CPL: " +:+ format_0f c +:+ ")")
  /\ ((90 < c)%Q /\ (c <= 180)%Q
      -> text = "Inaccuracy (CPL: " +:+ format_0f c +:+ ")")
  /\ ((180 < c)%Q /\ (c <= 300)%Q
      -> text = "Mistake (CPL: " +:+ format_0f c +:+ ")")
  /\ ((300 < c)%Q -> text = "Blunder !!! (CPL: " +:+ format_0f c +:+ ")").
Proof.
  cbn zeta.
  unfold _get_standard_classification, settings.MOVE_CLASSIFICATION_THRESHOLDS,
    first_tier.
  destruct (Qle_bool c 5) eqn:E5; [|destruct (Qle_bool c 40) eqn:E40;
    [|destruct (Qle_bool c 70) eqn:E70; [|destruct (Qle_bool c 90) eqn:E90;
    [|destruct (Qle_bool c 180) eqn:E180; [|destruct (Qle_bool c 300) eqn:E300]]]]];
    qcmp; repeat split; intros; try reflexivity; exfalso; lra.
Qed.

Lemma _cap_score_spec (s : Q) (mate : bool) :
  (_cap_score (Some s) mate == if mate then s else Qmin 1000 (Qmax (- (1000)) s))%Q.
Proof.
  unfold _cap_score, settings.CPL_INDIVIDUAL_EVAL_CAP_CP. destruct mate; [done|].
  rewrite py_min_spec. apply Q.min_compat; [done|]. apply py_max_spec.
Qed.

Lemma cpl_for_metrics_of_spec (raw : Q) :
  (cpl_for_metrics_of raw == Qmin 1000 (Qmax 0 raw))%Q.
Proof.
  unfold cpl_for_metrics_of, settings.ACPL_MOVE_CPL_CAP_CP.
  rewrite py_min_spec. apply Q.min_compat; [done|]. apply py_max_spec.
Qed.

(** C5.  When both evaluations are present and neither the Brilliant nor the
    Great stage matches, [classify_move] returns a result whose raw CPL is
    cap(best) - cap(played) (a non-mate score clamped to +-1000, a mate score
    kept), whose metrics CPL is the raw CPL clamped into [0, 1000] (0 for a
    raw CPL that is zero or negative, the raw value being kept in the
    result), and whose label is that of the first tier of the table whose
    threshold is at least the metrics CPL (a CPL equal to a threshold stays in
    that tier), with the Blunder label past the last threshold. *)
Theorem standard_tiered_classification `{ChessBoard}
    (ctx : MoveAnalysisContext) (best played : Q) :
  eval_best_move ctx = Some best -> eval_player_move ctx = Some played ->
  _check_for_brilliant ctx (raw_cpl_of ctx) = None ->
  _check_for_great ctx (top_choice ctx) = None ->
  let cap := fun (x : Q) (mate : bool) =>
               if mate then x else Qmin 1000 (Qmax (- (1000)) x) in
  exists r,
    classify_move ctx = Ret r
    /\ (raw_cpl r == cap best (is_mate_best_move ctx)
                     - cap played (is_mate_player_move ctx))%Q
    /\ (cpl r == Qmin 1000 (Qmax 0 (raw_cpl r)))%Q
    /\ (0 <= cpl r)%Q /\ (cpl r <= 1000)%Q
    /\ ((raw_cpl r <= 0)%Q -> (cpl r == 0)%Q)
    /\ is_brilliant r = false /\ is_great r = false
    /\ classification_text r
       = standard_text (_get_standard_classification (cpl r)) (cpl r)
    /\ (forall i name thr,
          settings.MOVE_CLASSIFICATION_THRESHOLDS !! i = Some (name, thr) ->
          (cpl r <= thr)%Q ->
          (forall j n t, (j < i)%nat ->
             settings.MOVE_CLASSIFICATION_THRESHOLDS !! j = Some (n, t) ->
             (t < cpl r)%Q) ->
          _get_standard_classification (cpl r) = name)
    /\ ((forall n t, (n, t) ∈ settings.MOVE_CLASSIFICATION_THRESHOLDS
                     -> (t < cpl r)%Q) ->
        _get_standard_classification (cpl r) = "Blunder")
    /\ ((cpl r <= 5)%Q -> classification_text r = "Best")
    /\ ((5 < cpl r)%Q /\ (cpl r <= 40)%Q ->
        classification_text r = "Good (CPL: " +:+ format_0f (cpl r) +:+ ")")
    /\ ((40 < cpl r)%Q /\ (cpl r <= 70)%Q ->
        classification_text r = "OK (CPL: " +:+ format_0f (cpl r) +:+ ")")
    /\ ((70 < cpl r)%Q /\ (cpl r <= 90)%Q ->
        classification_text r = "Dubious (CPL: " +:+ format_0f (cpl r) +:+ ")")
    /\ ((90 < cpl r)%Q /\ (cpl r <= 180)%Q ->
        classification_text r = "Inaccuracy (CPL: " +:+ format_0f (cpl r) +:+ ")")
    /\ ((180 < cpl r)%Q /\ (cpl r <= 300)%Q ->
        classification_text r = "Mistake (CPL: " +:+ format_0f (cpl r) +:+ ")")
    /\ ((300 < cpl r)%Q ->
        classification_text r = "Blunder !!! (CPL: " +:+ format_0f (cpl r) +:+ ")").
Proof.
  intros Hbest Hplayed Hb Hg cap. eexists. split.
  { unfold classify_move. by rewrite Hbest, Hplayed, Hb, Hg. }
  cbn [raw_cpl cpl is_brilliant is_great classification_text].
  set (raw := raw_cpl_of ctx). set (c := cpl_for_metrics_of raw).
  assert (Hc : (c == Qmin 1000 (Qmax 0 raw))%Q) by apply cpl_for_metrics_of_spec.
  assert (H0 : (0 <= c)%Q).
  { rewrite Hc. apply Q.min_glb; [done|]. apply Q.le_max_l. }
  assert (H1000 : (c <= 1000)%Q) by (rewrite Hc; apply Q.le_min_l).
  split.
  { unfold raw, raw_cpl_of. rewrite Hbest, Hplayed, !_cap_score_spec. reflexivity. }
  split; [done|]. split; [done|]. split; [done|].
  split.
  { intros Hraw. rewrite Hc, (Q.max_l 0 raw) by done. by apply Q.min_r. }
  split; [done|]. split; [done|]. split; [done|].
  split; [intros i name thr; apply first_tier_first_match|].
  split; [apply first_tier_blunder|].
  apply standard_text_intervals.
Qed.

Lemma standard_tiered_classification_witness :
  exists r, classify_move Scenarios.mistake_ctx = Ret r
            /\ (cpl r == 250)%Q
            /\ classification_text r = "Mistake (CPL: 250)".
Proof.
  destruct (standard_tiered_classification Scenarios.mistake_ctx 300 50)
    as (r & Hr & _); [reflexivity..|].
  exists r. split; [exact Hr|].
  vm_compute in Hr. injection Hr as <-. split; reflexivity.
Defined.

Lemma top_choice_spec `{ChessBoard} (ctx : MoveAnalysisContext) :
  top_choice ctx = true
  <-> exists line0 rest, engine_top_lines ctx = line0 :: rest
                         /\ line0 !! "Move" = Some (VStr (player_move_uci ctx)).
Proof.
  unfold top_choice, uci_matches, dict_get. split.
  - destruct (engine_top_lines ctx) as [|line0 rest]; [done|].
    destruct (line0 !! "Move") as [[]|] eqn:Hmove; try done.
    intros Heq%bool_decide_eq_true. subst. by eexists _, _.
  - intros (line0 & rest & -> & ->). by apply bool_decide_eq_true.
Qed.

Lemma _check_for_great_spec `{ChessBoard} (ctx : MoveAnalysisContext) (top : bool) :
  (top = true /\ (2 <= engine_multipv ctx)%Z
   /\ exists e0 e1,
        eval_best_move ctx = Some e0 /\ eval_second_best_move ctx = Some e1
        /\ is_mate_best_move ctx = false /\ is_mate_second_best_move ctx = false
        /\ (min_uniqueness_gain_cp (great_criteria ctx) <= e0 - e1)%Q)
  <-> _check_for_great ctx top
      = Some {| classification_text := "Great Move !"; cpl := 0; raw_cpl := 0;
                is_brilliant := false; is_great := true;
                is_engine_top_choice := true; is_engine_top_n_choice := true |}.
Proof.
  unfold _check_for_great. destruct top; cbn [negb orb];
    [|split; [intros [? _]|]; done].
  destruct (Z.ltb_spec (engine_multipv ctx) 2);
    [split; [intros (_ & ? & _); lia | done]|].
  destruct (eval_best_move ctx) as [e0|];
    [|split; [intros (_ & _ & ? & ? & ? & _)|]; done].
  destruct (eval_second_best_move ctx) as [e1|];
    [|split; [intros (_ & _ & ? & ? & _ & ? & _)|]; done].
  destruct (is_mate_best_move ctx);
    [split; [intros (_ & _ & ? & ? & _ & _ & ? & _)|]; done|].
  destruct (is_mate_second_best_move ctx);
    [split; [intros (_ & _ & ? & ? & _ & _ & _ & ? & _)|]; done|].
  cbn [orb]. destruct (Qltb _ _) eqn:E; qcmp.
  - split; [|done]. intros (_ & _ & ? & ? & ? & ? & _ & _ & Hle). simplify_eq.
    by apply Qle_not_lt in Hle.
  - split; [done|]. intros _. repeat split; [done|]. by exists e0, e1.
Qed.

(** C6 (amended).  [classify_move] returns the Great result (label
    "Great Move !", both CPL fields 0, [is_great] and both top-choice flags
    set) exactly when the played move's evaluation is present, the Brilliant
    stage does not match, the played move is the move of the engine's first
    line, at least two lines were requested, the first and second evaluations
    exist and are not mate scores, and their gap reaches the configured
    minimum. *)
Theorem great_move_exactly_when `{ChessBoard} (ctx : MoveAnalysisContext) :
  classify_move ctx
  = Ret {| classification_text := "Great Move !"; cpl := 0; raw_cpl := 0;
           is_brilliant := false; is_great := true;
           is_engine_top_choice := true; is_engine_top_n_choice := true |}
  <-> (is_Some (eval_player_move ctx)
       /\ _check_for_brilliant ctx (raw_cpl_of ctx) = None
       /\ (exists line0 rest,
             engine_top_lines ctx = line0 :: rest
             /\ line0 !! "Move" = Some (VStr (player_move_uci ctx)))
       /\ (2 <= engine_multipv ctx)%Z
       /\ exists e0 e1,
            eval_best_move ctx = Some e0 /\ eval_second_best_move ctx = Some e1
            /\ is_mate_best_move ctx = false /\ is_mate_second_best_move ctx = false
            /\ (min_uniqueness_gain_cp (great_criteria ctx) <= e0 - e1)%Q).
Proof.
  rewrite <- top_choice_spec. split.
  - unfold classify_move.
    destruct (eval_best_move ctx) as [best|] eqn:Hbest; [|done].
    destruct (eval_player_move ctx) as [played|] eqn:Hplayed; [|done].
    destruct (_check_for_brilliant ctx (raw_cpl_of ctx)) as [b|] eqn:Hb.
    { by rewrite kw_merge_top_flags_raises. }
    destruct (_check_for_great ctx (top_choice ctx)) as [g|] eqn:Hg; [|done].
    intros [= ->]. apply _check_for_great_spec in Hg as (Htop & Hpv & Hrest).
    rewrite Hbest in Hrest. by repeat split.
  - intros ([played Hplayed] & Hb & Htop & Hpv & e0 & e1 & Hbest & Hrest).
    unfold classify_move. rewrite Hbest, Hplayed, Hb.
    assert (Hg : _check_for_great ctx (top_choice ctx)
                 = Some {| classification_text := "Great Move !"; cpl := 0;
                           raw_cpl := 0; is_brilliant := false; is_great := true;
                           is_engine_top_choice := true;
                           is_engine_top_n_choice := true |}).
    { apply _check_for_great_spec. repeat split; [done..|]. by exists e0, e1. }
    by rewrite Hg.
Qed.

Lemma great_move_exactly_when_witness :
  classify_move Scenarios.great_ctx
  = Ret {| classification_text := "Great Move !"; cpl := 0; raw_cpl := 0;
           is_brilliant := false; is_great := true;
           is_engine_top_choice := true; is_engine_top_n_choice := true |}.
Proof.
  apply (proj2 (great_move_exactly_when Scenarios.great_ctx)).
  split; [by eexists|]. split; [reflexivity|].
  split; [by eexists _, _|]. split; [done|].
  exists 400%Q, 250%Q. repeat split; discriminate.
Defined.

(** C6 as stated fails when the played move's evaluation is missing: the
    Brilliant stage does not match, the played move is the engine's first line
    (0 cp against -300 cp for the second, two lines requested, no mate), and
    yet the result is the "Unavailable" one of the missing-data guard. *)
Lemma great_conditions_without_player_eval :
  let ctx := Scenarios.great_without_eval_ctx in
  _check_for_brilliant ctx (raw_cpl_of ctx) = None
  /\ (exists line0 rest,
        engine_top_lines ctx = line0 :: rest
        /\ line0 !! "Move" = Some (VStr (player_move_uci ctx)))
  /\ (2 <= engine_multipv ctx)%Z
  /\ (exists e0 e1,
        eval_best_move ctx = Some e0 /\ eval_second_best_move ctx = Some e1
        /\ is_mate_best_move ctx = false /\ is_mate_second_best_move ctx = false
        /\ (min_uniqueness_gain_cp (great_criteria ctx) <= e0 - e1)%Q)
  /\ classify_move ctx
     = Ret {| classification_text := "Unavailable (eval error)"; cpl := 0;
              raw_cpl := 0; is_brilliant := false; is_great := false;
              is_engine_top_choice := false; is_engine_top_n_choice := false |}
  /\ classify_move ctx
     <> Ret {| classification_text := "Great Move !"; cpl := 0; raw_cpl := 0;
               is_brilliant := false; is_great := true;
               is_engine_top_choice := true; is_engine_top_n_choice := true |}.
Proof.
  cbn zeta. split; [reflexivity|]. split; [by eexists _, _|]. split; [done|].
  split; [exists 0%Q, (-300)%Q; repeat split; discriminate|].
  split; [reflexivity|]. discriminate.
Qed.

(** ** Position planning *)

Section PlannerProperties.
Context `{ChessBoard}.

Lemma plan_step_mono (acc : gset string * Board) (node : GameNode) :
  acc.1 ⊆ (plan_step acc node).1
  /\ size (plan_step acc node).1 <= size acc.1 + 2.
Proof.
  destruct acc as [req b]. unfold plan_step.
  destruct (negb (Move_bool (node_move node))); cbn; [split; [done|lia]|].
  split; [set_solver|].
  pose proof (subseteq_size (({[fen b]} ∪ req) ∖ {[fen (push b (node_move node))]})
                ({[fen b]} ∪ req)) as Hs1.
  pose proof (subseteq_size (req ∖ {[fen b]}) req) as Hs2.
  rewrite (size_union_alt {[fen b]} req), size_singleton in Hs1.
  rewrite !size_union_alt, !size_singleton.
  specialize (Hs2 ltac:(set_solver)). specialize (Hs1 ltac:(set_solver)). lia.
Qed.

Lemma plan_fold_mono (nodes : list GameNode) (acc : gset string * Board) :
  acc.1 ⊆ (foldl plan_step acc nodes).1
  /\ size (foldl plan_step acc nodes).1 <= size acc.1 + 2 * length nodes.
Proof.
  revert acc. induction nodes as [|node nodes IH]; intros acc; cbn [foldl length].
  - split; [done|lia].
  - destruct (IH (plan_step acc node)) as [Hsub Hsize].
    destruct (plan_step_mono acc node) as [Hsub1 Hsize1].
    split; [by etrans|lia].
Qed.

(** The starting position is always planned, and the plan has at most
    [2 * moves + 1] positions. *)
Lemma _get_required_fens_start_and_size (game : Game) :
  fen (game_board game) ∈ _get_required_fens game
  /\ size (_get_required_fens game) <= 2 * length (mainline game) + 1.
Proof.
  unfold _get_required_fens.
  destruct (plan_fold_mono (mainline game) ({[fen (game_board game)]}, game_board game))
    as [Hsub Hsize].
  cbn [fst] in *. rewrite size_singleton in Hsize.
  split; [set_solver|lia].
Qed.

Lemma plan_fold_truthy (nodes : list GameNode) (req : gset string) (b : Board) :
  Forall (fun node => Move_bool (node_move node) = true) nodes ->
  (foldl plan_step (req, b) nodes).2 = foldl push b (node_move <$> nodes)
  /\ forall i node, nodes !! i = Some node ->
       fen (foldl push b (node_move <$> take i nodes))
         ∈ (foldl plan_step (req, b) nodes).1
       /\ fen (foldl push b (node_move <$> take (S i) nodes))
         ∈ (foldl plan_step (req, b) nodes).1.
Proof.
  revert req b. induction nodes as [|node0 nodes IH]; intros req b Hall.
  { split; [done|]. by intros i node. }
  apply Forall_cons in Hall as [Hnode0 Hall]. cbn [foldl fmap list_fmap].
  assert (Hstep : plan_step (req, b) node0
                  = ({[fen (push b (node_move node0))]} ∪ ({[fen b]} ∪ req),
                     push b (node_move node0))).
  { unfold plan_step. by rewrite Hnode0. }
  rewrite Hstep.
  destruct (IH ({[fen (push b (node_move node0))]} ∪ ({[fen b]} ∪ req))
               (push b (node_move node0)) Hall) as [Hboard Hin].
  split; [done|]. intros [|i] node Hi.
  - cbn. destruct (plan_fold_mono nodes
      ({[fen (push b (node_move node0))]} ∪ ({[fen b]} ∪ req), push b (node_move node0)))
      as [Hsub _].
    cbn [fst] in Hsub. rewrite take_0. cbn. split; set_solver.
  - cbn in Hi. apply (Hin i node Hi).
Qed.

(** On a game without a null move, the positions before and after every
    played move are planned. *)
Lemma _get_required_fens_before_after (game : Game) (i : nat) (node : GameNode) :
  Forall (fun node => Move_bool (node_move node) = true) (mainline game) ->
  mainline game !! i = Some node ->
  fen (board_at game i) ∈ _get_required_fens game
  /\ fen (board_at game (S i)) ∈ _get_required_fens game.
Proof.
  intros Hall Hi. unfold _get_required_fens, board_at.
  destruct (plan_fold_truthy (mainline game) {[fen (game_board game)]}
              (game_board game) Hall) as [_ Hin].
  exact (Hin i node Hi).
Qed.

End PlannerProperties.


(** ** Game summary *)




Lemma length_filter_fmap {A B} (f : A -> B) (P : B -> Prop)
    `{!forall y, Decision (P y)} (l : list A) :
  length (filter P (f <$> l)) = length (filter (fun x => P (f x)) l).
Proof.
  induction l as [|x l IH]; [done|]. cbn [fmap list_fmap].
  rewrite !filter_cons. destruct (decide (P (f x))); cbn; by rewrite IH.
Qed.

Lemma Counter_fold (names : list string) (c : gmap string nat) (label : string) :
  default 0 (foldl (fun c name => <[name := S (default 0 (c !! name))]> c) c names
             !! label)
  = default 0 (c !! label) + length (filter (fun name => name = label) names).
Proof.
  revert c. induction names as [|name names IH]; intros c; cbn [foldl].
  { cbn. lia. }
  rewrite IH, filter_cons. destruct (decide (name = label)) as [->|Hne].
  - rewrite lookup_insert_eq. cbn. lia.
  - by rewrite lookup_insert_ne.
Qed.

Lemma Counter_count (names : list string) (label : string) :
  default 0 (Counter names !! label)
  = length (filter (fun name => name = label) names).
Proof. unfold Counter. by rewrite Counter_fold, lookup_empty. Qed.


(** ** Cache and engine reconciliation *)

Lemma odict_lookup_set {V} (d : odict V) (k k' : string) (v : V) :
  odict_lookup (odict_set d k v) k'
  = if decide (k = k') then Some v else odict_lookup d k'.
Proof.
  unfold odict_lookup. induction d as [|[k0 v0] d IH]; cbn.
  - repeat (case_bool_decide || case_decide); cbn in *; congruence.
  - destruct (decide (k0 = k)) as [->|Hne]; cbn;
      repeat (case_bool_decide || case_decide); cbn in *; try congruence.
    all: rewrite IH; by repeat case_decide.
Qed.

Lemma odict_set_keys {V} (d : odict V) (k : string) (v : V) :
  NoDup d.*1 -> NoDup (odict_set d k v).*1
  /\ forall k', k' ∈ (odict_set d k v).*1 <-> k' = k \/ k' ∈ d.*1.
Proof.
  induction d as [|[k0 v0] d IH]; cbn [odict_set fmap list_fmap fst].
  { intros _. split; [apply NoDup_singleton|]. intros k'. set_solver. }
  intros [Hk0 Hd]%NoDup_cons. destruct (IH Hd) as [IHnd IHin].
  destruct (decide (k0 = k)) as [->|Hne]; cbn [fmap list_fmap fst].
  - split; [by apply NoDup_cons|]. intros k'. set_solver.
  - split.
    + apply NoDup_cons. split; [|done]. rewrite IHin. set_solver.
    + intros k'. rewrite !elem_of_cons, IHin. naive_solver.
Qed.

Lemma odict_fold_set {V} (g : string -> V) (fens : list string) (d : odict V) :
  NoDup d.*1 ->
  let d' := foldl (fun acc fen => odict_set acc fen (g fen)) d fens in
  NoDup d'.*1
  /\ forall k, odict_lookup d' k
               = if decide (k ∈ fens) then Some (g k) else odict_lookup d k.
Proof.
  revert d. induction fens as [|fen fens IH]; intros d Hd; cbn [foldl].
  { split; [done|]. intros k. by rewrite decide_False by set_solver. }
  destruct (odict_set_keys d fen (g fen) Hd) as [Hnd _].
  destruct (IH _ Hnd) as [Hnd' Hlk]. split; [done|]. intros k.
  rewrite Hlk, odict_lookup_set.
  destruct (decide (k ∈ fens)), (decide (fen = k)) as [->|];
    [by rewrite decide_True by set_solver..| |].
  - by rewrite decide_True by set_solver.
  - by rewrite decide_False by set_solver.
Qed.

Lemma odict_lookup_elem {V} (d : odict V) (k : string) (v : V) :
  NoDup d.*1 -> odict_lookup d k = Some v <-> (k, v) ∈ d.
Proof.
  unfold odict_lookup. induction d as [|[k0 v0] d IH]; cbn; [set_solver|].
  intros [Hk0 Hd]%NoDup_cons. destruct (decide (k0 = k)) as [->|Hne].
  - rewrite bool_decide_eq_true_2 by done. cbn. rewrite elem_of_cons. split.
    + intros [= ->]. by left.
    + intros [[= ->]|Hin]; [done|]. destruct Hk0.
      apply list_elem_of_fmap. by exists (k, v).
  - rewrite bool_decide_eq_false_2 by done. rewrite (IH Hd), elem_of_cons.
    naive_solver.
Qed.

Lemma dict_update_lookup (m : gmap string (option Analysis))
    (d : odict (option Analysis)) (k : string) :
  NoDup d.*1 ->
  foldl (fun m p => <[p.1 := p.2]> m) m d !! k
  = match odict_lookup d k with Some v => Some v | None => m !! k end.
Proof.
  revert m. unfold odict_lookup.
  induction d as [|[k0 v0] d IH]; intros m; cbn; [done|].
  intros [Hk0 Hd]%NoDup_cons. rewrite (IH _ Hd).
  destruct (decide (k0 = k)) as [->|Hne].
  - rewrite bool_decide_eq_true_2 by done. cbn.
    destruct (find _ d) as [[k1 v1]|] eqn:Hf; cbn; [|by rewrite lookup_insert_eq].
    apply find_some in Hf as [Hin Heq]. apply bool_decide_eq_true in Heq.
    cbn in Heq. subst. destruct Hk0. apply list_elem_of_fmap. exists (k, v1).
    split; [done|]. by apply list_elem_of_In.
  - rewrite bool_decide_eq_false_2 by done.
    destruct (find _ d); [done|]. by rewrite lookup_insert_ne.
Qed.

Lemma store_fold_lookup (entries : list CacheEntry) (rows : gmap CacheKey Row)
    (k : CacheKey) :
  NoDup (key <$> entries) ->
  (forall e, e ∈ entries -> key e = k ->
     foldl (fun rows e => <[key e := Json (analysis_result e)]> rows) rows entries !! k
     = Some (Json (analysis_result e)))
  /\ (k ∉ key <$> entries ->
      foldl (fun rows e => <[key e := Json (analysis_result e)]> rows) rows entries !! k
      = rows !! k).
Proof.
  revert rows. induction entries as [|e0 entries IH]; intros rows; cbn.
  { intros _. split; [set_solver|done]. }
  intros [He0 Hnd]%NoDup_cons.
  destruct (IH (<[key e0 := Json (analysis_result e0)]> rows) Hnd) as [IH1 IH2].
  split.
  - intros e [->|Hin]%elem_of_cons Hk.
    + subst k. rewrite IH2 by done. by rewrite lookup_insert_eq.
    + by apply IH1.
  - intros Hk. rewrite IH2 by set_solver. apply lookup_insert_ne. set_solver.
Qed.

Section ProviderProperties.
Context `{ChessBoard} (env : Env).

Lemma cached_fold_lookup (self : AnalysisProvider) (db : DBManager)
    (fens : list string) (acc : gmap string Analysis) (fen : string) :
  foldl (fun (results : gmap string Analysis) fen =>
           match db_rows db !!
                   {| key_fen := fen; key_analysis_depth := analysis_depth self;
                      key_multipv_count := multipv_count self;
                      key_stockfish_path_canon := stockfish_path self;
                      key_stockfish_version := stockfish_version self |} with
           | Some (Json a) => <[fen := a]> results
           | Some CorruptJson | None => results
           end) acc fens !! fen
  = if decide (fen ∈ fens)
    then match cache_hit self db fen with Some a => Some a | None => acc !! fen end
    else acc !! fen.
Proof.
  revert acc. induction fens as [|f fens IH]; intros acc; cbn [foldl].
  { by rewrite decide_False by set_solver. }
  rewrite IH. destruct (decide (f = fen)) as [->|Hne].
  - rewrite (decide_True (P := fen ∈ fen :: fens)) by set_solver.
    unfold cache_hit. destruct (db_rows db !! _) as [[a|]|]; case_decide; try done.
    by rewrite lookup_insert_eq.
  - assert (Hacc : forall (o : option Row),
              match o with Some (Json a) => <[f := a]> acc | _ => acc end !! fen
              = acc !! fen).
    { intros [[a|]|]; [|done..]. by rewrite lookup_insert_ne. }
    rewrite Hacc. destruct (decide (fen ∈ fens)).
    + by rewrite decide_True by set_solver.
    + by rewrite decide_False by set_solver.
Qed.

(** A successful batch read leaves the world as it was and returns the
    decodable rows of the requested positions. *)
Lemma get_cached_analyses_batch_ret (self : AnalysisProvider) (fens : list string)
    (w w' : World) (cached : gmap string Analysis) :
  get_cached_analyses_batch env fens (analysis_depth self) (multipv_count self)
    (stockfish_path self) (stockfish_version self) w = (Ret cached, w') ->
  w' = w
  /\ forall fen, cached !! fen
                 = if decide (fen ∈ fens) then cache_hit self (w_db w) fen else None.
Proof.
  unfold get_cached_analyses_batch. case_bool_decide as Hnil.
  { intros [= <- <-]. split; [done|]. intros fen. subst.
    by rewrite lookup_empty, decide_False by set_solver. }
  unfold _ensure_connected, get_world, raise. unfold mbind, M_bind, mret, M_ret.
  destruct (db_is_closed (w_db w)); [done|].
  destruct (db_conn (w_db w)); [|done]. cbn.
  destruct (sqlite_read_error env); [done|].
  intros [= <- <-]. split; [done|]. intros fen.
  rewrite cached_fold_lookup, lookup_empty. by repeat case_match.
Qed.

Lemma progress_update_run (n : nat) (w : World) :
  progress_update n w
  = (Ret tt, {| w_db := w_db w; w_sf := w_sf w;
                w_progress := {| progress_total := progress_total (w_progress w);
                                 progress_n := progress_n (w_progress w) + n |} |}).
Proof. done. Qed.

(** A loop that returns met no engine fault; it filled the dictionary in
    input order and touched neither the cache nor the controller. *)
Lemma analyze_loop_ret (n : Z) (fens : list string)
    (res res' : odict (option Analysis)) (w w' : World) :
  analyze_loop env n (progress_update 1) fens res w = (Ret res', w') ->
  Forall (fun fen => sf_respond env fen n <> SfException) fens
  /\ res' = foldl (fun acc fen => odict_set acc fen (outcome_result (sf_respond env fen n)))
                  res fens
  /\ w_db w' = w_db w /\ w_sf w' = w_sf w.
Proof.
  revert res w. induction fens as [|fen fens IH]; intros res w; cbn [analyze_loop foldl].
  { by intros [= <- <-]. }
  destruct (sf_respond env fen n) as [|a|] eqn:Ho.
  - unfold mbind, M_bind. rewrite progress_update_run. intros Hrun.
    apply IH in Hrun as (Hall & -> & Hdb & Hsf). cbn in *.
    repeat split; [|done..]. apply Forall_cons. split; [by rewrite Ho|done].
  - unfold mbind, M_bind. rewrite progress_update_run. intros Hrun.
    apply IH in Hrun as (Hall & -> & Hdb & Hsf). cbn in *.
    repeat split; [|done..]. apply Forall_cons. split; [by rewrite Ho|done].
  - done.
Qed.

Lemma _ensure_engine_ready_ret (w w' : World) :
  _ensure_engine_ready env w = (Ret tt, w') ->
  w_db w' = w_db w /\ sf_multipv_count (w_sf w') = sf_multipv_count (w_sf w).
Proof.
  unfold _ensure_engine_ready, get_world, raise, set_sf.
  unfold mbind, M_bind, mret, M_ret.
  destruct (sf_is_closed (w_sf w)); [done|].
  destruct (negb (is_ready env w)); [|by intros [= <-]].
  destruct (sf_restart_ok env); [by intros [= <-]|done].
Qed.

Lemma analyze_fens_batch_ret (fens : list string)
    (res : odict (option Analysis)) (w w' : World) :
  analyze_fens_batch env fens (progress_update 1) w = (Ret res, w') ->
  let n := Z.max 1 (sf_multipv_count (w_sf w)) in
  Forall (fun fen => sf_respond env fen n <> SfException) fens
  /\ res = foldl (fun acc fen => odict_set acc fen (outcome_result (sf_respond env fen n)))
                 [] fens
  /\ w_db w' = w_db w.
Proof.
  unfold analyze_fens_batch, mbind at 1, M_bind at 1.
  destruct (_ensure_engine_ready env w) as [[[]|e] w1] eqn:Hready; [|done].
  apply _ensure_engine_ready_ret in Hready as [Hdb Hpv].
  case_bool_decide as Hnil.
  { intros [= <- <-]. by subst. }
  unfold mbind, M_bind, get_world. intros Hrun. cbn zeta.
  apply analyze_loop_ret in Hrun as (Hall & -> & Hdb' & _).
  rewrite Hpv in *. repeat split; [done..|]. by rewrite Hdb'.
Qed.

Lemma store_analyses_batch_ret (entries : list CacheEntry) (w w' : World) :
  entries <> [] ->
  store_analyses_batch env entries w = (Ret tt, w') ->
  db_rows (w_db w')
    = foldl (fun rows e => <[key e := Json (analysis_result e)]> rows)
            (db_rows (w_db w)) entries
  /\ db_batches (w_db w') = db_batches (w_db w) ++ [entries].
Proof.
  intros Hne. unfold store_analyses_batch. rewrite bool_decide_eq_false_2 by done.
  unfold _ensure_connected, get_world, raise, set_db.
  unfold mbind, M_bind, mret, M_ret.
  destruct (db_is_closed (w_db w)); [done|].
  destruct (db_conn (w_db w)); [|done]. cbn.
  destruct (sqlite_write_error env); [done|]. by intros [= <-].
Qed.


Lemma run_bind {A B} (m : M A) (f : A -> M B) (w : World) :
  (m ≫= f) w
  = match m w with (Ret a, w1) => f a w1 | (Raise e, w1) => (Raise e, w1) end.
Proof. reflexivity. Qed.

Lemma outcome_result_Some (o : sf_outcome) (a : Analysis) :
  outcome_result o = Some a <-> o = SfTopMoves a.
Proof. destruct o; cbn; naive_solver. Qed.

Lemma entries_to_cache_elem (self : AnalysisProvider)
    (d : odict (option Analysis)) (e : CacheEntry) :
  e ∈ entries_to_cache self d
  <-> exists fen, (fen, Some (analysis_result e)) ∈ d /\ key e = cache_key self fen.
Proof.
  unfold entries_to_cache. rewrite list_elem_of_omap. split.
  - intros ([fen [a|]] & Hin & Heq); [|done]. cbn in Heq. simplify_eq. by exists fen.
  - intros (fen & Hin & Hkey). exists (fen, Some (analysis_result e)).
    split; [done|]. cbn. destruct e. cbn in *. by subst.
Qed.

Lemma entries_to_cache_NoDup (self : AnalysisProvider) (d : odict (option Analysis)) :
  NoDup d.*1 -> NoDup (key <$> entries_to_cache self d).
Proof.
  unfold entries_to_cache. induction d as [|[fen [a|]] d IH]; cbn;
    [intros _; apply NoDup_nil_2 | |];
    intros [Hfen Hd]%NoDup_cons; [|by apply IH].
  apply NoDup_cons. split; [|by apply IH].
  intros (e & Hkey & Hin)%list_elem_of_fmap.
  apply (entries_to_cache_elem self d e) in Hin as (fen' & Hin & Hkey').
  rewrite Hkey' in Hkey. injection Hkey as ->. apply Hfen.
  apply list_elem_of_fmap. by exists (fen', Some (analysis_result e)).
Qed.

End ProviderProperties.

Lemma filter_equiv_elem {A} (P Q : A -> Prop)
    `{!forall x, Decision (P x)} `{!forall x, Decision (Q x)} (l : list A) :
  (forall x, x ∈ l -> P x <-> Q x) -> filter P l = filter Q l.
Proof.
  induction l as [|x l IH]; intros Hl; [done|].
  rewrite !filter_cons, IH by (intros; apply Hl; by right).
  pose proof (Hl x (list_elem_of_here x l)).
  destruct (decide (P x)), (decide (Q x)); naive_solver.
Qed.


Section ProviderTotality.
Context `{ChessBoard} (env : Env).

Lemma analyze_loop_returns (n : Z) (fens : list string)
    (res : odict (option Analysis)) (w : World) :
  Forall (fun fen => sf_respond env fen n <> SfException) fens ->
  exists res' w', analyze_loop env n (progress_update 1) fens res w = (Ret res', w')
                  /\ w_db w' = w_db w.
Proof.
  revert res w. induction fens as [|fen fens IH]; intros res w Hall; cbn [analyze_loop].
  { by eexists _, _. }
  apply Forall_cons in Hall as [Hfen Hall].
  destruct (sf_respond env fen n) as [|a|]; [| |done];
    rewrite run_bind, progress_update_run;
    match goal with
    | |- context [analyze_loop _ _ _ _ ?r ?w0] =>
        destruct (IH r w0 Hall) as (res' & w' & -> & Hdb)
    end; by eexists _, _.
Qed.

Lemma get_cached_analyses_batch_returns (self : AnalysisProvider)
    (fens : list string) (w : World) :
  db_is_closed (w_db w) = false -> db_conn (w_db w) = true ->
  sqlite_read_error env = false ->
  exists cached,
    get_cached_analyses_batch env fens (analysis_depth self) (multipv_count self)
      (stockfish_path self) (stockfish_version self) w = (Ret cached, w).
Proof.
  intros Hclosed Hconn Hread. unfold get_cached_analyses_batch.
  case_bool_decide; [by eexists|].
  unfold _ensure_connected, get_world, raise. unfold mbind, M_bind, mret, M_ret.
  rewrite Hclosed, Hconn. cbn. rewrite Hread. by eexists.
Qed.

Lemma store_analyses_batch_returns (entries : list CacheEntry) (w : World) :
  db_is_closed (w_db w) = false -> db_conn (w_db w) = true ->
  sqlite_write_error env = false ->
  exists w', store_analyses_batch env entries w = (Ret tt, w').
Proof.
  intros Hclosed Hconn Hwrite. unfold store_analyses_batch.
  case_bool_decide; [by eexists|].
  unfold _ensure_connected, get_world, raise, set_db.
  unfold mbind, M_bind, mret, M_ret.
  rewrite Hclosed, Hconn. cbn. rewrite Hwrite. by eexists.
Qed.

Lemma analyze_fens_batch_returns (fens : list string) (w : World) :
  sf_is_closed (w_sf w) = false ->
  is_ready env w = true \/ sf_restart_ok env = true ->
  Forall (fun fen => sf_respond env fen (Z.max 1 (sf_multipv_count (w_sf w)))
                     <> SfException) fens ->
  exists res w', analyze_fens_batch env fens (progress_update 1) w = (Ret res, w')
                 /\ w_db w' = w_db w.
Proof.
  intros Hsf Hready Hall. unfold analyze_fens_batch. rewrite run_bind.
  assert (Hens : exists w1, _ensure_engine_ready env w = (Ret tt, w1)
                            /\ w_db w1 = w_db w
                            /\ sf_multipv_count (w_sf w1) = sf_multipv_count (w_sf w)).
  { unfold _ensure_engine_ready, get_world, raise, set_sf.
    unfold mbind, M_bind, mret, M_ret. rewrite Hsf.
    destruct (is_ready env w) eqn:Hr; cbn [negb]; [by eexists|].
    destruct Hready as [?| ->]; [done|]. by eexists. }
  destruct Hens as (w1 & -> & Hdb1 & Hpv1).
  case_bool_decide; [by eexists _, _|].
  rewrite run_bind. cbn [get_world]. rewrite Hpv1.
  destruct (analyze_loop_returns _ fens [] w1 Hall) as (res & w2 & -> & Hdb2).
  eexists _, _. split; [done|]. by rewrite Hdb2.
Qed.

(** With an open, connected cache, no database fault, a controller that is
    ready or can restart its engine, and no engine fault on the planned
    positions, [get_analyses_for_game] returns. *)
Lemma get_analyses_for_game_returns (self : AnalysisProvider) (game : Game)
    (w : World) :
  db_is_closed (w_db w) = false -> db_conn (w_db w) = true ->
  sqlite_read_error env = false -> sqlite_write_error env = false ->
  sf_is_closed (w_sf w) = false ->
  is_ready env w = true \/ sf_restart_ok env = true ->
  (forall fen, fen ∈ _get_required_fens game ->
     sf_respond env fen (Z.max 1 (sf_multipv_count (w_sf w))) <> SfException) ->
  exists r w', get_analyses_for_game env self game w = (Ret r, w').
Proof.
  intros Hclosed Hconn Hread Hwrite Hsf Hready Hengine.
  unfold get_analyses_for_game. case_decide; [by eexists _, _|].
  unfold progress_reset, set_progress. rewrite !run_bind.
  match goal with
  | |- context [get_cached_analyses_batch ?e ?f ?a ?b ?c ?d ?w0] =>
      destruct (get_cached_analyses_batch_returns self f w0) as [cached ->];
        [done..|]
  end.
  cbv beta iota. rewrite run_bind, progress_update_run. cbn [w_db w_sf w_progress].
  case_bool_decide as Hnil; [by eexists _, _|].
  rewrite run_bind.
  match goal with
  | |- context [analyze_fens_batch ?e ?f ?cb ?w0] =>
      destruct (analyze_fens_batch_returns f w0) as (res & w1 & -> & Hdb1);
        [done | done | |]
  end.
  { apply Forall_forall. intros fen [_ Hin%elem_of_elements]%list_elem_of_filter.
    by apply Hengine. }
  cbv beta iota. rewrite run_bind. cbn [w_db] in Hdb1.
  case_bool_decide; [by eexists _, _|].
  destruct (store_analyses_batch_returns (entries_to_cache self res) w1)
    as [w2 ->]; [by rewrite Hdb1..|done|]. by eexists _, _.
Qed.

End ProviderTotality.



(** * Further properties of the analysis core *)

(** ** Planner and move collector *)

Section PlannerCollector.
Context `{ChessBoard}.

Lemma plan_step_tight (acc : gset string * Board) (node : GameNode) :
  fen acc.2 ∈ acc.1 ->
  fen (plan_step acc node).2 ∈ (plan_step acc node).1
  /\ size (plan_step acc node).1
     <= size acc.1 + (if Move_bool (node_move node) then 1 else 0).
Proof.
  destruct acc as [req b]. cbn [fst snd]. intros Hin. unfold plan_step.
  destruct (Move_bool (node_move node)); cbn [negb fst snd]; [|split; [done|lia]].
  split; [set_solver|].
  replace ({[fen b]} ∪ req) with req by set_solver.
  rewrite size_union_alt, size_singleton.
  pose proof (subseteq_size (req ∖ {[fen (push b (node_move node))]}) req
                ltac:(set_solver)). lia.
Qed.

(** X1.  The plan always holds the starting position and has at most one
    position per non-null move of the mainline, plus one. *)
Theorem planner_tight_bound (game : Game) :
  fen (game_board game) ∈ _get_required_fens game
  /\ size (_get_required_fens game)
     <= length (filter (fun node => Move_bool (node_move node) = true)
                       (mainline game)) + 1
  /\ size (_get_required_fens game) <= length (mainline game) + 1.
Proof.
  unfold _get_required_fens.
  assert (Hfold : forall nodes (acc : gset string * Board),
            fen acc.2 ∈ acc.1 ->
            acc.1 ⊆ (foldl plan_step acc nodes).1
            /\ size (foldl plan_step acc nodes).1
               <= size acc.1
                  + length (filter (fun node => Move_bool (node_move node) = true)
                                   nodes)).
  { induction nodes as [|node nodes IH]; intros acc Hacc; cbn [foldl].
    { split; [done|]. cbn. lia. }
    destruct (plan_step_tight acc node Hacc) as [Hin Hsize].
    destruct (IH _ Hin) as [Hsub Hsz].
    destruct (plan_step_mono acc node) as [Hsub1 _].
    split; [by etrans|]. rewrite filter_cons.
    destruct (Move_bool (node_move node)) eqn:Hb.
    - rewrite decide_True by done. cbn [length]. lia.
    - rewrite decide_False by done. lia. }
  destruct (Hfold (mainline game) ({[fen (game_board game)]}, game_board game))
    as [Hsub Hsize]; [set_solver|].
  cbn [fst] in *. rewrite size_singleton in Hsize.
  pose proof (length_filter (fun node => Move_bool (node_move node) = true)
                (mainline game)).
  split; [set_solver|]. split; lia.
Qed.

(** The collector's loop, step by step: it records one [MoveData] per node,
    with the FENs of the boards before and after the move, and keeps the FEN
    keys free of duplicates. *)
Lemma collect_fold (nodes : list GameNode) (mds : list MoveData)
    (fens : odict unit) (b : Board) :
  NoDup fens.*1 ->
  let out := foldl collect_step (mds, fens, b) nodes in
  out.2 = foldl push b (node_move <$> nodes)
  /\ NoDup out.1.2.*1
  /\ (forall k, k ∈ out.1.2.*1
                <-> k ∈ fens.*1
                    \/ exists i node, nodes !! i = Some node
                         /\ (k = fen (foldl push b (node_move <$> take i nodes))
                             \/ k = fen (foldl push b (node_move <$> take (S i) nodes))))
  /\ length out.1.1 = length mds + length nodes
  /\ (forall i, (i < length mds)%nat -> out.1.1 !! i = mds !! i)
  /\ (forall i node, nodes !! i = Some node ->
        exists md, out.1.1 !! (length mds + i)%nat = Some md
          /\ pgn_node md = node /\ actual_move_obj md = node_move node
          /\ md_board_before_move md = foldl push b (node_move <$> take i nodes)
          /\ fen_before_move md = fen (foldl push b (node_move <$> take i nodes))
          /\ fen_after_move md
             = fen (foldl push b (node_move <$> take (S i) nodes))).
Proof.
  revert mds fens b. induction nodes as [|node0 nodes IH]; intros mds fens b Hnd.
  { cbn. split; [done|]. split; [done|]. split; [naive_solver|].
    split; [lia|]. split; [done|]. by intros i node. }
  cbn [foldl].
  assert (Hstep : collect_step (mds, fens, b) node0
    = (mds ++ [ {| pgn_node := node0; actual_move_obj := node_move node0;
                   md_board_before_move := b; fen_before_move := fen b;
                   fen_after_move := fen (push b (node_move node0)) |} ],
       odict_set (odict_set fens (fen b) tt) (fen (push b (node_move node0))) tt,
       push b (node_move node0))) by reflexivity.
  rewrite Hstep. clear Hstep.
  destruct (odict_set_keys fens (fen b) tt Hnd) as [Hnd1 Hk1].
  destruct (odict_set_keys (odict_set fens (fen b) tt)
              (fen (push b (node_move node0))) tt Hnd1) as [Hnd2 Hk2].
  specialize (IH (mds ++ [ {| pgn_node := node0; actual_move_obj := node_move node0;
                              md_board_before_move := b; fen_before_move := fen b;
                              fen_after_move := fen (push b (node_move node0)) |} ])
                 _ (push b (node_move node0)) Hnd2).
  cbn zeta in IH. destruct IH as (Hb & Hnd' & Hkeys & Hlen & Hold & Hnew).
  cbn zeta. split; [done|]. split; [done|]. split; [|split; [|split]].
  - intros k. rewrite Hkeys, Hk2, Hk1. split.
    + intros [[->|[->|Hin]]|(i & node & Hi & Hk)].
      * right. exists 0%nat, node0. split; [done|]. by right.
      * right. exists 0%nat, node0. split; [done|]. by left.
      * by left.
      * right. exists (S i), node. split; [done|]. done.
    + intros [Hin|([|i] & node & Hi & Hk)].
      * left. by right; right.
      * left. cbn in Hk. destruct Hk as [->| ->]; [right; by left|by left].
      * right. by exists i, node.
  - rewrite Hlen, length_app. cbn. lia.
  - intros i Hi. rewrite Hold by (rewrite length_app; cbn; lia).
    by rewrite lookup_app_l.
  - intros [|i] node Hi.
    + cbn in Hi. injection Hi as <-. eexists. split.
      * rewrite Nat.add_0_r, Hold by (rewrite length_app; cbn; lia).
        rewrite lookup_app_r by lia. by rewrite Nat.sub_diag.
      * done.
    + cbn in Hi. destruct (Hnew i node Hi) as (md & Hmd & Hrest).
      exists md. split; [|done].
      rewrite length_app in Hmd. cbn in Hmd.
      by replace (length mds + S i)%nat with (length mds + 1 + i)%nat by lia.
Qed.

(** The move collector in terms of the boards along the game. *)
Lemma collect_move_data_and_fens_spec (game : Game) :
  let out := collect_move_data_and_fens game in
  length out.1 = length (mainline game)
  /\ (forall i node, mainline game !! i = Some node ->
        exists md, out.1 !! i = Some md
          /\ pgn_node md = node /\ actual_move_obj md = node_move node
          /\ md_board_before_move md = board_at game i
          /\ fen_before_move md = fen (board_at game i)
          /\ fen_after_move md = fen (board_at game (S i)))
  /\ NoDup out.2.*1
  /\ (forall k, k ∈ out.2.*1
                <-> exists i, (i <= length (mainline game))%nat
                              /\ k = fen (board_at game i)).
Proof.
  cbn zeta. unfold collect_move_data_and_fens, board_at.
  destruct (collect_fold (mainline game) [] (odict_set [] (fen (game_board game)) tt)
              (game_board game)) as (_ & Hnd & Hkeys & Hlen & _ & Hnew).
  { cbn. apply NoDup_singleton. }
  split; [by rewrite Hlen|]. split; [exact Hnew|]. split; [exact Hnd|].
  intros k. rewrite Hkeys. cbn. split.
  - intros [Hk|(i & node & Hi & [->| ->])].
    + exists 0%nat. split; [lia|]. rewrite take_0. set_solver.
    + exists i. split; [|done]. apply lookup_lt_Some in Hi. lia.
    + exists (S i). split; [|done]. apply lookup_lt_Some in Hi. lia.
  - intros (i & Hi & ->). destruct i as [|i].
    + left. rewrite take_0. set_solver.
    + right. destruct (lookup_lt_is_Some_2 (mainline game) i) as [node Hnode]; [lia|].
      exists i, node. split; [done|]. by right.
Qed.

Lemma board_at_S (game : Game) (i : nat) (node : GameNode) :
  mainline game !! i = Some node ->
  board_at game (S i) = push (board_at game i) (node_move node).
Proof.
  intros Hi. unfold board_at. rewrite (take_S_r _ _ _ Hi), fmap_app, foldl_app.
  done.
Qed.

(** X2.  The move collector records every node of the mainline, null moves
    included, and its entries chain: the first entry starts from the game's
    starting position, each entry's after-position is the next entry's
    before-position, both FENs of an entry are the FENs of its board before
    the move and of that board with the move pushed, and both are among the
    returned FEN keys, which are free of duplicates. *)
Theorem collect_move_data_and_fens_chain (game : Game) :
  let out := collect_move_data_and_fens game in
  length out.1 = length (mainline game)
  /\ (forall md, out.1 !! 0%nat = Some md ->
        md_board_before_move md = game_board game)
  /\ (forall i md md', out.1 !! i = Some md -> out.1 !! S i = Some md' ->
        md_board_before_move md' = push (md_board_before_move md) (actual_move_obj md)
        /\ fen_before_move md' = fen_after_move md)
  /\ (forall md, md ∈ out.1 ->
        actual_move_obj md = node_move (pgn_node md)
        /\ fen_before_move md = fen (md_board_before_move md)
        /\ fen_after_move md
           = fen (push (md_board_before_move md) (actual_move_obj md))
        /\ fen_before_move md ∈ out.2.*1 /\ fen_after_move md ∈ out.2.*1)
  /\ NoDup out.2.*1
  /\ fen (game_board game) ∈ out.2.*1.
Proof.
  cbn zeta.
  destruct (collect_move_data_and_fens_spec game) as (Hlen & Hent & Hnd & Hkeys).
  assert (Hget : forall i md, (collect_move_data_and_fens game).1 !! i = Some md ->
            exists node, mainline game !! i = Some node
              /\ pgn_node md = node /\ actual_move_obj md = node_move node
              /\ md_board_before_move md = board_at game i
              /\ fen_before_move md = fen (board_at game i)
              /\ fen_after_move md = fen (board_at game (S i))).
  { intros i md Hi.
    assert (Hlt : (i < length (mainline game))%nat)
      by (rewrite <- Hlen; by eapply lookup_lt_Some).
    destruct (lookup_lt_is_Some_2 (mainline game) i Hlt) as [node Hnode].
    destruct (Hent i node Hnode) as (md' & Hmd' & Hrest).
    rewrite Hi in Hmd'. injection Hmd' as <-. by exists node. }
  split; [done|]. split; [|split; [|split; [|split; [done|]]]].
  - intros md (node & _ & _ & _ & -> & _)%Hget. unfold board_at. by rewrite take_0.
  - intros i md md' (node & Hnode & _ & Hmove & Hb & _ & Hafter)%Hget
                    (node' & _ & _ & _ & Hb' & Hbefore' & _)%Hget.
    rewrite Hb', Hbefore', Hafter, Hb, Hmove. split; [|done].
    by apply board_at_S.
  - intros md (i & Hi)%list_elem_of_lookup.
    destruct (Hget i md Hi) as (node & Hnode & <- & Hmove & Hb & Hbefore & Hafter).
    assert (Hlt : (i < length (mainline game))%nat) by (by eapply lookup_lt_Some).
    rewrite Hbefore, Hafter, Hb, Hmove, !Hkeys. split; [done|]. split; [done|].
    split; [by rewrite (board_at_S game i (pgn_node md))|].
    split; eexists; (split; [|done]); lia.
  - apply Hkeys. exists 0%nat. split; [lia|]. unfold board_at. by rewrite take_0.
Qed.

(** X3.  On a game without a null move the planner plans exactly the
    positions the move collector records, so every FEN the game loop looks up
    was requested; in particular the positions before and after each move are
    planned. *)
Theorem planner_matches_collector (game : Game) :
  Forall (fun node => Move_bool (node_move node) = true) (mainline game) ->
  (forall k, k ∈ _get_required_fens game
             <-> k ∈ (collect_move_data_and_fens game).2.*1)
  /\ (forall md, md ∈ (collect_move_data_and_fens game).1 ->
        fen_before_move md ∈ _get_required_fens game
        /\ fen_after_move md ∈ _get_required_fens game).
Proof.
  intros Hall.
  destruct (collect_move_data_and_fens_spec game) as (Hlen & Hent & _ & Hkeys).
  assert (Hplan : forall k, k ∈ _get_required_fens game
            <-> exists i, (i <= length (mainline game))%nat
                          /\ k = fen (board_at game i)).
  { intros k. split.
    - unfold _get_required_fens, board_at.
      assert (Hfold : forall nodes (req : gset string) (b : Board),
                Forall (fun node => Move_bool (node_move node) = true) nodes ->
                forall k, k ∈ (foldl plan_step (req, b) nodes).1 ->
                  k ∈ req \/ exists i, (i <= length nodes)%nat
                              /\ k = fen (foldl push b (node_move <$> take i nodes))).
      { induction nodes as [|node0 nodes IH]; intros req b Hn k0; [by left|].
        apply Forall_cons in Hn as [Hn0 Hn]. cbn [foldl].
        unfold plan_step at 2. rewrite Hn0. cbn [negb].
        intros [Hin|(i & Hi & ->)]%(IH _ _ Hn).
        - apply elem_of_union in Hin as [->%elem_of_singleton|Hin].
          + right. exists 1%nat. cbn. split; [lia|]. by rewrite take_0.
          + apply elem_of_union in Hin as [->%elem_of_singleton|Hin]; [|by left].
            right. exists 0%nat. split; [lia|done].
        - right. exists (S i). cbn. split; [lia|done]. }
      intros [->%elem_of_singleton|Hk]%(Hfold _ _ _ Hall); [|done].
      exists 0%nat. split; [lia|]. by rewrite take_0.
    - intros (i & Hi & ->). destruct i as [|i].
      + unfold board_at. rewrite take_0. apply _get_required_fens_start_and_size.
      + destruct (lookup_lt_is_Some_2 (mainline game) i) as [node Hnode]; [lia|].
        by apply (_get_required_fens_before_after game i node). }
  split.
  - intros k. by rewrite Hplan, Hkeys.
  - intros md (i & Hi)%list_elem_of_lookup.
    assert (Hlt : (i < length (mainline game))%nat)
      by (rewrite <- Hlen; by eapply lookup_lt_Some).
    destruct (lookup_lt_is_Some_2 (mainline game) i Hlt) as [node Hnode].
    destruct (Hent i node Hnode) as (md' & Hmd' & _ & _ & _ & Hbefore & Hafter).
    rewrite Hi in Hmd'. injection Hmd' as <-.
    rewrite Hbefore, Hafter, !Hplan. split; eexists; (split; [|done]); lia.
Qed.

End PlannerCollector.

Lemma planner_matches_collector_witness :
  Forall (fun md => fen_before_move md ∈ _get_required_fens Games.sample_game
                    /\ fen_after_move md ∈ _get_required_fens Games.sample_game)
         (collect_move_data_and_fens Games.sample_game).1.
Proof.
  apply Forall_forall.
  apply (proj2 (planner_matches_collector Games.sample_game
                  ltac:(repeat constructor))).
Defined.

(** ** Score normalisation, beyond the mate cases *)

Section ScoreNormalizerSides.
Context `{PyBuiltins}.



End ScoreNormalizerSides.


(** ** Material *)





(** ** The classifier's results *)

Lemma top_n_choice_of_top `{ChessBoard} (ctx : MoveAnalysisContext) :
  top_choice ctx = true -> top_n_choice ctx = true.
Proof. unfold top_n_choice. by intros ->. Qed.

Lemma clamp_mono (lo hi a b : Q) :
  (a <= b)%Q -> (Qmin hi (Qmax lo a) <= Qmin hi (Qmax lo b))%Q.
Proof.
  intros Hab. apply Q.min_le_compat_l. by apply Q.max_le_compat_l.
Qed.

Lemma _cap_score_mono (a b : Q) (mate : bool) :
  (a <= b)%Q -> (_cap_score (Some a) mate <= _cap_score (Some b) mate)%Q.
Proof.
  intros Hab. rewrite !_cap_score_spec. destruct mate; [done|].
  by apply clamp_mono.
Qed.

(** X7. Every result [classify_move] returns, whatever the stage it comes
    from, is well formed: the metrics CPL is the recorded raw CPL clamped
    into [0, 1000]; a move flagged as the engine's top choice is also flagged
    as one of its top N, and it is flagged as top choice only when it is the
    move of the engine's first line; a result flagged Great carries the Great
    label, no loss and the top-choice flag. *)
Theorem classify_move_result_well_formed `{ChessBoard}
    (ctx : MoveAnalysisContext) (r : ClassificationResult) :
  classify_move ctx = Ret r ->
  (cpl r == Qmin 1000 (Qmax 0 (raw_cpl r)))%Q
  /\ (0 <= cpl r)%Q /\ (cpl r <= 1000)%Q
  /\ (is_engine_top_choice r = true ->
      is_engine_top_n_choice r = true /\ top_choice ctx = true)
  /\ (is_great r = true ->
      classification_text r = "Great Move !" /\ (cpl r == 0)%Q
      /\ is_engine_top_choice r = true).
Proof.
  intros Hr.
  assert (Hclamp : (cpl r == Qmin 1000 (Qmax 0 (raw_cpl r)))%Q
                   /\ (is_engine_top_choice r = true ->
                       is_engine_top_n_choice r = true /\ top_choice ctx = true)
                   /\ (is_great r = true ->
                       classification_text r = "Great Move !" /\ (cpl r == 0)%Q
                       /\ is_engine_top_choice r = true)).
  { unfold classify_move in Hr.
    destruct (eval_best_move ctx) as [best|]; [|by injection Hr as <-].
    destruct (eval_player_move ctx) as [played|]; [|by injection Hr as <-].
    destruct (_check_for_brilliant ctx (raw_cpl_of ctx)) as [b|].
    { by rewrite kw_merge_top_flags_raises in Hr. }
    destruct (_check_for_great ctx (top_choice ctx)) as [g|] eqn:Hg.
    - pose proof (_check_for_great_result _ _ _ Hg) as ->. injection Hr as <-.
      cbn. split; [done|]. split; [|done]. intros _. split; [done|].
      unfold _check_for_great in Hg. by destruct (top_choice ctx).
    - injection Hr as <-. cbn. split; [apply cpl_for_metrics_of_spec|].
      split; [|done]. intros Htop. split; [|done]. by apply top_n_choice_of_top. }
  destruct Hclamp as (Hc & Htop & Hgreat).
  split; [done|]. split; [|split; [|by split]].
  - rewrite Hc. apply Q.min_glb; [done|]. apply Q.le_max_l.
  - rewrite Hc. apply Q.le_min_l.
Qed.

Lemma classify_move_result_well_formed_witness :
  exists r, classify_move Scenarios.great_ctx = Ret r
            /\ (cpl r == Qmin 1000 (Qmax 0 (raw_cpl r)))%Q.
Proof.
  eexists. split; [reflexivity|].
  exact (proj1 (classify_move_result_well_formed Scenarios.great_ctx _ eq_refl)).
Defined.

(** X8. A move whose evaluation is not below the engine's best one (both of
    the same kind, mate or not) never costs anything: whenever
    [classify_move] returns for it, the metrics CPL is 0 and the label is
    "Best" or "Great Move !", never a tier with a loss. *)
Theorem classify_move_no_loss `{ChessBoard}
    (ctx : MoveAnalysisContext) (best played : Q) (r : ClassificationResult) :
  eval_best_move ctx = Some best -> eval_player_move ctx = Some played ->
  is_mate_best_move ctx = is_mate_player_move ctx ->
  (best <= played)%Q ->
  classify_move ctx = Ret r ->
  (cpl r == 0)%Q
  /\ (classification_text r = "Best" \/ classification_text r = "Great Move !").
Proof.
  intros Hbest Hplayed Hmate Hle Hr.
  assert (Hraw : (raw_cpl_of ctx <= 0)%Q).
  { unfold raw_cpl_of. rewrite Hbest, Hplayed, Hmate.
    pose proof (_cap_score_mono best played (is_mate_player_move ctx) Hle). lra. }
  assert (Hc : (cpl_for_metrics_of (raw_cpl_of ctx) == 0)%Q).
  { rewrite cpl_for_metrics_of_spec, (Q.max_l 0 (raw_cpl_of ctx)) by done.
    by apply Q.min_r. }
  unfold classify_move in Hr. rewrite Hbest, Hplayed in Hr.
  destruct (_check_for_brilliant ctx (raw_cpl_of ctx)) as [b|].
  { by rewrite kw_merge_top_flags_raises in Hr. }
  destruct (_check_for_great ctx (top_choice ctx)) as [g|] eqn:Hg.
  - pose proof (_check_for_great_result _ _ _ Hg) as ->. injection Hr as <-.
    cbn. split; [done|by right].
  - injection Hr as <-. cbn. split; [done|]. left.
    apply (proj1 (standard_text_intervals _)). rewrite Hc. done.
Qed.

Lemma classify_move_no_loss_witness :
  exists r, classify_move Scenarios.great_ctx = Ret r
            /\ (cpl r == 0)%Q
            /\ (classification_text r = "Best"
                \/ classification_text r = "Great Move !").
Proof.
  eexists. split; [reflexivity|].
  apply (classify_move_no_loss Scenarios.great_ctx 400 400);
    [reflexivity..|discriminate|reflexivity].
Defined.

(** ** The context builder and the classifier *)

Section BuilderProperties.
Context `{PyBuiltins} `{ChessBoard}.
Variable pgn_node_board : MoveData -> Board.

Lemma build_move_analysis_context_evals (md : MoveData)
    (analyses : gmap string (option Analysis)) (mpv : Z) :
  let ctx := build_move_analysis_context pgn_node_board md analyses mpv in
  let player := turn (md_board_before_move md) in
  eval_best_move ctx
  = score_of (get_score_from_line
                (first_line (analyses_get analyses (fen_before_move md))) player)
  /\ eval_second_best_move ctx
     = score_of (get_score_from_line
                   (second_line (analyses_get analyses (fen_before_move md))) player)
  /\ eval_player_move ctx
     = score_of (get_score_from_line
                   (first_line (analyses_get analyses (fen_after_move md))) player)
  /\ engine_multipv ctx = mpv
  /\ brilliant_criteria ctx = settings.BRILLIANT_CRITERIA
  /\ board_before_move ctx = md_board_before_move md
  /\ board_after_move ctx = pgn_node_board md
  /\ player_color ctx = player.
Proof.
  cbn zeta. unfold build_move_analysis_context.
  destruct (get_score_from_line (first_line (analyses_get analyses (fen_before_move md))) _)
    as [[? ?] ?].
  destruct (get_score_from_line (second_line _) _) as [[? ?] ?].
  destruct (get_score_from_line (first_line (analyses_get analyses (fen_after_move md))) _)
    as [[? ?] ?].
  done.
Qed.

(** X9. A move for which the provider's mapping has no evaluation of the
    position before it or of the position after it (the key is missing, it
    holds [None] as for a position the engine rejected, or it holds an empty
    list) is classified "Unavailable (eval error)" with a loss of 0 and no
    flag set; the classifier does not raise for it. *)
Theorem classify_built_context_unavailable (md : MoveData)
    (analyses : gmap string (option Analysis)) (mpv : Z) :
  first_line (analyses_get analyses (fen_before_move md)) = None
  \/ first_line (analyses_get analyses (fen_after_move md)) = None ->
  classify_move (build_move_analysis_context pgn_node_board md analyses mpv)
  = Ret {| classification_text := "Unavailable (eval error)"; cpl := 0; raw_cpl := 0;
           is_brilliant := false; is_great := false;
           is_engine_top_choice := false; is_engine_top_n_choice := false |}.
Proof.
  intros Hmissing. apply classify_move_missing_data.
  destruct (build_move_analysis_context_evals md analyses mpv)
    as (Hbest & _ & Hplayed & _).
  rewrite Hbest, Hplayed.
  destruct Hmissing as [-> | ->];
    rewrite (proj1 (get_score_from_line_absent _));
    [by left|by right].
Qed.

(** X10. In the game loop the Brilliant threshold is the configured 2.5
    pawns: for a move after which the mover's material balance is less than
    2.5 pawns below the balance before it, [classify_move] on the built
    context returns a result, never flagged Brilliant; the result is not
    flagged Great either when fewer than two lines were requested or the
    position before the move has no second line. *)
Theorem classify_built_context_returns (md : MoveData)
    (analyses : gmap string (option Analysis)) (mpv : Z) :
  let player := turn (md_board_before_move md) in
  (get_material_diff (md_board_before_move md) player
   - get_material_diff (pgn_node_board md) player < 2.5)%Q ->
  exists r,
    classify_move (build_move_analysis_context pgn_node_board md analyses mpv) = Ret r
    /\ is_brilliant r = false
    /\ ((mpv < 2)%Z
        \/ second_line (analyses_get analyses (fen_before_move md)) = None ->
        is_great r = false).
Proof.
  cbn zeta. intros Hloss.
  set (ctx := build_move_analysis_context pgn_node_board md analyses mpv).
  destruct (build_move_analysis_context_evals md analyses mpv)
    as (_ & Hsecond & _ & Hmpv & Hcrit & Hbefore & Hafter & Hcolor).
  fold ctx in Hsecond, Hmpv, Hcrit, Hbefore, Hafter, Hcolor.
  assert (Hnot : _check_for_brilliant ctx (raw_cpl_of ctx) = None).
  { destruct (_check_for_brilliant ctx (raw_cpl_of ctx)) as [b|] eqn:Hb; [|done].
    pose proof (_check_for_brilliant_result _ _ _ Hb) as ->.
    apply _check_for_brilliant_spec in Hb as (? & ? & _ & _ & _ & _ & _ & _ & Hmin).
    rewrite Hcrit, Hbefore, Hafter, Hcolor in Hmin. cbn in Hmin.
    exfalso. apply (Qlt_not_le _ _ Hloss Hmin). }
  assert (Hgreat : (mpv < 2)%Z
                   \/ second_line (analyses_get analyses (fen_before_move md)) = None ->
                   _check_for_great ctx (top_choice ctx) = None).
  { intros Hno. unfold _check_for_great. rewrite Hmpv, Hsecond.
    destruct (top_choice ctx); cbn [negb orb]; [|done].
    destruct Hno as [Hlt | ->].
    - by rewrite (proj2 (Z.ltb_lt mpv 2) Hlt).
    - rewrite (proj1 (get_score_from_line_absent _)). cbn.
      destruct (mpv <? 2)%Z; [done|]. by destruct (eval_best_move ctx). }
  unfold classify_move. rewrite Hnot.
  destruct (eval_best_move ctx) as [best|]; [|eexists; split; [reflexivity|]; split; [reflexivity|]; intros _; reflexivity].
  destruct (eval_player_move ctx) as [played|]; [|eexists; split; [reflexivity|]; split; [reflexivity|]; intros _; reflexivity].
  destruct (_check_for_great ctx (top_choice ctx)) as [g|] eqn:Hg.
  - pose proof (_check_for_great_result _ _ _ Hg) as ->. eexists.
    split; [done|]. split; [done|]. intros Hno. by specialize (Hgreat Hno).
  - eexists. split; [reflexivity|]. split; [reflexivity|]. intros _. reflexivity.
Qed.

End BuilderProperties.

Lemma classify_built_context_unavailable_witness :
  classify_move
    (build_move_analysis_context (H := Ascii_builtins.builtins) Plies.node_board
       Plies.first_ply Plies.after_rejected 2)
  = Ret {| classification_text := "Unavailable (eval error)"; cpl := 0; raw_cpl := 0;
           is_brilliant := false; is_great := false;
           is_engine_top_choice := false; is_engine_top_n_choice := false |}.
Proof.
  apply (classify_built_context_unavailable (H := Ascii_builtins.builtins)).
  right. reflexivity.
Defined.

Lemma classify_built_context_returns_witness :
  exists r,
    classify_move
      (build_move_analysis_context (H := Ascii_builtins.builtins) Plies.node_board
         Plies.first_ply Plies.both_evaluated 2) = Ret r
    /\ is_brilliant r = false.
Proof.
  destruct (classify_built_context_returns (H := Ascii_builtins.builtins)
              Plies.node_board Plies.first_ply Plies.both_evaluated 2)
    as (r & Hr & Hb & _); [vm_compute; reflexivity|].
  exists r. by split.
Defined.

(** ** The provider: progress, failures, a second run *)

Section ProviderRuns.
Context `{ChessBoard} (env : Env).

(** Every way out of the engine loop: the cache is not touched; a loop that
    returns advanced the progress by one unit per position and left the
    controller alone; a loop that raises does so with
    [StockfishAnalysisError], after dropping the engine. *)
Lemma analyze_loop_run (n : Z) (fens : list string)
    (res : odict (option Analysis)) (w : World) :
  match analyze_loop env n (progress_update 1) fens res w with
  | (Ret _, w') =>
      w_db w' = w_db w /\ w_sf w' = w_sf w
      /\ w_progress w'
         = {| progress_total := progress_total (w_progress w);
              progress_n := progress_n (w_progress w) + length fens |}
  | (Raise e, w') =>
      e = StockfishAnalysisError /\ w_db w' = w_db w
      /\ sf_stockfish (w_sf w') = false
      /\ progress_total (w_progress w') = progress_total (w_progress w)
  end.
Proof.
  revert res w. induction fens as [|fen fens IH]; intros res w; cbn [analyze_loop].
  { cbn. destruct (w_progress w). cbn. repeat split. f_equal. lia. }
  destruct (sf_respond env fen n) as [|a|].
  - rewrite run_bind, progress_update_run.
    match goal with
    | |- context [analyze_loop _ _ _ _ ?r ?w0] =>
        specialize (IH r w0); destruct (analyze_loop env n _ fens r w0) as [[?|?] w1]
    end; cbn in *; [|done].
    destruct IH as (-> & -> & ->). repeat split. f_equal. lia.
  - rewrite run_bind, progress_update_run.
    match goal with
    | |- context [analyze_loop _ _ _ _ ?r ?w0] =>
        specialize (IH r w0); destruct (analyze_loop env n _ fens r w0) as [[?|?] w1]
    end; cbn in *; [|done].
    destruct IH as (-> & -> & ->). repeat split. f_equal. lia.
  - done.
Qed.

Lemma _ensure_engine_ready_run (w : World) :
  match _ensure_engine_ready env w with
  | (Ret _, w') =>
      w_db w' = w_db w /\ w_progress w' = w_progress w
      /\ sf_multipv_count (w_sf w') = sf_multipv_count (w_sf w)
      /\ sf_is_closed (w_sf w') = false /\ sf_is_closed (w_sf w) = false
      /\ sf_stockfish (w_sf w') = true
      /\ (sf_responsive env = true \/ sf_restart_ok env = true)
  | (Raise e, w') =>
      e = StockfishError /\ w_db w' = w_db w /\ w_progress w' = w_progress w
  end.
Proof.
  unfold _ensure_engine_ready, is_ready, get_world, raise, set_sf.
  unfold mbind, M_bind, mret, M_ret.
  destruct (sf_is_closed (w_sf w)) eqn:Hclosed; [done|]. cbn [orb].
  destruct (sf_stockfish (w_sf w)) eqn:Hsf; cbn [negb].
  - destruct (sf_responsive env) eqn:Hresp; cbn [negb].
    + repeat split; auto.
    + destruct (sf_restart_ok env) eqn:Hrestart; cbn; repeat split; auto.
  - destruct (sf_restart_ok env) eqn:Hrestart; cbn; repeat split; auto.
Qed.

Lemma analyze_fens_batch_run (fens : list string) (w : World) :
  match analyze_fens_batch env fens (progress_update 1) w with
  | (Ret _, w') =>
      w_db w' = w_db w
      /\ sf_multipv_count (w_sf w') = sf_multipv_count (w_sf w)
      /\ sf_is_closed (w_sf w') = false /\ sf_is_closed (w_sf w) = false
      /\ sf_stockfish (w_sf w') = true
      /\ (sf_responsive env = true \/ sf_restart_ok env = true)
      /\ w_progress w'
         = {| progress_total := progress_total (w_progress w);
              progress_n := progress_n (w_progress w) + length fens |}
  | (Raise e, w') =>
      (e = StockfishError \/ e = StockfishAnalysisError /\ sf_stockfish (w_sf w') = false)
      /\ w_db w' = w_db w
      /\ progress_total (w_progress w') = progress_total (w_progress w)
  end.
Proof.
  unfold analyze_fens_batch. rewrite run_bind.
  pose proof (_ensure_engine_ready_run w) as Hready.
  destruct (_ensure_engine_ready env w) as [[[]|e] w1].
  2:{ destruct Hready as (-> & ? & ->). split; [by left|done]. }
  destruct Hready as (Hdb & Hprog & Hpv & Hc1 & Hc & Hsf & Hresp).
  case_bool_decide as Hnil.
  { cbn. subst fens. rewrite Hprog. destruct (w_progress w). cbn.
    repeat split; try done. f_equal. lia. }
  rewrite run_bind. cbn [get_world].
  pose proof (analyze_loop_run (Z.max 1 (sf_multipv_count (w_sf w1))) fens [] w1) as Hloop.
  destruct (analyze_loop env _ _ fens [] w1) as [[res|e] w2].
  - destruct Hloop as (Hdb2 & Hsf2 & Hprog2). rewrite Hsf2, Hdb2, Hprog2, Hprog.
    by repeat split.
  - destruct Hloop as (-> & Hdb2 & Hsf2 & Htot). split; [by right|].
    by rewrite Hdb2, Htot, Hprog.
Qed.

Lemma get_cached_analyses_batch_run (fens : list string) (d m : Z) (p v : string)
    (w : World) :
  match get_cached_analyses_batch env fens d m p v w with
  | (Ret _, w') =>
      w' = w
      /\ (fens <> [] ->
          db_is_closed (w_db w) = false /\ db_conn (w_db w) = true
          /\ sqlite_read_error env = false)
  | (Raise e, w') =>
      w' = w /\ (e = CacheError \/ e = CacheConnectionError \/ e = CacheReadError)
  end.
Proof.
  unfold get_cached_analyses_batch. case_bool_decide as Hnil; [done|].
  unfold _ensure_connected, get_world, raise. unfold mbind, M_bind, mret, M_ret.
  destruct (db_is_closed (w_db w)); [cbn; by auto|].
  destruct (db_conn (w_db w)); [|cbn; by auto 6]. cbn.
  destruct (sqlite_read_error env); cbn; by auto 6.
Qed.

Lemma store_analyses_batch_run (entries : list CacheEntry) (w : World) :
  match store_analyses_batch env entries w with
  | (Ret _, w') =>
      w_sf w' = w_sf w /\ w_progress w' = w_progress w
      /\ db_conn (w_db w') = db_conn (w_db w)
      /\ db_is_closed (w_db w') = db_is_closed (w_db w)
  | (Raise e, w') =>
      w' = w /\ (e = CacheError \/ e = CacheConnectionError \/ e = CacheWriteError)
  end.
Proof.
  unfold store_analyses_batch. case_bool_decide as Hnil; [done|].
  unfold _ensure_connected, get_world, raise, set_db.
  unfold mbind, M_bind, mret, M_ret.
  destruct (db_is_closed (w_db w)) eqn:Hclosed; [cbn; by auto|].
  destruct (db_conn (w_db w)) eqn:Hconn; [|cbn; by auto 6]. cbn.
  destruct (sqlite_write_error env); cbn; [by auto 6|by repeat split].
Qed.

End ProviderRuns.

Section ProviderOutcome.
Context `{ChessBoard} (env : Env).

(** What a returning run did, in full: the counters, the mapping, the cache
    rows of the planned positions, the progress sink and the controller. *)
Lemma get_analyses_for_game_ret (self : AnalysisProvider) (game : Game)
    (w w' : World) (all_analyses : gmap string (option Analysis))
    (cache_hits engine_runs : nat) :
  get_analyses_for_game env self game w
    = (Ret (all_analyses, cache_hits, engine_runs), w') ->
  let required := _get_required_fens game in
  let n := Z.max 1 (sf_multipv_count (w_sf w)) in
  let hit := cache_hit self (w_db w) in
  let to_analyze := filter (fun fen => hit fen = None) (elements required) in
  (exists cached : gmap string Analysis,
      cache_hits = size cached
      /\ forall fen, cached !! fen = if decide (fen ∈ required) then hit fen else None)
  /\ engine_runs = length to_analyze
  /\ (forall fen, all_analyses !! fen
                  = if decide (fen ∈ required)
                    then match hit fen with
                         | Some a => Some (Some a)
                         | None => Some (outcome_result (sf_respond env fen n))
                         end
                    else None)
  /\ (forall fen, fen ∈ required ->
        cache_hit self (w_db w') fen
        = match hit fen with
          | Some a => Some a
          | None => outcome_result (sf_respond env fen n)
          end)
  /\ ((forall fen, fen ∈ to_analyze -> outcome_result (sf_respond env fen n) = None) ->
      w_db w' = w_db w)
  /\ (db_is_closed (w_db w') = false /\ db_conn (w_db w') = true
      /\ sqlite_read_error env = false)
  /\ w_progress w'
     = {| progress_total := size required; progress_n := cache_hits + engine_runs |}
  /\ sf_multipv_count (w_sf w') = sf_multipv_count (w_sf w)
  /\ (to_analyze <> [] ->
      sf_is_closed (w_sf w') = false /\ sf_stockfish (w_sf w') = true
      /\ (sf_responsive env = true \/ sf_restart_ok env = true))
  /\ Forall (fun fen => sf_respond env fen n <> SfException) to_analyze.
Proof.
  intros Hrun required n hit to_analyze0. unfold get_analyses_for_game in Hrun.
  fold required in Hrun.
  assert (Hne : required <> ∅).
  { pose proof (proj1 (_get_required_fens_start_and_size game)) as Hstart.
    fold required in Hstart. set_solver. }
  destruct (decide (required = ∅)) as [|_]; [done|].
  unfold progress_reset, set_progress in Hrun. rewrite !run_bind in Hrun.
  match type of Hrun with
  | context [get_cached_analyses_batch ?e ?f ?a ?b ?c ?d ?w0] =>
      pose proof (get_cached_analyses_batch_run e f a b c d w0) as Hopen;
      destruct (get_cached_analyses_batch e f a b c d w0)
        as [[cached|err] w1] eqn:Hcached
  end; [|done].
  destruct Hopen as [_ Hopen]. cbn [w_db] in Hopen.
  destruct Hopen as (Hclosed & Hconn & Hread).
  { intros Hnil. apply Hne. apply set_eq. intros x.
    rewrite <- elem_of_elements, Hnil. set_solver. }
  apply get_cached_analyses_batch_ret in Hcached as [-> Hcached].
  cbv beta iota in Hrun.
  rewrite run_bind, progress_update_run in Hrun. cbn [w_db w_sf w_progress] in *.
  set (to_analyze := filter (fun fen => cached !! fen = None) (elements required)) in *.
  assert (Hcached_in : forall fen, fen ∈ required -> cached !! fen = hit fen).
  { intros fen Hin. rewrite Hcached. by rewrite decide_True by set_solver. }
  assert (Hsame : to_analyze = to_analyze0).
  { apply filter_equiv_elem. intros fen Hin%elem_of_elements.
    by rewrite Hcached_in. }
  assert (Hmiss : forall fen, fen ∈ to_analyze <-> fen ∈ required /\ hit fen = None).
  { intros fen. rewrite Hsame. unfold to_analyze0.
    by rewrite list_elem_of_filter, elem_of_elements, (comm and). }
  set (newly := foldl (fun acc fen =>
                         odict_set acc fen (outcome_result (sf_respond env fen n)))
                      ([] : odict (option Analysis)) to_analyze).
  destruct (odict_fold_set (fun fen => outcome_result (sf_respond env fen n))
              to_analyze [] (NoDup_nil_2 (A := string))) as [Hnd Hnewly].
  fold newly in Hnd, Hnewly.
  assert (Hruns : engine_runs = length to_analyze
          /\ cache_hits = size cached
          /\ all_analyses = dict_update (Some <$> cached) newly
          /\ db_rows (w_db w')
             = foldl (fun rows e => <[key e := Json (analysis_result e)]> rows)
                     (db_rows (w_db w)) (entries_to_cache self newly)
          /\ (entries_to_cache self newly = [] -> w_db w' = w_db w)
          /\ db_is_closed (w_db w') = false /\ db_conn (w_db w') = true
          /\ w_progress w'
             = {| progress_total := size required;
                  progress_n := size cached + length to_analyze |}
          /\ sf_multipv_count (w_sf w') = sf_multipv_count (w_sf w)
          /\ (to_analyze <> [] ->
              sf_is_closed (w_sf w') = false /\ sf_stockfish (w_sf w') = true
              /\ (sf_responsive env = true \/ sf_restart_ok env = true))
          /\ Forall (fun fen => sf_respond env fen n <> SfException) to_analyze).
  { case_bool_decide as Hnil.
    - injection Hrun as <- <- <- <-. subst newly. rewrite Hnil. cbn.
      repeat split; try done. by rewrite Nat.add_0_r.
    - rewrite run_bind in Hrun.
      match type of Hrun with
      | context [analyze_fens_batch ?e ?f ?cb ?w0] =>
          pose proof (analyze_fens_batch_run e f w0) as Hsf;
          destruct (analyze_fens_batch e f cb w0) as [[res|err] w2] eqn:Hengine
      end; [|done].
      destruct Hsf as (_ & Hpv & Hc2 & _ & Hsf2 & Hresp & Hprog).
      apply analyze_fens_batch_ret in Hengine as (Hall & -> & Hdb2).
      cbn [w_sf w_db w_progress progress_total progress_n] in *. fold n newly in Hrun.
      rewrite run_bind in Hrun. case_bool_decide as Hentries.
      + injection Hrun as <- <- <- <-. rewrite Hentries, Hdb2.
        by repeat split.
      + pose proof (store_analyses_batch_run env (entries_to_cache self newly) w2)
          as Hst.
        destruct (store_analyses_batch env (entries_to_cache self newly) w2)
          as [[[]|err] w3] eqn:Hstore; [|done].
        destruct Hst as (Hsf3 & Hprog3 & Hconn3 & Hclosed3).
        apply store_analyses_batch_ret in Hstore as [Hrows Hbatches]; [|done].
        injection Hrun as <- <- <- <-.
        rewrite Hrows, Hdb2, Hconn3, Hclosed3, Hdb2, Hprog3, Hprog, Hsf3.
        by repeat split. }
  destruct Hruns as (-> & -> & -> & Hrows & Hnostore & Hclosed' & Hconn' & Hprog
                     & Hpv & Hsf & Hall).
  assert (Hlookup : forall fen,
            dict_update (Some <$> cached) newly !! fen
            = if decide (fen ∈ to_analyze)
              then Some (outcome_result (sf_respond env fen n))
              else Some <$> cached !! fen).
  { intros fen. unfold dict_update. rewrite dict_update_lookup by done.
    rewrite Hnewly. case_decide; [done|]. by rewrite lookup_fmap. }
  assert (Hentry : forall e, e ∈ entries_to_cache self newly
            <-> exists fen, (fen ∈ required /\ hit fen = None
                             /\ sf_respond env fen n = SfTopMoves (analysis_result e))
                            /\ key e = cache_key self fen).
  { intros e. rewrite entries_to_cache_elem.
    split; intros (fen & Hfen & Hkey); exists fen; (split; [|done]).
    - apply odict_lookup_elem in Hfen; [|done]. rewrite Hnewly in Hfen.
      case_decide as Hin; [|done]. injection Hfen as Hfen.
      apply outcome_result_Some in Hfen. apply Hmiss in Hin. naive_solver.
    - destruct Hfen as (Hreq & Hhit & Hsfr). apply odict_lookup_elem; [done|].
      rewrite Hnewly, decide_True by (apply Hmiss; done). by rewrite Hsfr. }
  pose proof (entries_to_cache_NoDup self newly Hnd) as Hnd_entries.
  rewrite <- Hsame.
  split.
  { exists cached. split; [done|]. intros fen. rewrite Hcached.
    destruct (decide (fen ∈ required)).
    - by rewrite decide_True by set_solver.
    - by rewrite decide_False by set_solver. }
  split; [done|].
  split; [|split; [|split; [|split; [|split; [|split; [|split]]]]]];
    try done.
  - intros fen. rewrite Hlookup. destruct (decide (fen ∈ required)) as [Hin|Hout].
    + rewrite (Hcached_in fen Hin). destruct (hit fen) as [a|] eqn:Hhit.
      * rewrite decide_False; [done|]. rewrite Hmiss. naive_solver.
      * by rewrite decide_True by (apply Hmiss; done).
    + rewrite decide_False by (rewrite Hmiss; naive_solver).
      rewrite Hcached. by rewrite decide_False by set_solver.
  - intros fen Hin. unfold cache_hit at 1. fold (cache_key self fen). rewrite Hrows.
    destruct (hit fen) as [a|] eqn:Hhit.
    + rewrite (proj2 (store_fold_lookup _ _ (cache_key self fen) Hnd_entries)).
      * exact Hhit.
      * intros (e & Hkey & He)%list_elem_of_fmap.
        apply Hentry in He as (fen' & (_ & Hhit' & _) & Hkey').
        rewrite Hkey' in Hkey. injection Hkey as ->. congruence.
    + destruct (sf_respond env fen n) as [|a|] eqn:Hresp; cbn [outcome_result].
      * rewrite (proj2 (store_fold_lookup _ _ (cache_key self fen) Hnd_entries)).
        { exact Hhit. }
        intros (e & Hkey & He)%list_elem_of_fmap.
        apply Hentry in He as (fen' & (_ & _ & Hresp') & Hkey').
        rewrite Hkey' in Hkey. injection Hkey as ->. congruence.
      * by rewrite (proj1 (store_fold_lookup _ _ (cache_key self fen) Hnd_entries)
                      {| key := cache_key self fen; analysis_result := a |})
          by (try done; apply Hentry; by exists fen).
      * exfalso. rewrite Forall_forall in Hall. apply (Hall fen); [|done].
        by apply Hmiss.
  - intros Hnone. apply Hnostore.
    destruct (entries_to_cache self newly) as [|e l]; [done|].
    destruct (proj1 (Hentry e) (list_elem_of_here e l))
      as (fen & (Hreq & Hhit & Hresp) & _).
    specialize (Hnone fen (proj2 (Hmiss fen) (conj Hreq Hhit))).
    by rewrite Hresp in Hnone.
Qed.

End ProviderOutcome.

Section ProviderGuarantees.
Context `{ChessBoard} (env : Env).

Lemma size_hits_and_misses (required : gset string) (cached : gmap string Analysis)
    (hit : string -> option Analysis) :
  (forall fen, cached !! fen = if decide (fen ∈ required) then hit fen else None) ->
  size cached + length (filter (fun fen => hit fen = None) (elements required))
  = size required.
Proof.
  intros Hcached.
  assert (Hsub : dom cached ⊆ required).
  { intros fen [a Ha]%elem_of_dom. rewrite Hcached in Ha. by case_decide. }
  assert (Hperm : filter (fun fen => hit fen = None) (elements required)
                  ≡ₚ elements (required ∖ dom cached)).
  { apply NoDup_Permutation.
    - apply NoDup_filter, NoDup_elements.
    - apply NoDup_elements.
    - intros fen. rewrite list_elem_of_filter, !elem_of_elements, elem_of_difference.
      rewrite elem_of_dom, Hcached. split.
      + intros [Hhit Hin]. split; [done|]. rewrite decide_True, Hhit by done.
        by intros [? ?].
      + intros [Hin Hhit]. split; [|done]. rewrite decide_True in Hhit by done.
        destruct (hit fen); [|done]. destruct Hhit. by eexists. }
  rewrite Hperm.
  replace (length (elements (required ∖ dom cached)))
    with (size (required ∖ dom cached)) by reflexivity.
  rewrite <- (size_dom (D := gset string) cached).
  rewrite size_difference by done.
  apply subseteq_size in Hsub. lia.
Qed.

(** X11. The counters and the progress sink of a returning run add up: every
    planned position is either a cache hit or an engine run, never both and
    never neither, and the progress sink, reset to the number of planned
    positions, has been advanced by exactly that number when the call
    returns. *)
Theorem get_analyses_for_game_accounting (self : AnalysisProvider) (game : Game)
    (w w' : World) (all_analyses : gmap string (option Analysis))
    (cache_hits engine_runs : nat) :
  get_analyses_for_game env self game w
    = (Ret (all_analyses, cache_hits, engine_runs), w') ->
  let required := _get_required_fens game in
  cache_hits + engine_runs = size required
  /\ engine_runs
     = length (filter (fun fen => cache_hit self (w_db w) fen = None)
                      (elements required))
  /\ progress_total (w_progress w') = size required
  /\ progress_n (w_progress w') = progress_total (w_progress w')
  /\ size all_analyses = size required.
Proof.
  intros Hrun required.
  destruct (get_analyses_for_game_ret env self game w w' _ _ _ Hrun)
    as ((cached & -> & Hcached) & -> & Hall & _ & _ & _ & Hprog & _).
  fold required in Hcached, Hprog, Hall.
  pose proof (size_hits_and_misses required cached _ Hcached) as Hsum.
  rewrite Hprog. cbn [progress_total progress_n].
  split; [done|]. split; [done|]. split; [done|]. split; [done|].
  rewrite <- (size_dom (D := gset string) all_analyses). f_equal.
  apply set_eq. intros fen. rewrite elem_of_dom, Hall.
  destruct (decide (fen ∈ required)); [|by split; [intros [? ?]|]].
  split; [done|]. intros _. by destruct (cache_hit self (w_db w) fen).
Qed.

End ProviderGuarantees.

Section ProviderFailures.
Context `{ChessBoard} (env : Env).

Lemma analyze_loop_raises (n : Z) (fens : list string)
    (res : odict (option Analysis)) (w : World) :
  Exists (fun fen => sf_respond env fen n = SfException) fens ->
  exists w', analyze_loop env n (progress_update 1) fens res w
             = (Raise StockfishAnalysisError, w').
Proof.
  revert res w. induction fens as [|fen fens IH]; intros res w Hex.
  { by apply Exists_nil in Hex. }
  cbn [analyze_loop]. destruct (sf_respond env fen n) as [|a|] eqn:Hresp.
  - apply Exists_cons in Hex as [Hex|Hex]; [congruence|].
    rewrite run_bind, progress_update_run.
    match goal with
    | |- context [analyze_loop _ _ _ _ ?r ?w0] =>
        destruct (IH r w0 Hex) as [w' ->]
    end. by eexists.
  - apply Exists_cons in Hex as [Hex|Hex]; [congruence|].
    rewrite run_bind, progress_update_run.
    match goal with
    | |- context [analyze_loop _ _ _ _ ?r ?w0] =>
        destruct (IH r w0 Hex) as [w' ->]
    end. by eexists.
  - by eexists.
Qed.

(** On a closed cache the provider stops at the batch read. *)
Lemma get_analyses_for_game_closed_cache (self : AnalysisProvider) (game : Game)
    (w : World) :
  db_is_closed (w_db w) = true ->
  exists w', get_analyses_for_game env self game w = (Raise CacheError, w')
             /\ w_db w' = w_db w.
Proof.
  intros Hclosed. unfold get_analyses_for_game.
  pose proof (proj1 (_get_required_fens_start_and_size game)) as Hstart.
  destruct (decide (_get_required_fens game = ∅)) as [Hempty|_]; [set_solver|].
  unfold progress_reset, set_progress. rewrite !run_bind.
  unfold get_cached_analyses_batch. rewrite bool_decide_eq_false_2.
  2:{ intros Hnil. apply elem_of_elements in Hstart. rewrite Hnil in Hstart.
      by apply elem_of_nil in Hstart. }
  unfold _ensure_connected, get_world, raise. unfold mbind, M_bind, mret, M_ret.
  cbn [w_db]. rewrite Hclosed. by eexists.
Qed.

(** X12. A call of [get_analyses_for_game] that raises leaves the cache
    exactly as it was, rows and written batches alike, whatever was evaluated
    before the failure; the exception is one of the cache errors or one of
    the two engine errors, and after [StockfishAnalysisError] the controller
    no longer holds an engine. *)
Theorem get_analyses_for_game_failure (self : AnalysisProvider) (game : Game)
    (w w' : World) (e : exn) :
  get_analyses_for_game env self game w = (Raise e, w') ->
  w_db w' = w_db w
  /\ e ∈ [CacheError; CacheConnectionError; CacheReadError; CacheWriteError;
          StockfishError; StockfishAnalysisError]
  /\ (e = StockfishAnalysisError -> sf_stockfish (w_sf w') = false)
  /\ progress_total (w_progress w') = size (_get_required_fens game).
Proof.
  intros Hrun. unfold get_analyses_for_game in Hrun.
  destruct (decide (_get_required_fens game = ∅)) as [|_]; [done|].
  unfold progress_reset, set_progress in Hrun. rewrite !run_bind in Hrun.
  match type of Hrun with
  | context [get_cached_analyses_batch ?e ?f ?a ?b ?c ?d ?w0] =>
      pose proof (get_cached_analyses_batch_run e f a b c d w0) as Hread;
      destruct (get_cached_analyses_batch e f a b c d w0) as [[cached|err] w1]
  end.
  2:{ destruct Hread as [-> Herr]. injection Hrun as <- <-. cbn.
      split; [done|]. split; [set_solver|]. split; [|done].
      intros ->. naive_solver. }
  destruct Hread as [-> _]. cbv beta iota in Hrun.
  rewrite run_bind, progress_update_run in Hrun. cbn [w_db w_sf w_progress] in Hrun.
  case_bool_decide as Hnil; [done|]. rewrite run_bind in Hrun.
  match type of Hrun with
  | context [analyze_fens_batch ?e ?f ?cb ?w0] =>
      pose proof (analyze_fens_batch_run e f w0) as Hengine;
      destruct (analyze_fens_batch e f cb w0) as [[res|err] w2] eqn:Hbatch
  end.
  2:{ destruct Hengine as (Herr & Hdb & Htot). injection Hrun as <- <-.
      cbn in Hdb, Htot. split; [done|]. split; [set_solver|].
      split; [intros ->; naive_solver|done]. }
  destruct Hengine as (Hdb & _ & _ & _ & _ & _ & Hprog).
  cbv beta iota in Hrun. rewrite run_bind in Hrun.
  case_bool_decide as Hentries; [done|].
  pose proof (store_analyses_batch_run env (entries_to_cache self res) w2) as Hstore.
  destruct (store_analyses_batch env (entries_to_cache self res) w2)
    as [[[]|err] w3]; [done|].
  destruct Hstore as [-> Herr]. injection Hrun as <- <-. cbn in Hdb, Hprog.
  split; [done|]. split; [set_solver|]. split; [intros ->; naive_solver|].
  by rewrite Hprog.
Qed.

(** X13. One engine fault aborts the whole game: when the cache is readable,
    the controller is usable, and the engine process fails on some planned
    position that is not cached, [get_analyses_for_game] raises
    [StockfishAnalysisError]; nothing is returned and nothing is written to
    the cache, the evaluations obtained earlier in the batch included, and
    the controller drops its engine. *)
Theorem get_analyses_for_game_engine_fault (self : AnalysisProvider) (game : Game)
    (w : World) (fen : string) :
  db_is_closed (w_db w) = false -> db_conn (w_db w) = true ->
  sqlite_read_error env = false ->
  sf_is_closed (w_sf w) = false ->
  is_ready env w = true \/ sf_restart_ok env = true ->
  fen ∈ _get_required_fens game ->
  cache_hit self (w_db w) fen = None ->
  sf_respond env fen (Z.max 1 (sf_multipv_count (w_sf w))) = SfException ->
  exists w',
    get_analyses_for_game env self game w = (Raise StockfishAnalysisError, w')
    /\ w_db w' = w_db w /\ sf_stockfish (w_sf w') = false.
Proof.
  intros Hclosed Hconn Hread Hsf Hready Hin Hhit Hresp.
  unfold get_analyses_for_game.
  destruct (decide (_get_required_fens game = ∅)) as [Hempty|_]; [set_solver|].
  unfold progress_reset, set_progress. rewrite !run_bind.
  match goal with
  | |- context [get_cached_analyses_batch ?e ?f ?a ?b ?c ?d ?w0] =>
      destruct (get_cached_analyses_batch_returns e self f w0) as [cached Hcached];
        [done..|]
  end.
  rewrite Hcached. apply get_cached_analyses_batch_ret in Hcached as [_ Hcached].
  cbv beta iota. rewrite run_bind, progress_update_run. cbn [w_db w_sf w_progress].
  assert (Hmiss : fen ∈ filter (fun fen => cached !! fen = None)
                          (elements (_get_required_fens game))).
  { apply list_elem_of_filter. split; [|by apply elem_of_elements].
    rewrite Hcached. by rewrite decide_True by set_solver. }
  rewrite bool_decide_eq_false_2 by (intros Hnil; rewrite Hnil in Hmiss; set_solver).
  rewrite run_bind.
  match goal with
  | |- context [analyze_fens_batch ?e ?f ?cb ?w0] =>
      pose proof (analyze_fens_batch_run e f w0) as Hrun;
      assert (Hraise : exists w1, analyze_fens_batch e f cb w0
                                  = (Raise StockfishAnalysisError, w1))
  end.
  { unfold analyze_fens_batch. rewrite run_bind.
    match goal with
    | |- context [_ensure_engine_ready ?e ?w0] =>
        assert (Hens : exists w1, _ensure_engine_ready e w0 = (Ret tt, w1)
                   /\ sf_multipv_count (w_sf w1) = sf_multipv_count (w_sf w))
    end.
    { unfold _ensure_engine_ready, get_world, raise, set_sf.
      unfold mbind, M_bind, mret, M_ret. cbn [w_sf]. rewrite Hsf.
      match goal with
      | |- context [is_ready env ?w0] =>
          change (is_ready env w0) with (is_ready env w)
      end.
      destruct (is_ready env w) eqn:Hr; cbn [negb]; [by eexists|].
      destruct Hready as [?| ->]; [done|]. by eexists. }
    destruct Hens as (w1 & -> & Hpv).
    rewrite bool_decide_eq_false_2 by (intros Hnil; rewrite Hnil in Hmiss; set_solver).
    rewrite run_bind. cbn [get_world]. rewrite Hpv.
    apply analyze_loop_raises. apply Exists_exists. by exists fen. }
  destruct Hraise as [w1 Hraise]. rewrite Hraise in Hrun |- *.
  destruct Hrun as ([?|[_ Hdrop]] & Hdb & _); [done|].
  exists w1. by repeat split.
Qed.

End ProviderFailures.

Lemma get_analyses_for_game_failure_witness :
  exists e w',
    get_analyses_for_game Runs.env Runs.provider Games.null_move_game
      Faults.closed_cache_world = (Raise e, w')
    /\ w_db w' = w_db Faults.closed_cache_world.
Proof.
  destruct (get_analyses_for_game_closed_cache Runs.env Runs.provider
              Games.null_move_game Faults.closed_cache_world eq_refl)
    as (w' & Hrun & _).
  exists CacheError, w'. split; [exact Hrun|].
  exact (proj1 (get_analyses_for_game_failure _ _ _ _ _ _ Hrun)).
Defined.

Lemma get_analyses_for_game_engine_fault_witness :
  exists w',
    get_analyses_for_game Faults.env_engine_fault Runs.provider Games.null_move_game
      Runs.world = (Raise StockfishAnalysisError, w')
    /\ w_db w' = w_db Runs.world /\ sf_stockfish (w_sf w') = false.
Proof.
  apply (get_analyses_for_game_engine_fault Faults.env_engine_fault Runs.provider
           Games.null_move_game Runs.world Games.fen_after_e4);
    [reflexivity | reflexivity | reflexivity | reflexivity | left; reflexivity
    | | vm_compute; reflexivity | vm_compute; reflexivity].
  apply elem_of_elements.
  replace (elements (_get_required_fens Games.null_move_game))
    with [Games.fen_after_e4_d4_unpassed; Games.fen_after_e4; Games.fen_start]
    by (vm_compute; reflexivity).
  apply list_elem_of_further, list_elem_of_here.
Defined.

Section ProviderSecondRun.
Context `{ChessBoard} (env : Env).



End ProviderSecondRun.

Lemma get_analyses_for_game_accounting_witness :
  exists all_analyses cache_hits engine_runs w',
    get_analyses_for_game Runs.env Runs.provider Games.null_move_game Runs.world
      = (Ret (all_analyses, cache_hits, engine_runs), w')
    /\ cache_hits + engine_runs = size (_get_required_fens Games.null_move_game)
    /\ progress_n (w_progress w') = progress_total (w_progress w').
Proof.
  destruct (get_analyses_for_game_returns Runs.env Runs.provider
              Games.null_move_game Runs.world)
    as ([[all_analyses cache_hits] engine_runs] & w' & Hrun);
    [reflexivity | reflexivity | reflexivity | reflexivity | reflexivity
    | left; reflexivity
    | intros fen _; cbn; case_bool_decide; discriminate |].
  destruct (get_analyses_for_game_accounting _ _ _ _ _ _ _ _ Hrun)
    as (Hsum & _ & _ & Hfull & _).
  exists all_analyses, cache_hits, engine_runs, w'. by repeat split.
Defined.


(** ** The cache manager and the engine controller on their own *)

Lemma store_fold_last (entries : list CacheEntry) (rows : gmap CacheKey Row)
    (k : CacheKey) :
  foldl (fun rows e => <[key e := Json (analysis_result e)]> rows) rows entries !! k
  = match last (filter (fun e => key e = k) entries) with
    | Some e => Some (Json (analysis_result e))
    | None => rows !! k
    end.
Proof.
  revert rows. induction entries as [|e0 entries IH]; intros rows; [done|].
  cbn [foldl]. rewrite IH, filter_cons.
  destruct (decide (key e0 = k)) as [<-|Hne].
  - rewrite last_cons. destruct (last (filter _ entries)); [done|].
    by rewrite lookup_insert_eq.
  - destruct (last (filter _ entries)); [done|]. by rewrite lookup_insert_ne.
Qed.

Section CacheManager.
Context (env : Env).

(** What a successful single read returns, as a function of the rows. *)
Lemma get_cached_analysis_run (k : CacheKey) (w : World) :
  get_cached_analysis env k w
  = if db_is_closed (w_db w) then (Raise CacheError, w)
    else if negb (db_conn (w_db w)) then (Raise CacheConnectionError, w)
    else if sqlite_read_error env then (Raise CacheReadError, w)
    else (Ret match db_rows (w_db w) !! k with
              | Some (Json a) => Some a
              | _ => None
              end, w).
Proof.
  unfold get_cached_analysis, _ensure_connected, get_world, raise.
  unfold mbind, M_bind, mret, M_ret.
  destruct (db_is_closed (w_db w)); [done|].
  destruct (db_conn (w_db w)); [|done]. cbn.
  destruct (sqlite_read_error env); [done|].
  by destruct (db_rows (w_db w) !! k) as [[]|].
Qed.

(** X15. Store, then read: after a batch was stored, a single read of any key
    returns the evaluation of the last entry of the batch that carries this
    key (the statement is INSERT OR REPLACE, so later entries win), and for a
    key the batch does not mention it returns what it returned before the
    batch; the read leaves the world as it is. *)
Theorem store_then_get_cached_analysis (entries : list CacheEntry)
    (k : CacheKey) (w w' : World) :
  entries <> [] -> sqlite_read_error env = false ->
  store_analyses_batch env entries w = (Ret tt, w') ->
  exists before,
    get_cached_analysis env k w = (Ret before, w)
    /\ get_cached_analysis env k w'
       = (Ret match last (filter (fun e => key e = k) entries) with
              | Some e => Some (analysis_result e)
              | None => before
              end, w').
Proof.
  intros Hne Hread Hstore.
  pose proof (store_analyses_batch_ret env entries w w' Hne Hstore) as [Hrows _].
  pose proof (store_analyses_batch_run env entries w) as Hrun.
  rewrite Hstore in Hrun. destruct Hrun as (_ & _ & Hconn & Hclosed).
  assert (Hopen : db_is_closed (w_db w) = false /\ db_conn (w_db w) = true).
  { unfold store_analyses_batch in Hstore.
    rewrite bool_decide_eq_false_2 in Hstore by done.
    unfold _ensure_connected, get_world, raise in Hstore.
    unfold mbind, M_bind, mret, M_ret in Hstore.
    destruct (db_is_closed (w_db w)); [done|]. by destruct (db_conn (w_db w)). }
  destruct Hopen as [Hclosed0 Hconn0].
  eexists. rewrite !get_cached_analysis_run.
  rewrite Hclosed, Hconn, Hclosed0, Hconn0, Hread. cbn [negb].
  split; [reflexivity|]. rewrite Hrows, store_fold_last.
  by destruct (last (filter _ entries)).
Qed.

(** X16. The batch read and the single read are two paths to the same rows:
    for a non-empty list of positions, a batch read that returns gives, for
    each listed position, what the single read of its key returns (a missing
    row and an undecodable row are both absent from the batch result), and
    gives nothing for other positions; a batch read that raises does so with
    the exception the single read raises.  The empty list is the one
    difference: the batch read answers it with the empty mapping without
    looking at the connection. *)
Theorem batch_read_agrees_with_single_read (self : AnalysisProvider)
    (fens : list string) (w : World) :
  fens <> [] ->
  match get_cached_analyses_batch env fens (analysis_depth self)
          (multipv_count self) (stockfish_path self) (stockfish_version self) w with
  | (Ret cached, w') =>
      w' = w
      /\ (forall fen, fen ∈ fens ->
            get_cached_analysis env (cache_key self fen) w = (Ret (cached !! fen), w))
      /\ (forall fen, fen ∉ fens -> cached !! fen = None)
  | (Raise e, w') =>
      w' = w /\ forall k, get_cached_analysis env k w = (Raise e, w)
  end
  /\ get_cached_analyses_batch env [] (analysis_depth self)
       (multipv_count self) (stockfish_path self) (stockfish_version self) w
     = (Ret ∅, w).
Proof.
  intros Hne. split; [|done].
  destruct (get_cached_analyses_batch env fens _ _ _ _ w) as [[cached|e] w'] eqn:Hbatch.
  - pose proof (get_cached_analyses_batch_run env fens (analysis_depth self)
                  (multipv_count self) (stockfish_path self) (stockfish_version self) w)
      as Hrun.
    rewrite Hbatch in Hrun. destruct Hrun as [_ Hopen].
    destruct (Hopen Hne) as (Hclosed & Hconn & Hread).
    apply get_cached_analyses_batch_ret in Hbatch as [-> Hcached].
    split; [done|]. split.
    + intros fen Hin. rewrite get_cached_analysis_run, Hclosed, Hconn, Hread.
      cbn [negb]. rewrite Hcached, decide_True by done. unfold cache_hit, cache_key.
      by destruct (db_rows (w_db w) !! _) as [[]|].
    + intros fen Hout. rewrite Hcached. by rewrite decide_False.
  - unfold get_cached_analyses_batch in Hbatch.
    rewrite bool_decide_eq_false_2 in Hbatch by done.
    unfold _ensure_connected, get_world, raise in Hbatch.
    unfold mbind, M_bind, mret, M_ret in Hbatch.
    destruct (db_is_closed (w_db w)) eqn:Hclosed.
    { injection Hbatch as <- <-. split; [done|]. intros k.
      by rewrite get_cached_analysis_run, Hclosed. }
    destruct (db_conn (w_db w)) eqn:Hconn; cbn in Hbatch.
    2:{ injection Hbatch as <- <-. split; [done|]. intros k.
        by rewrite get_cached_analysis_run, Hclosed, Hconn. }
    destruct (sqlite_read_error env) eqn:Hread; [|done].
    injection Hbatch as <- <-. split; [done|]. intros k.
    by rewrite get_cached_analysis_run, Hclosed, Hconn, Hread.
Qed.

End CacheManager.

Lemma store_then_get_cached_analysis_witness :
  exists w' before,
    store_analyses_batch Runs.env Cached.one_entry Runs.world = (Ret tt, w')
    /\ get_cached_analysis Runs.env (cache_key Runs.provider Games.fen_after_e4)
         Runs.world = (Ret before, Runs.world)
    /\ get_cached_analysis Runs.env (cache_key Runs.provider Games.fen_after_e4) w'
       = (Ret (Some Runs.engine_answer), w').
Proof.
  eexists.
  destruct (store_then_get_cached_analysis Runs.env Cached.one_entry
              (cache_key Runs.provider Games.fen_after_e4) Runs.world _
              ltac:(discriminate) eq_refl eq_refl) as (before & Hbefore & Hafter).
  exists before. split; [reflexivity|]. split; [exact Hbefore|exact Hafter].
Defined.

Lemma batch_read_agrees_with_single_read_witness :
  get_cached_analysis Runs.env (cache_key Runs.provider Games.fen_start) Runs.world
  = (Ret (Some Runs.cached_start), Runs.world).
Proof.
  pose proof (proj1 (batch_read_agrees_with_single_read Runs.env Runs.provider
                       [Games.fen_start] Runs.world ltac:(discriminate))) as Hagree.
  destruct Hagree as (_ & Hsingle & _).
  rewrite (Hsingle Games.fen_start (list_elem_of_here _ _)).
  reflexivity.
Defined.

Section ClosedServices.
Context `{ChessBoard} (env : Env).

(** X17. Closing the cache manager always succeeds, keeps the stored rows,
    and is idempotent; afterwards every operation that needs the connection
    raises [CacheError] and changes nothing: the single read, a batch read or
    a batch store of a non-empty list, and with them the provider's
    [get_analyses_for_game] for any game. *)
Theorem closed_cache_refuses (w : World) :
  exists w1,
    DBManager_close w = (Ret tt, w1)
    /\ db_rows (w_db w1) = db_rows (w_db w) /\ w_sf w1 = w_sf w
    /\ DBManager_close w1 = (Ret tt, w1)
    /\ (forall k, get_cached_analysis env k w1 = (Raise CacheError, w1))
    /\ (forall fens d m p v, fens <> [] ->
          get_cached_analyses_batch env fens d m p v w1 = (Raise CacheError, w1))
    /\ (forall entries, entries <> [] ->
          store_analyses_batch env entries w1 = (Raise CacheError, w1))
    /\ (forall self game, exists w2,
          get_analyses_for_game env self game w1 = (Raise CacheError, w2)
          /\ w_db w2 = w_db w1).
Proof.
  assert (Hclose : exists w1, DBManager_close w = (Ret tt, w1)
                     /\ db_is_closed (w_db w1) = true
                     /\ db_rows (w_db w1) = db_rows (w_db w) /\ w_sf w1 = w_sf w).
  { unfold DBManager_close, get_world, set_db. unfold mbind, M_bind, mret, M_ret.
    destruct (db_is_closed (w_db w)) eqn:Hc; by eexists. }
  destruct Hclose as (w1 & Hclose & Hclosed & Hrows & Hsf).
  exists w1. split; [done|]. split; [done|]. split; [done|].
  split; [|split; [|split; [|split]]].
  - unfold DBManager_close, get_world. unfold mbind, M_bind, mret, M_ret.
    by rewrite Hclosed.
  - intros k. by rewrite get_cached_analysis_run, Hclosed.
  - intros fens d m p v Hne. unfold get_cached_analyses_batch.
    rewrite bool_decide_eq_false_2 by done.
    unfold _ensure_connected, get_world, raise. unfold mbind, M_bind, mret, M_ret.
    by rewrite Hclosed.
  - intros entries Hne. unfold store_analyses_batch.
    rewrite bool_decide_eq_false_2 by done.
    unfold _ensure_connected, get_world, raise. unfold mbind, M_bind, mret, M_ret.
    by rewrite Hclosed.
  - intros self game.
    destruct (get_analyses_for_game_closed_cache env self game w1 Hclosed)
      as (w2 & Hrun & Hdb).
    by exists w2.
Qed.

(** X18. Closing the engine controller always succeeds and is idempotent;
    afterwards the controller is not ready and [analyze_fens_batch] raises
    [StockfishError] for every list of positions, the empty one included,
    without restarting the engine (even where a restart would succeed) and
    without calling the progress callback. *)
Theorem closed_controller_refuses (w : World) :
  exists w1,
    StockfishController_close w = (Ret tt, w1)
    /\ w_db w1 = w_db w /\ w_progress w1 = w_progress w
    /\ StockfishController_close w1 = (Ret tt, w1)
    /\ is_ready env w1 = false
    /\ (forall fens callback,
          analyze_fens_batch env fens callback w1 = (Raise StockfishError, w1)).
Proof.
  assert (Hclose : exists w1, StockfishController_close w = (Ret tt, w1)
                     /\ sf_is_closed (w_sf w1) = true
                     /\ w_db w1 = w_db w /\ w_progress w1 = w_progress w).
  { unfold StockfishController_close, get_world, set_sf.
    unfold mbind, M_bind, mret, M_ret.
    destruct (sf_is_closed (w_sf w)) eqn:Hc; by eexists. }
  destruct Hclose as (w1 & Hclose & Hclosed & Hdb & Hprog).
  exists w1. split; [done|]. split; [done|]. split; [done|].
  split; [|split].
  - unfold StockfishController_close, get_world. unfold mbind, M_bind, mret, M_ret.
    by rewrite Hclosed.
  - unfold is_ready. by rewrite Hclosed.
  - intros fens callback. unfold analyze_fens_batch. rewrite run_bind.
    unfold _ensure_engine_ready, get_world, raise. unfold mbind, M_bind, mret, M_ret.
    by rewrite Hclosed.
Qed.

(** X19. A game whose planned positions are all in the cache needs no
    engine: with a readable cache [get_analyses_for_game] returns every
    planned position as a cache hit and reports no engine run, whatever the
    state of the controller (closed, without an engine, unable to restart);
    it touches neither the controller nor the cache. *)
Theorem fully_cached_game_needs_no_engine (self : AnalysisProvider) (game : Game)
    (w : World) :
  db_is_closed (w_db w) = false -> db_conn (w_db w) = true ->
  sqlite_read_error env = false ->
  (forall fen, fen ∈ _get_required_fens game ->
     is_Some (cache_hit self (w_db w) fen)) ->
  exists all_analyses w',
    get_analyses_for_game env self game w
      = (Ret (all_analyses, size (_get_required_fens game), 0), w')
    /\ w_db w' = w_db w /\ w_sf w' = w_sf w
    /\ forall fen, fen ∈ _get_required_fens game ->
          analyses_get all_analyses fen = cache_hit self (w_db w) fen.
Proof.
  intros Hclosed Hconn Hread Hcachedall.
  set (required := _get_required_fens game) in *.
  unfold get_analyses_for_game. fold required.
  assert (Hne : required <> ∅).
  { pose proof (proj1 (_get_required_fens_start_and_size game)) as Hstart.
    fold required in Hstart. set_solver. }
  destruct (decide (required = ∅)) as [|_]; [done|].
  unfold progress_reset, set_progress. rewrite !run_bind.
  match goal with
  | |- context [get_cached_analyses_batch ?e ?f ?a ?b ?c ?d ?w0] =>
      destruct (get_cached_analyses_batch_returns e self f w0) as [cached Hcached];
        [done..|]
  end.
  rewrite Hcached. apply get_cached_analyses_batch_ret in Hcached as [_ Hcached].
  cbv beta iota. rewrite run_bind, progress_update_run. cbn [w_db w_sf w_progress].
  cbn [w_db] in Hcached.
  assert (Hin : forall fen, fen ∈ required ->
            cached !! fen = cache_hit self (w_db w) fen).
  { intros fen Hfen. rewrite Hcached. by rewrite decide_True by set_solver. }
  assert (Hnil : filter (fun fen => cached !! fen = None) (elements required) = []).
  { apply elem_of_nil_inv.
    intros fen [Hnone Hfen%elem_of_elements]%list_elem_of_filter.
    rewrite (Hin fen Hfen) in Hnone. destruct (Hcachedall fen Hfen). congruence. }
  rewrite Hnil. rewrite bool_decide_eq_true_2 by done.
  assert (Hsize : size cached = size required).
  { rewrite <- (size_dom (D := gset string) cached). f_equal. apply set_eq.
    intros fen. rewrite elem_of_dom, Hcached. split.
    - by case_decide as Hd; [apply elem_of_elements in Hd|intros [? ?]].
    - intros Hfen. rewrite decide_True by set_solver. by apply Hcachedall. }
  rewrite Hsize. eexists _, _. split; [reflexivity|].
  split; [done|]. split; [done|].
  intros fen Hfen. unfold analyses_get. rewrite lookup_fmap, (Hin fen Hfen).
  by destruct (cache_hit self (w_db w) fen).
Qed.

End ClosedServices.

Lemma fully_cached_game_needs_no_engine_witness :
  exists all_analyses w',
    get_analyses_for_game Runs.env Runs.provider Cached.no_move_game
      Cached.closed_engine_world
      = (Ret (all_analyses, size (_get_required_fens Cached.no_move_game), 0), w')
    /\ w_sf w' = w_sf Cached.closed_engine_world
    /\ analyses_get all_analyses Games.fen_start = Some Runs.cached_start.
Proof.
  assert (Hstart : fen (game_board Cached.no_move_game) = Games.fen_start)
    by (vm_compute; reflexivity).
  destruct (fully_cached_game_needs_no_engine Runs.env Runs.provider
              Cached.no_move_game Cached.closed_engine_world)
    as (all_analyses & w' & Hrun & _ & Hsf & Hget);
    [reflexivity | reflexivity | reflexivity | |].
  { intros position Hin.
    change (position ∈ ({[ fen (game_board Cached.no_move_game) ]} : gset string))
      in Hin.
    apply elem_of_singleton in Hin. subst position. rewrite Hstart.
    exists Runs.cached_start. reflexivity. }
  exists all_analyses, w'. split; [exact Hrun|]. split; [exact Hsf|].
  rewrite (Hget Games.fen_start).
  - reflexivity.
  - change (Games.fen_start
            ∈ ({[ fen (game_board Cached.no_move_game) ]} : gset string)).
    apply elem_of_singleton. symmetry. exact Hstart.
Defined.

(** ** Labels, summary and report *)

Section LabelsOfResults.
Context `{ChessBoard}.

Lemma simplified_label_cases (ctx : MoveAnalysisContext) (r : ClassificationResult) :
  classify_move ctx = Ret r ->
  (simplified_label (H := Ascii_builtins.builtins) r = "Blunder !!!"
   /\ (300 < cpl r)%Q)
  \/ (simplified_label (H := Ascii_builtins.builtins) r
        ∈ ["Unavailable"; "Great Move !"; "Best"; "Good"; "OK"; "Dubious";
           "Inaccuracy"; "Mistake"]
      /\ (cpl r <= 300)%Q).
Proof.
  intros Hr. unfold classify_move in Hr.
  destruct (eval_best_move ctx) as [best|];
    [|injection Hr as <-; right; split; [set_solver|done]].
  destruct (eval_player_move ctx) as [played|];
    [|injection Hr as <-; right; split; [set_solver|done]].
  destruct (_check_for_brilliant ctx (raw_cpl_of ctx)) as [b|].
  { by rewrite kw_merge_top_flags_raises in Hr. }
  destruct (_check_for_great ctx (top_choice ctx)) as [g|] eqn:Hg.
  { pose proof (_check_for_great_result _ _ _ Hg) as ->. injection Hr as <-.
    right. split; [set_solver|done]. }
  injection Hr as <-. unfold simplified_label. cbn [classification_text cpl].
  set (c := cpl_for_metrics_of (raw_cpl_of ctx)).
  destruct (standard_text_intervals c) as (H5 & H40 & H70 & H90 & H180 & H300 & Hb).
  destruct (Qlt_le_dec 300 c) as [Hgt|Hle].
  { left. rewrite (Hb Hgt). by split. }
  right. split; [|done].
  destruct (Qlt_le_dec 180 c); [rewrite H300 by done; set_solver|].
  destruct (Qlt_le_dec 90 c); [rewrite H180 by done; set_solver|].
  destruct (Qlt_le_dec 70 c); [rewrite H90 by done; set_solver|].
  destruct (Qlt_le_dec 40 c); [rewrite H70 by done; set_solver|].
  destruct (Qlt_le_dec 5 c); [rewrite H40 by done; set_solver|].
  rewrite H5 by done. set_solver.
Qed.

Lemma simplified_label_blunder (ctx : MoveAnalysisContext) (r : ClassificationResult) :
  classify_move ctx = Ret r ->
  simplified_label (H := Ascii_builtins.builtins) r <> "Blunder"
  /\ (simplified_label (H := Ascii_builtins.builtins) r = "Blunder !!!"
      <-> Qltb 300 (cpl r) = true).
Proof.
  intros Hr. rewrite Qltb_lt.
  destruct (simplified_label_cases ctx r Hr) as [[-> Hgt]|[Hin Hle]]; [done|].
  split.
  - intros Heq. rewrite Heq in Hin. set_solver.
  - split.
    + intros Heq. rewrite Heq in Hin. set_solver.
    + intros Hgt. exfalso. by apply (Qlt_not_le _ _ Hgt).
Qed.

(** X20. The label under which a returned classification is tallied (the
    text before the first parenthesis, stripped) is one of nine: the
    missing-data label, the Great label, or a tier name, where the last tier
    is tallied as "Blunder !!!", with its marks, and exactly for a metrics CPL
    above 300.  No returned result is tallied as "Blunder" or as
    "Brilliant ✨". *)
Theorem simplified_label_of_classification
    (ctx : MoveAnalysisContext) (r : ClassificationResult) :
  classify_move ctx = Ret r ->
  let label := simplified_label (H := Ascii_builtins.builtins) r in
  label ∈ ["Unavailable"; "Great Move !"; "Best"; "Good"; "OK"; "Dubious";
           "Inaccuracy"; "Mistake"; "Blunder !!!"]
  /\ label <> "Blunder" /\ label <> "Brilliant ✨"
  /\ (label = "Blunder !!!" <-> (300 < cpl r)%Q).
Proof.
  intros Hr. cbn zeta.
  destruct (simplified_label_cases ctx r Hr) as [[-> Hgt]|[Hin Hle]].
  - split; [set_solver|]. split; [done|]. split; [done|]. by split.
  - split; [set_solver|]. split; [|split].
    + intros Heq. rewrite Heq in Hin. set_solver.
    + intros Heq. rewrite Heq in Hin. set_solver.
    + split.
      * intros Heq. rewrite Heq in Hin. set_solver.
      * intros Hgt. exfalso. by apply (Qlt_not_le _ _ Hgt).
Qed.

End LabelsOfResults.

Lemma simplified_label_of_classification_witness :
  exists r, classify_move Scenarios.mistake_ctx = Ret r
            /\ simplified_label (H := Ascii_builtins.builtins) r <> "Blunder".
Proof.
  eexists. split; [reflexivity|].
  exact (proj1 (proj2 (simplified_label_of_classification
                         Scenarios.mistake_ctx _ eq_refl))).
Defined.

Lemma elem_of_filter_enumerate {A} (P : nat * A -> Prop)
    `{!forall x, Decision (P x)} (l : list A) (x : A) :
  x ∈ (filter P (enumerate l)).*2 -> x ∈ l.
Proof.
  intros ([i y] & -> & [_ Hin]%list_elem_of_filter)%list_elem_of_fmap.
  unfold enumerate in Hin. apply list_elem_of_lookup in Hin as [j Hj].
  rewrite list_lookup_imap in Hj. cbn.
  destruct (l !! j) as [z|] eqn:Hz; [|done]. cbn in Hj. injection Hj as _ ->.
  by apply list_elem_of_lookup_2 in Hz.
Qed.

Lemma length_filter_nil_iff {A} (P : A -> Prop) `{!forall x, Decision (P x)}
    (l : list A) :
  (forall x, x ∈ l -> ~ P x) -> length (filter P l) = 0.
Proof.
  intros Hnot. induction l as [|x l IH]; [done|].
  rewrite filter_cons, decide_False by (apply Hnot; left).
  apply IH. intros y Hy. apply Hnot. by right.
Qed.

Ltac row_lookup :=
  unfold row_data; rewrite lookup_union, lookup_fmap;
  match goal with
  | Hk : pgn_headers _ !! _ = None |- _ => rewrite Hk
  end;
  cbn [fmap option_fmap option_map]; rewrite (left_id None _);
  cbn [list_to_map foldr fst snd];
  repeat (rewrite lookup_insert_ne by done);
  first [apply lookup_insert_eq | apply lookup_empty].

Lemma row_data_Blunder (math_exp : Q -> option Q) (s : GameSummary) :
  pgn_headers s !! "Blunder" = None ->
  row_data math_exp s !! "Blunder"
  = Some (CellInt (Z.of_nat (default 0 (move_classification_counts s !! "Blunder")))).
Proof. intros Hk. row_lookup. Qed.

Lemma row_data_AverageCPL (math_exp : Q -> option Q) (s : GameSummary) :
  pgn_headers s !! "AverageCPL" = None ->
  row_data math_exp s !! "AverageCPL"
  = Some (CellStr (format_1f (py_sum (player_cpls s)
                              / inject_Z (Z.of_nat (length (player_cpls s)))))).
Proof. intros Hk. row_lookup. Qed.

Lemma row_data_WhiteACPL (math_exp : Q -> option Q) (s : GameSummary) :
  row_data math_exp s !! "WhiteACPL" = CellStr <$> pgn_headers s !! "WhiteACPL"
  /\ row_data math_exp s !! "BlackACPL" = CellStr <$> pgn_headers s !! "BlackACPL".
Proof.
  split.
  - destruct (pgn_headers s !! "WhiteACPL") as [v|] eqn:Hk; [|row_lookup].
    unfold row_data. rewrite lookup_union, lookup_fmap, Hk. cbn.
    by rewrite union_Some_l.
  - destruct (pgn_headers s !! "BlackACPL") as [v|] eqn:Hk; [|row_lookup].
    unfold row_data. rewrite lookup_union, lookup_fmap, Hk. cbn.
    by rewrite union_Some_l.
Qed.

Section SummaryAndReport.
Context `{ChessBoard}.
Variable math_exp : Q -> option Q.

(** What a summary that was built is made of. *)
Lemma build_game_summary_Some `{PyBuiltins} (game : Game) (gid : string)
    (target : option string) (results : list ClassificationResult)
    (s : GameSummary) :
  build_game_summary game gid target results = Some s ->
  exists (t : string) (w b : bool),
    target = Some t
    /\ w = bool_decide (str_lower t
                        = str_lower (default "" (headers game !! "White")))
    /\ b = bool_decide (str_lower t
                        = str_lower (default "" (headers game !! "Black")))
    /\ w || b = true
    /\ let player_results :=
         (filter (fun ir : nat * ClassificationResult =>
                    w && Nat.even (fst ir) || b && negb (Nat.even (fst ir)))
                 (enumerate results)).*2 in
       player_results <> []
       /\ player_cpls s = cpl <$> player_results
       /\ move_classification_counts s = Counter (simplified_label <$> player_results)
       /\ engine_top1_match_count s
          = length (filter (fun r => is_engine_top_choice r = true) player_results)
       /\ engine_topN_match_count s
          = length (filter (fun r => is_engine_top_n_choice r = true) player_results)
       /\ pgn_headers s = headers game.
Proof.
  unfold build_game_summary. destruct target as [t|]; [|done].
  destruct (bool_decide (t = "")); [done|].
  set (w := bool_decide (str_lower t = str_lower (default "" (headers game !! "White")))).
  set (b := bool_decide (str_lower t = str_lower (default "" (headers game !! "Black")))).
  destruct (negb (w || b)) eqn:Hwb; [done|]. apply negb_false_iff in Hwb.
  set (pr := (filter _ (enumerate results)).*2).
  destruct pr as [|r0 pr'] eqn:Epr; [done|]. intros [= <-].
  exists t, w, b. cbn. fold pr. rewrite Epr. by repeat split.
Qed.

(** X21. The "Blunder" column of the report stays at 0 for summaries built
    from the classifier's results: a blunder is tallied under
    "Blunder !!!", while the report reads the count of "Blunder".  The tally
    itself is right: the count of "Blunder !!!" is the number of the player's
    moves with a metrics CPL above 300. *)
Theorem report_blunder_column (game : Game) (gid : string)
    (target : option string) (results : list ClassificationResult)
    (s : GameSummary) :
  Forall (fun r => exists ctx : MoveAnalysisContext, classify_move ctx = Ret r)
         results ->
  build_game_summary (H := Ascii_builtins.builtins) game gid target results = Some s ->
  headers game !! "Blunder" = None ->
  row_data math_exp s !! "Blunder" = Some (CellInt 0)
  /\ default 0 (move_classification_counts s !! "Blunder !!!")
     = length (filter (fun c => Qltb 300 c = true) (player_cpls s)).
Proof.
  intros Hall Hs Hheader.
  destruct (build_game_summary_Some _ _ _ _ _ Hs)
    as (t & w & b & _ & _ & _ & _ & _ & Hcpls & Hcounts & _ & _ & Hhdr).
  set (pr := (filter _ (enumerate results)).*2) in *.
  assert (Hpr : forall r, r ∈ pr ->
            simplified_label (H := Ascii_builtins.builtins) r <> "Blunder"
            /\ (simplified_label (H := Ascii_builtins.builtins) r = "Blunder !!!"
                <-> Qltb 300 (cpl r) = true)).
  { intros r Hin%elem_of_filter_enumerate. rewrite Forall_forall in Hall.
    destruct (Hall r Hin) as [ctx Hctx]. by apply (simplified_label_blunder ctx). }
  split.
  - rewrite row_data_Blunder by (by rewrite Hhdr).
    rewrite Hcounts, Counter_count, length_filter_fmap.
    rewrite length_filter_nil_iff; [done|]. intros r Hin. by apply Hpr.
  - rewrite Hcounts, Hcpls, Counter_count, !length_filter_fmap. f_equal.
    apply filter_equiv_elem. intros r Hin. by apply Hpr.
Qed.

(** X22. The report's WhiteACPL and BlackACPL columns do not show the values
    computed in the run: the summary copies the headers before the two ACPL
    headers are added to the game, so a row carries for these columns the
    headers the input PGN already had, and nothing when it had none.  The
    annotated game itself always gets both headers, its other headers, its
    starting position and its moves being kept. *)
Theorem report_acpl_columns `{PyBuiltins} (game game' : Game) (gid : string)
    (target : option string) (results : list ClassificationResult)
    (s : GameSummary) :
  finalize_results game gid target results = (game', Some s) ->
  row_data math_exp s !! "WhiteACPL" = CellStr <$> headers game !! "WhiteACPL"
  /\ row_data math_exp s !! "BlackACPL" = CellStr <$> headers game !! "BlackACPL"
  /\ is_Some (headers game' !! "WhiteACPL")
  /\ is_Some (headers game' !! "BlackACPL")
  /\ (forall k, k <> "WhiteACPL" -> k <> "BlackACPL" ->
        headers game' !! k = headers game !! k)
  /\ game_board game' = game_board game /\ mainline game' = mainline game.
Proof.
  unfold finalize_results. intros [= <- Hs].
  destruct (build_game_summary_Some _ _ _ _ _ Hs)
    as (_ & _ & _ & _ & _ & _ & _ & _ & _ & _ & _ & _ & Hhdr).
  destruct (row_data_WhiteACPL math_exp s) as [Hw Hb]. rewrite Hw, Hb, Hhdr.
  unfold _add_final_pgn_headers. cbn [headers game_board mainline].
  split; [done|]. split; [done|]. split; [|split; [|split; [|done]]].
  - rewrite lookup_insert_ne by done. rewrite lookup_insert_eq. by eexists.
  - rewrite lookup_insert_eq. by eexists.
  - intros k Hkw Hkb. by rewrite !lookup_insert_ne by done.
Qed.

(** X23. For a player who is White only (or Black only), the AverageCPL
    column of the report row and the WhiteACPL (BlackACPL) header written
    into the annotated game are the same text: both average the metrics CPL
    of the same plies and print it with one decimal. *)
Theorem average_cpl_is_acpl_header `{PyBuiltins} (game game' : Game) (gid t : string)
    (results : list ClassificationResult) (s : GameSummary) :
  finalize_results game gid (Some t) results = (game', Some s) ->
  headers game !! "AverageCPL" = None ->
  let white := str_lower (default "" (headers game !! "White")) in
  let black := str_lower (default "" (headers game !! "Black")) in
  (str_lower t = white -> str_lower t <> black ->
   exists v, headers game' !! "WhiteACPL" = Some v
             /\ row_data math_exp s !! "AverageCPL" = Some (CellStr v))
  /\ (str_lower t = black -> str_lower t <> white ->
      exists v, headers game' !! "BlackACPL" = Some v
                /\ row_data math_exp s !! "AverageCPL" = Some (CellStr v)).
Proof.
  unfold finalize_results. intros Hfin Havg. cbn zeta.
  assert (Hs : build_game_summary game gid (Some t) results = Some s)
    by congruence.
  assert (Hgame : _add_final_pgn_headers game results = game') by congruence.
  clear Hfin. subst game'.
  destruct (build_game_summary_Some _ _ _ _ _ Hs)
    as (t' & w & b & [= <-] & Hw & Hb & _ & Hne & Hcpls & _ & _ & _ & Hhdr).
  rewrite row_data_AverageCPL by (by rewrite Hhdr).
  unfold _add_final_pgn_headers. cbn [headers].
  assert (Hacpl : forall l : list Q,
            l <> [] ->
            acpl_header l
            = format_1f (py_sum l / inject_Z (Z.of_nat (length l)))).
  { by intros [|]. }
  assert (Hcne : player_cpls s <> []).
  { rewrite Hcpls. by intros ?%fmap_nil_inv. }
  split.
  - intros Hwhite Hblack. eexists. rewrite lookup_insert_ne by done.
    rewrite lookup_insert_eq. split; [reflexivity|].
    rewrite bool_decide_eq_true_2 in Hw by done.
    rewrite bool_decide_eq_false_2 in Hb by done. subst w b.
    replace ((fun ir : nat * ClassificationResult => cpl ir.2)
               <$> filter (fun ir : nat * ClassificationResult =>
                             Nat.even ir.1 = true) (enumerate results))
      with (player_cpls s).
    { by rewrite Hacpl. }
    rewrite Hcpls, <- list_fmap_compose. f_equal. apply filter_equiv_elem.
    intros [i r] _. cbn. destruct (Nat.even i); naive_solver.
  - intros Hblack Hwhite. eexists. rewrite lookup_insert_eq.
    split; [reflexivity|].
    rewrite bool_decide_eq_false_2 in Hw by done.
    rewrite bool_decide_eq_true_2 in Hb by done. subst w b.
    replace ((fun ir : nat * ClassificationResult => cpl ir.2)
               <$> filter (fun ir : nat * ClassificationResult =>
                             Nat.even ir.1 <> true) (enumerate results))
      with (player_cpls s).
    { by rewrite Hacpl. }
    rewrite Hcpls, <- list_fmap_compose. f_equal. apply filter_equiv_elem.
    intros [i r] _. cbn. destruct (Nat.even i); naive_solver.
Qed.

(** X24. A summary that [build_game_summary] returns always has moves: the
    report writes a row for it (its guard against an empty CPL list, and with
    it the division by the number of moves, is never met by such a summary),
    the summary counts at most as many moves as were classified, and neither
    match count exceeds the number of the player's moves. *)
Theorem built_summary_gives_a_row `{PyBuiltins} (game : Game) (gid : string)
    (target : option string) (results : list ClassificationResult)
    (s : GameSummary) :
  build_game_summary game gid target results = Some s ->
  player_cpls s <> []
  /\ rows_to_write math_exp [s] = [row_data math_exp s]
  /\ length (player_cpls s) <= length results
  /\ engine_top1_match_count s <= length (player_cpls s)
  /\ engine_topN_match_count s <= length (player_cpls s).
Proof.
  intros Hs.
  destruct (build_game_summary_Some _ _ _ _ _ Hs)
    as (t & w & b & _ & _ & _ & _ & Hne & Hcpls & _ & Htop1 & HtopN & _).
  assert (Hcne : player_cpls s <> []).
  { rewrite Hcpls. by intros ?%fmap_nil_inv. }
  split; [done|]. split; [|split; [|split]].
  - unfold rows_to_write. cbn [omap list_omap].
    destruct (player_cpls s) as [|c l]; [done|]. done.
  - rewrite Hcpls, !length_fmap.
    etrans; [apply length_filter|]. unfold enumerate. by rewrite length_imap.
  - rewrite Htop1, Hcpls, length_fmap. apply length_filter.
  - rewrite HtopN, Hcpls, length_fmap. apply length_filter.
Qed.

(** X25. The accuracy percentage always lies in [0, 100], whatever
    [math.exp] returns; a negative average is treated as 0, and an overflow
    of the exponential gives 0. *)
Theorem _calculate_accuracy_range (average_cpl : Q) :
  (0 <= _calculate_accuracy math_exp average_cpl)%Q
  /\ (_calculate_accuracy math_exp average_cpl <= 100)%Q
  /\ ((average_cpl < 0)%Q ->
      _calculate_accuracy math_exp average_cpl = _calculate_accuracy math_exp 0)
  /\ (math_exp (accuracy_settings.ACCURACY_CONSTANT_B
                * (if Qltb average_cpl 0 then 0 else average_cpl)) = None ->
      (_calculate_accuracy math_exp average_cpl == 0)%Q).
Proof.
  unfold _calculate_accuracy. cbv zeta.
  set (x := if Qltb average_cpl 0 then 0%Q else average_cpl).
  split; [|split; [|split]].
  - rewrite py_max_spec. apply Q.le_max_l.
  - rewrite py_max_spec. apply Q.max_lub; [done|].
    rewrite py_min_spec. apply Q.le_min_l.
  - intros Hneg. subst x. apply Qltb_lt in Hneg. rewrite Hneg.
    by replace (Qltb 0 0) with false by reflexivity.
  - intros ->. rewrite py_max_spec. apply Q.max_l.
    rewrite py_min_spec. apply Q.le_min_r.
Qed.

(** X26. With an exponential that is defined and monotone on non-positive
    arguments, a larger average loss never gives a larger accuracy. *)
Theorem _calculate_accuracy_antitone (average_cpl1 average_cpl2 : Q) :
  (forall x, (x <= 0)%Q -> is_Some (math_exp x)) ->
  (forall x y a b, (x <= y)%Q -> math_exp x = Some a -> math_exp y = Some b ->
                   (a <= b)%Q) ->
  (0 <= average_cpl1)%Q -> (average_cpl1 <= average_cpl2)%Q ->
  (_calculate_accuracy math_exp average_cpl2
   <= _calculate_accuracy math_exp average_cpl1)%Q.
Proof.
  intros Hdef Hmono H0 Hle. unfold _calculate_accuracy. cbv zeta.
  assert (H2 : (0 <= average_cpl2)%Q) by (by apply (Qle_trans _ average_cpl1)).
  rewrite (proj2 (Qltb_ge average_cpl1 0) H0), (proj2 (Qltb_ge average_cpl2 0) H2).
  assert (HB : (accuracy_settings.ACCURACY_CONSTANT_B < 0)%Q) by done.
  assert (Harg : (accuracy_settings.ACCURACY_CONSTANT_B * average_cpl2
                  <= accuracy_settings.ACCURACY_CONSTANT_B * average_cpl1)%Q) by nra.
  assert (Hneg1 : (accuracy_settings.ACCURACY_CONSTANT_B * average_cpl1 <= 0)%Q) by nra.
  assert (Hneg2 : (accuracy_settings.ACCURACY_CONSTANT_B * average_cpl2 <= 0)%Q) by nra.
  destruct (Hdef _ Hneg1) as [e1 He1]. destruct (Hdef _ Hneg2) as [e2 He2].
  rewrite He1, He2. pose proof (Hmono _ _ _ _ Harg He2 He1) as He.
  assert (HA : (0 < accuracy_settings.ACCURACY_CONSTANT_A)%Q) by done.
  rewrite !py_max_spec. apply Q.max_le_compat_l.
  rewrite !py_min_spec. apply Q.min_le_compat_l. nra.
Qed.

End SummaryAndReport.

Lemma report_blunder_column_witness :
  exists s,
    build_game_summary (H := Ascii_builtins.builtins) Games.sample_game "game1"
      (Some "player a") Tallies.results = Some s
    /\ row_data Tallies.exp_tangent s !! "Blunder" = Some (CellInt 0)
    /\ default 0 (move_classification_counts s !! "Blunder !!!") = 1.
Proof.
  assert (Hs : exists s,
            build_game_summary (H := Ascii_builtins.builtins) Games.sample_game
              "game1" (Some "player a") Tallies.results = Some s
            /\ length (filter (fun c => Qltb 300 c = true) (player_cpls s)) = 1)
    by (eexists; split; vm_compute; reflexivity).
  destruct Hs as (s & Hs & Hlen).
  destruct (report_blunder_column Tallies.exp_tangent Games.sample_game "game1"
              (Some "player a") Tallies.results s) as [Hrow Hcount];
    [|exact Hs|vm_compute; reflexivity|].
  { repeat constructor.
    - exists Tallies.blunder_ctx. vm_compute. reflexivity.
    - exists Scenarios.mistake_ctx. vm_compute. reflexivity. }
  exists s. split; [exact Hs|]. split; [exact Hrow|]. by rewrite Hcount.
Defined.

Lemma report_acpl_columns_witness :
  exists game' s,
    finalize_results (H := Ascii_builtins.builtins) Games.sample_game "game1"
      (Some "player a") Tallies.results = (game', Some s)
    /\ row_data Tallies.exp_tangent s !! "WhiteACPL" = None
    /\ is_Some (headers game' !! "WhiteACPL").
Proof.
  assert (Hs : exists s,
            build_game_summary (H := Ascii_builtins.builtins) Games.sample_game
              "game1" (Some "player a") Tallies.results = Some s)
    by (eexists; vm_compute; reflexivity).
  destruct Hs as (s & Hs).
  assert (Hfin : finalize_results (H := Ascii_builtins.builtins) Games.sample_game
                   "game1" (Some "player a") Tallies.results
                 = (_add_final_pgn_headers Games.sample_game Tallies.results, Some s)).
  { unfold finalize_results. by rewrite Hs. }
  destruct (report_acpl_columns Tallies.exp_tangent (H0 := Ascii_builtins.builtins)
              _ _ _ _ _ _ Hfin) as (Hwhite & _ & Hset & _).
  eexists _, s. split; [exact Hfin|]. split; [|exact Hset].
  rewrite Hwhite. vm_compute. reflexivity.
Defined.

Lemma average_cpl_is_acpl_header_witness :
  exists game' s v,
    finalize_results (H := Ascii_builtins.builtins) Games.sample_game "game1"
      (Some "player a") Tallies.results = (game', Some s)
    /\ headers game' !! "WhiteACPL" = Some v
    /\ row_data Tallies.exp_tangent s !! "AverageCPL" = Some (CellStr v).
Proof.
  assert (Hs : exists s,
            build_game_summary (H := Ascii_builtins.builtins) Games.sample_game
              "game1" (Some "player a") Tallies.results = Some s)
    by (eexists; vm_compute; reflexivity).
  destruct Hs as (s & Hs).
  assert (Hfin : finalize_results (H := Ascii_builtins.builtins) Games.sample_game
                   "game1" (Some "player a") Tallies.results
                 = (_add_final_pgn_headers Games.sample_game Tallies.results, Some s)).
  { unfold finalize_results. by rewrite Hs. }
  destruct (proj1 (average_cpl_is_acpl_header Tallies.exp_tangent
                     (H0 := Ascii_builtins.builtins) _ _ _ _ _ _ Hfin
                     ltac:(vm_compute; reflexivity)))
    as (v & Hheader & Hrow);
    [vm_compute; reflexivity | vm_compute; discriminate |].
  by eexists _, s, v.
Defined.

Lemma built_summary_gives_a_row_witness :
  exists s,
    build_game_summary (H := Ascii_builtins.builtins) Games.sample_game "game1"
      (Some "player a") Tallies.results = Some s
    /\ rows_to_write Tallies.exp_tangent [s] = [row_data Tallies.exp_tangent s].
Proof.
  assert (Hs : exists s,
            build_game_summary (H := Ascii_builtins.builtins) Games.sample_game
              "game1" (Some "player a") Tallies.results = Some s)
    by (eexists; vm_compute; reflexivity).
  destruct Hs as (s & Hs). exists s. split; [exact Hs|].
  exact (proj1 (proj2 (built_summary_gives_a_row Tallies.exp_tangent
                         (H0 := Ascii_builtins.builtins) _ _ _ _ _ Hs))).
Defined.

Lemma _calculate_accuracy_antitone_witness :
  (_calculate_accuracy Tallies.exp_tangent 50
   <= _calculate_accuracy Tallies.exp_tangent 10)%Q.
Proof.
  apply (_calculate_accuracy_antitone Tallies.exp_tangent 10 50).
  - intros x _. by eexists.
  - intros x y a b Hxy [= <-] [= <-]. apply Q.max_le_compat_l. lra.
  - discriminate.
  - discriminate.
Defined.

(** ** The run loop and its statistics *)

Lemma counter_add_count (counter : gmap string Z) (k k' : string) (n : Z) :
  count_of (counter_add counter k n) k'
  = (count_of counter k' + (if decide (k = k') then n else 0))%Z.
Proof.
  unfold count_of, counter_add. destruct (decide (k = k')) as [->|Hne].
  - rewrite lookup_insert_eq. cbn. lia.
  - rewrite lookup_insert_ne by done. lia.
Qed.

Lemma counter_add_lookup_ne (counter : gmap string Z) (k k' : string) (n : Z) :
  k <> k' -> counter_add counter k n !! k' = counter !! k'.
Proof. intros Hne. unfold counter_add. by rewrite lookup_insert_ne. Qed.

Ltac count_keys :=
  rewrite ?counter_add_count; unfold outcome_delta;
  cbn [is_exported is_counted_error outcome_cache_hits outcome_engine_runs];
  repeat case_decide; simplify_eq; try lia.

Lemma game_loop_counts (outcomes : list game_outcome) (st : RunState) (k : string) :
  count_of (stats (stats_tracker (game_loop outcomes st).1)) k
  = (count_of (stats (stats_tracker st)) k
     + sum_Z (outcome_delta k <$> reached outcomes))%Z.
Proof.
  revert st. induction outcomes as [|o outcomes IH]; intros st.
  { cbn. lia. }
  cbn [game_loop reached fmap list_fmap sum_Z foldr].
  destruct o as [e|hits runs|summary hits runs]; cbn [leaves_loop].
  - destruct (caught_per_game e) eqn:He; cbn [negb].
    + rewrite IH. cbn [stats_tracker add_game_with_error add_game_read stats].
      fold (sum_Z (outcome_delta k <$> reached outcomes)).
      count_keys; rewrite ?He; lia.
    + cbn [fst stats_tracker add_game_read stats fmap list_fmap foldr].
      count_keys; rewrite ?He; lia.
  - rewrite IH.
    cbn [stats_tracker add_game_with_error add_game_read add_fen_cache_hits
         add_fens_analyzed_by_engine stats].
    fold (sum_Z (outcome_delta k <$> reached outcomes)). count_keys.
  - rewrite IH.
    cbn [stats_tracker add_game_analyzed add_game_read add_fen_cache_hits
         add_fens_analyzed_by_engine stats].
    fold (sum_Z (outcome_delta k <$> reached outcomes)). count_keys.
Qed.

Lemma game_loop_rest (outcomes : list game_outcome) (st : RunState) :
  (forall k, k ∉ ["games_read"; "games_analyzed"; "games_with_errors";
                  "fen_cache_hits"; "fens_analyzed_by_engine"] ->
     stats (stats_tracker (game_loop outcomes st).1) !! k
     = stats (stats_tracker st) !! k)
  /\ games_summarized_for_report (stats_tracker (game_loop outcomes st).1)
     = games_summarized_for_report (stats_tracker st)
  /\ game_summaries (game_loop outcomes st).1
     = game_summaries st ++ omap outcome_summary (reached outcomes)
  /\ exported_games (game_loop outcomes st).1
     = exported_games st
       + length (filter (fun o => is_exported o = true) (reached outcomes))
  /\ (game_loop outcomes st).2
     = match last (reached outcomes) with
       | Some (ProcessRaises e) => if caught_per_game e then None else Some e
       | _ => None
       end.
Proof.
  revert st. induction outcomes as [|o outcomes IH]; intros st.
  { cbn. split; [done|]. split; [done|]. split; [by rewrite app_nil_r|].
    split; [lia|done]. }
  cbn [game_loop reached].
  destruct o as [e|hits runs|summary hits runs]; cbn [leaves_loop].
  - destruct (caught_per_game e) eqn:He; cbn [negb].
    + destruct (IH {| stats_tracker := add_game_with_error
                                         (add_game_read (stats_tracker st));
                      game_summaries := game_summaries st;
                      exported_games := exported_games st |})
        as (Hk & Hsum & Hs & Hx & Herr).
      split; [|split; [|split; [|split]]].
      * intros k Hin. rewrite (Hk k Hin).
        cbn [stats_tracker add_game_with_error add_game_read stats].
        rewrite !counter_add_lookup_ne; [done|set_solver..].
      * by rewrite Hsum.
      * by rewrite Hs.
      * rewrite Hx. cbn [exported_games]. rewrite filter_cons.
        by rewrite decide_False by done.
      * rewrite Herr, last_cons. destruct (last (reached outcomes)); [done|].
        by rewrite He.
    + cbn [fst snd stats_tracker game_summaries exported_games add_game_read stats
           omap list_omap outcome_summary last].
      split; [|split; [|split; [|split]]].
      * intros k Hin. rewrite counter_add_lookup_ne; [done|set_solver].
      * done.
      * by rewrite app_nil_r.
      * rewrite filter_cons. rewrite decide_False by done. cbn. lia.
      * by rewrite He.
  - destruct (IH {| stats_tracker :=
                      add_game_with_error
                        (add_fens_analyzed_by_engine
                           (add_fen_cache_hits (add_game_read (stats_tracker st))
                              (Z.of_nat hits)) (Z.of_nat runs));
                    game_summaries := game_summaries st;
                    exported_games := exported_games st |})
      as (Hk & Hsum & Hs & Hx & Herr).
    split; [|split; [|split; [|split]]].
    + intros k Hin. rewrite (Hk k Hin).
      cbn [stats_tracker add_game_with_error add_game_read add_fen_cache_hits
           add_fens_analyzed_by_engine stats].
      rewrite !counter_add_lookup_ne; [done|set_solver..].
    + by rewrite Hsum.
    + by rewrite Hs.
    + rewrite Hx. cbn [exported_games]. rewrite filter_cons.
      by rewrite decide_False by done.
    + rewrite Herr, last_cons. by destruct (last (reached outcomes)).
  - destruct (IH {| stats_tracker :=
                      add_game_analyzed
                        (add_fens_analyzed_by_engine
                           (add_fen_cache_hits (add_game_read (stats_tracker st))
                              (Z.of_nat hits)) (Z.of_nat runs));
                    game_summaries :=
                      match summary with
                      | Some s => game_summaries st ++ [s]
                      | None => game_summaries st
                      end;
                    exported_games := S (exported_games st) |})
      as (Hk & Hsum & Hs & Hx & Herr).
    split; [|split; [|split; [|split]]].
    + intros k Hin. rewrite (Hk k Hin).
      cbn [stats_tracker add_game_analyzed add_game_read add_fen_cache_hits
           add_fens_analyzed_by_engine stats].
      rewrite !counter_add_lookup_ne; [done|set_solver..].
    + by rewrite Hsum.
    + rewrite Hs. cbn [game_summaries omap list_omap outcome_summary].
      destruct summary; cbn; [by rewrite <- app_assoc|done].
    + rewrite Hx. cbn [exported_games]. rewrite filter_cons.
      rewrite decide_True by done. cbn [length]. lia.
    + rewrite Herr, last_cons. by destruct (last (reached outcomes)).
Qed.

Lemma sum_outcome_delta (l : list game_outcome) :
  sum_Z (outcome_delta "games_read" <$> l) = Z.of_nat (length l)
  /\ sum_Z (outcome_delta "games_analyzed" <$> l)
     = Z.of_nat (length (filter (fun o => is_exported o = true) l))
  /\ sum_Z (outcome_delta "games_with_errors" <$> l)
     = Z.of_nat (length (filter (fun o => is_counted_error o = true) l))
  /\ sum_Z (outcome_delta "fen_cache_hits" <$> l) = sum_Z (outcome_cache_hits <$> l)
  /\ sum_Z (outcome_delta "fens_analyzed_by_engine" <$> l)
     = sum_Z (outcome_engine_runs <$> l)
  /\ (forall k, k ∉ ["games_read"; "games_analyzed"; "games_with_errors";
                     "fen_cache_hits"; "fens_analyzed_by_engine"] ->
        sum_Z (outcome_delta k <$> l) = 0%Z).
Proof.
  induction l as [|o l (IH1 & IH2 & IH3 & IH4 & IH5 & IH6)].
  { by repeat split. }
  cbn [fmap list_fmap sum_Z foldr length].
  fold (sum_Z (outcome_delta "games_read" <$> l)).
  fold (sum_Z (outcome_delta "games_analyzed" <$> l)).
  fold (sum_Z (outcome_delta "games_with_errors" <$> l)).
  fold (sum_Z (outcome_delta "fen_cache_hits" <$> l)).
  fold (sum_Z (outcome_delta "fens_analyzed_by_engine" <$> l)).
  fold (sum_Z (outcome_cache_hits <$> l)). fold (sum_Z (outcome_engine_runs <$> l)).
  rewrite IH1, IH2, IH3, IH4, IH5, !filter_cons.
  split; [|split; [|split; [|split; [|split]]]].
  - unfold outcome_delta. repeat case_decide; simplify_eq. lia.
  - unfold outcome_delta. repeat case_decide; simplify_eq;
      destruct (is_exported o); simplify_eq; cbn [length]; lia.
  - unfold outcome_delta. repeat case_decide; simplify_eq;
      destruct (is_counted_error o); simplify_eq; cbn [length]; lia.
  - unfold outcome_delta. repeat case_decide; simplify_eq. lia.
  - unfold outcome_delta. repeat case_decide; simplify_eq. lia.
  - intros k Hk. fold (sum_Z (outcome_delta k <$> l)). rewrite (IH6 k Hk).
    unfold outcome_delta. repeat case_decide; simplify_eq; try lia; set_solver.
Qed.

Lemma reached_cases (l : list game_outcome) :
  (reached l = l /\ Forall (fun o => leaves_loop o = false) l)
  \/ (exists before o after,
        l = before ++ o :: after
        /\ Forall (fun o => leaves_loop o = false) before
        /\ leaves_loop o = true /\ reached l = before ++ [o]).
Proof.
  induction l as [|o l IH]; [by left|]. cbn [reached].
  destruct (leaves_loop o) eqn:Ho.
  - right. exists [], o, l. by repeat split.
  - destruct IH as [[Hr Hall]|(before & o' & after & -> & Hall & Ho' & Hr)].
    + left. rewrite Hr. split; [done|]. by apply Forall_cons.
    + right. exists (o :: before), o', after. rewrite Hr.
      split; [done|]. split; [by apply Forall_cons|]. by split.
Qed.

Lemma reached_partition (l : list game_outcome) :
  length (reached l)
  = length (filter (fun o => is_exported o = true) (reached l))
    + length (filter (fun o => is_counted_error o = true) (reached l))
    + match last (reached l) with
      | Some o => if leaves_loop o then 1 else 0
      | None => 0
      end.
Proof.
  induction l as [|o l IH]; [done|]. cbn [reached].
  destruct (leaves_loop o) eqn:Ho.
  - destruct o as [e| |]; try done. cbn in Ho. apply negb_true_iff in Ho.
    rewrite !filter_cons. cbn [is_exported is_counted_error last leaves_loop].
    rewrite Ho. cbn. by rewrite !decide_False by done.
  - cbn [length]. rewrite IH, !filter_cons, last_cons.
    destruct (last (reached l)) as [o'|] eqn:Hlast.
    + destruct o as [e| |]; cbn [is_exported is_counted_error];
        [cbn in Ho; apply negb_false_iff in Ho; rewrite Ho|..];
        repeat case_decide; try done; cbn [length];
        destruct (leaves_loop _); lia.
    + rewrite Ho.
      destruct o as [e| |]; cbn [is_exported is_counted_error];
        [cbn in Ho; apply negb_false_iff in Ho; rewrite Ho|..];
        repeat case_decide; try done; cbn [length]; lia.
Qed.

Lemma run_unfold (n : nat) (outcomes : list game_outcome) :
  let st0 := {| stats_tracker :=
                  add_game_skipped
                    (StatisticsTracker_reset
                       {| stats := ∅; games_summarized_for_report := 0 |})
                    ("already_processed', " +:+ pretty n);
                game_summaries := []; exported_games := 0 |} in
  let out := game_loop outcomes st0 in
  stats (final_stats (run n outcomes)) = stats (stats_tracker out.1)
  /\ games_written (run n outcomes) = exported_games out.1
  /\ fatal_error (run n outcomes) = out.2
  /\ report_input (run n outcomes)
     = match out.2, game_summaries out.1 with
       | None, s :: l => Some (s :: l)
       | _, _ => None
       end
  /\ games_summarized_for_report (final_stats (run n outcomes))
     = match out.2 with
       | None => Z.of_nat (length (game_summaries out.1))
       | Some _ => 0%Z
       end.
Proof.
  cbn zeta. unfold run.
  match goal with
  | |- context [game_loop outcomes ?st] =>
      pose proof (proj1 (proj2 (game_loop_rest outcomes st))) as Hsum;
      destruct (game_loop outcomes st) as [st' [e|]]
  end; cbn in Hsum |- *; [done|].
  destruct (game_summaries st'); by cbn.
Qed.

Lemma skipped_key_fresh (n : nat) (k : string) :
  k ∈ ["games_read"; "games_analyzed"; "games_with_errors"; "fen_cache_hits";
       "fens_analyzed_by_engine"; "games_skipped_total";
       "skipped_already_processed"; "skipped_no_moves"] ->
  "skipped_" +:+ ("already_processed', " +:+ pretty n) <> k.
Proof.
  intros Hin Heq. subst k. rewrite !elem_of_cons, elem_of_nil in Hin. cbn in Hin.
  repeat (destruct Hin as [Hin|Hin]; [discriminate Hin|]). done.
Qed.

Lemma run_initial_counts (n : nat) (k : string) :
  k ∈ ["games_read"; "games_analyzed"; "games_with_errors"; "fen_cache_hits";
       "fens_analyzed_by_engine"] ->
  count_of (stats (add_game_skipped
                     (StatisticsTracker_reset
                        {| stats := ∅; games_summarized_for_report := 0 |})
                     ("already_processed', " +:+ pretty n))) k = 0%Z.
Proof.
  intros Hin. cbn [add_game_skipped StatisticsTracker_reset stats].
  rewrite !counter_add_count.
  rewrite (decide_False (P := _ +:+ _ = k)).
  2:{ apply skipped_key_fresh. set_solver. }
  rewrite decide_False by (intros <-; set_solver). done.
Qed.

(** X27. The statistics of a run reconcile with the games it got to: every
    game read is counted once as analyzed, once as an error, or is the game
    whose exception ended the loop; the analyzed games are the games written
    to the output; the two position counters add the cache hits and engine
    runs of every game whose processing returned, the games whose export
    failed included.  When no exception leaves the loop, every game of the
    input is read, and the report generator is called exactly when at least
    one game gave a summary, with all the summaries in input order. *)
Theorem run_statistics_reconcile (n : nat) (outcomes : list game_outcome) :
  let r := run n outcomes in
  let c := reached outcomes in
  let cnt := count_of (stats (final_stats r)) in
  cnt "games_read" = Z.of_nat (length c)
  /\ cnt "games_analyzed" = Z.of_nat (games_written r)
  /\ games_written r = length (filter (fun o => is_exported o = true) c)
  /\ cnt "games_with_errors"
     = Z.of_nat (length (filter (fun o => is_counted_error o = true) c))
  /\ (cnt "games_analyzed" + cnt "games_with_errors"
      + match fatal_error r with Some _ => 1 | None => 0 end
      = cnt "games_read")%Z
  /\ cnt "fen_cache_hits" = sum_Z (outcome_cache_hits <$> c)
  /\ cnt "fens_analyzed_by_engine" = sum_Z (outcome_engine_runs <$> c)
  /\ (fatal_error r = None ->
      c = outcomes
      /\ games_summarized_for_report (final_stats r)
         = Z.of_nat (length (omap outcome_summary outcomes))
      /\ report_input r
         = match omap outcome_summary outcomes with
           | [] => None
           | summaries => Some summaries
           end).
Proof.
  cbn zeta.
  destruct (run_unfold n outcomes) as (Hstats & Hwritten & Hfatal & Hreport & Hsummarized).
  set (st0 := {| stats_tracker := _; game_summaries := []; exported_games := 0 |}) in *.
  destruct (game_loop_rest outcomes st0) as (_ & _ & Hs & Hx & Herr).
  destruct (sum_outcome_delta (reached outcomes)) as (S1 & S2 & S3 & S4 & S5 & _).
  assert (Hcount : forall k,
            k ∈ ["games_read"; "games_analyzed"; "games_with_errors";
                 "fen_cache_hits"; "fens_analyzed_by_engine"] ->
            count_of (stats (final_stats (run n outcomes))) k
            = sum_Z (outcome_delta k <$> reached outcomes)).
  { intros k Hk. rewrite Hstats, game_loop_counts. subst st0.
    cbn [stats_tracker]. rewrite (run_initial_counts n k Hk). lia. }
  rewrite !Hcount by set_solver. rewrite S1, S2, S3, S4, S5, Hwritten, Hx, Hfatal, Herr.
  cbn [exported_games st0].
  pose proof (reached_partition outcomes) as Hpart.
  split; [done|]. split; [done|]. split; [done|]. split; [done|].
  split.
  { destruct (last (reached outcomes)) as [[e| |]|]; cbn [leaves_loop] in *;
      try lia. destruct (caught_per_game e); cbn in *; lia. }
  split; [done|]. split; [done|].
  intros Hnone.
  assert (Hall : reached outcomes = outcomes).
  { destruct (reached_cases outcomes)
      as [[Hr _]|(before & o & after & _ & _ & Ho & Hr)]; [done|].
    rewrite Hr, last_snoc in Hnone. destruct o as [e| |]; try done.
    cbn in Ho. apply negb_true_iff in Ho. by rewrite Ho in Hnone. }
  split; [done|].
  rewrite Hsummarized, Hreport, Herr, Hnone, Hs, Hall. cbn [game_summaries st0 app].
  split; [done|]. by destruct (omap outcome_summary outcomes).
Qed.

(** X28. An exception of [process_game] that is none of the three caught
    families (the [TypeError] of the classifier is one) ends the run at that
    game: it is counted as read but neither as analyzed nor as an error, the
    games after it are not read, and no report is generated, the summaries of
    the games already processed being dropped. *)
Theorem uncaught_exception_ends_run (n : nat)
    (before after : list game_outcome) (e : exn) :
  Forall (fun o => leaves_loop o = false) before ->
  caught_per_game e = false ->
  let r := run n (before ++ ProcessRaises e :: after) in
  fatal_error r = Some e
  /\ report_input r = None
  /\ games_summarized_for_report (final_stats r) = 0%Z
  /\ count_of (stats (final_stats r)) "games_read" = Z.of_nat (length before + 1)
  /\ games_written r = length (filter (fun o => is_exported o = true) before)
  /\ (count_of (stats (final_stats r)) "games_analyzed"
      + count_of (stats (final_stats r)) "games_with_errors"
      = Z.of_nat (length before))%Z.
Proof.
  intros Hbefore He. cbn zeta.
  set (outcomes := before ++ ProcessRaises e :: after).
  assert (Hreached : reached outcomes = before ++ [ProcessRaises e]).
  { subst outcomes. induction before as [|o before IH]; cbn [reached app].
    - cbn. by rewrite He.
    - apply Forall_cons in Hbefore as [-> Hbefore]. by rewrite (IH Hbefore). }
  destruct (run_unfold n outcomes) as (Hstats & Hwritten & Hfatal & Hreport & Hsummarized).
  set (st0 := {| stats_tracker := _; game_summaries := []; exported_games := 0 |}) in *.
  destruct (game_loop_rest outcomes st0) as (_ & _ & _ & Hx & Herr).
  rewrite Hreached, last_snoc, He in Herr.
  rewrite Hfatal, Hreport, Hsummarized, Herr, Hwritten, Hx, Hreached.
  destruct (sum_outcome_delta (before ++ [ProcessRaises e])) as (S1 & S2 & S3 & _).
  rewrite !Hstats, !game_loop_counts. subst st0. cbn [stats_tracker exported_games].
  rewrite !run_initial_counts by set_solver. rewrite Hreached, S1, S2, S3.
  rewrite !filter_app, !filter_cons, !filter_nil. cbn [is_exported is_counted_error].
  rewrite He. rewrite !decide_False by done. rewrite !app_nil_r, length_app.
  cbn [length].
  pose proof (reached_partition before) as Hpart.
  assert (Hb : reached before = before).
  { destruct (reached_cases before)
      as [[Hr _]|(b & o & a & -> & _ & Ho & _)]; [done|].
    apply Forall_app in Hbefore as [_ [Ho' _]%Forall_cons]. congruence. }
  rewrite Hb in Hpart.
  assert (Hlast : match last before with
                  | Some o => if leaves_loop o then 1 else 0
                  | None => 0
                  end = 0).
  { destruct (last before) as [o|] eqn:Hl; [|done].
    apply last_Some in Hl as [l' ->].
    apply Forall_app in Hbefore as [_ [-> _]%Forall_cons]. done. }
  repeat split; try done; lia.
Qed.

(** X29. The counter of skipped games does not depend on the games: after
    every run [games_skipped_total] is 1, whatever the number of game ids
    found in the output file, and that number is part of the name of the one
    detail counter the run creates; the counters [skipped_already_processed]
    and [skipped_no_moves] never exist.  The summary therefore always prints
    "Total Games Skipped: 1" and never one of the two detail lines. *)
Theorem run_skipped_counters (n : nat) (outcomes : list game_outcome) :
  let r := run n outcomes in
  stats (final_stats r) !! "games_skipped_total" = Some 1%Z
  /\ stats (final_stats r) !! ("skipped_already_processed', " +:+ pretty n)
     = Some 1%Z
  /\ stats (final_stats r) !! "skipped_already_processed" = None
  /\ stats (final_stats r) !! "skipped_no_moves" = None
  /\ ("Total Games Skipped", 1%Z) ∈ log_summary (final_stats r)
  /\ (forall v, ("  - Skipped (Already Processed)", v) ∉ log_summary (final_stats r))
  /\ (forall v, ("  - Skipped (No Moves Found)", v) ∉ log_summary (final_stats r)).
Proof.
  cbn zeta.
  destruct (run_unfold n outcomes) as (Hstats & _).
  set (st0 := {| stats_tracker := _; game_summaries := []; exported_games := 0 |}) in *.
  destruct (game_loop_rest outcomes st0) as (Hk & _).
  assert (Hfresh := skipped_key_fresh n).
  assert (H1 : stats (final_stats (run n outcomes)) !! "games_skipped_total"
               = Some 1%Z).
  { rewrite Hstats, Hk by set_solver. subst st0.
    cbn [stats_tracker add_game_skipped StatisticsTracker_reset stats].
    rewrite counter_add_lookup_ne by (apply Hfresh; set_solver).
    unfold counter_add. by rewrite lookup_insert_eq. }
  assert (H2 : stats (final_stats (run n outcomes)) !! "skipped_already_processed"
               = None).
  { rewrite Hstats, Hk by set_solver. subst st0.
    cbn [stats_tracker add_game_skipped StatisticsTracker_reset stats].
    rewrite counter_add_lookup_ne by (apply Hfresh; set_solver).
    by rewrite counter_add_lookup_ne. }
  assert (H3 : stats (final_stats (run n outcomes)) !! "skipped_no_moves" = None).
  { rewrite Hstats, Hk by set_solver. subst st0.
    cbn [stats_tracker add_game_skipped StatisticsTracker_reset stats].
    rewrite counter_add_lookup_ne by (apply Hfresh; set_solver).
    by rewrite counter_add_lookup_ne. }
  split; [done|]. split.
  { rewrite Hstats, Hk.
    - subst st0. cbn [stats_tracker add_game_skipped StatisticsTracker_reset stats].
      unfold counter_add at 1. rewrite lookup_insert_eq.
      rewrite counter_add_lookup_ne
        by (intros Heq; apply (Hfresh "games_skipped_total"); [set_solver|done]).
      done.
    - intros Hin. rewrite !elem_of_cons, elem_of_nil in Hin. cbn in Hin.
      repeat (destruct Hin as [Hin|Hin]; [discriminate Hin|]). done. }
  split; [done|]. split; [done|].
  unfold log_summary, display_order. cbn [omap list_omap fst snd].
  rewrite H1, H2, H3. cbn [fmap option_fmap option_map].
  split; [|split].
  - destruct (stats _ !! "games_read"), (stats _ !! "games_analyzed"); set_solver.
  - intros v Hin.
    destruct (stats _ !! "games_read"), (stats _ !! "games_analyzed"),
      (stats _ !! "games_with_errors"), (stats _ !! "fen_cache_hits"),
      (stats _ !! "fens_analyzed_by_engine"); cbn in Hin; set_solver.
  - intros v Hin.
    destruct (stats _ !! "games_read"), (stats _ !! "games_analyzed"),
      (stats _ !! "games_with_errors"), (stats _ !! "fen_cache_hits"),
      (stats _ !! "fens_analyzed_by_engine"); cbn in Hin; set_solver.
Qed.

Lemma uncaught_exception_ends_run_witness :
  fatal_error (run 0 Batch.outcomes) = Some TypeError
  /\ report_input (run 0 Batch.outcomes) = None
  /\ games_written (run 0 Batch.outcomes) = 1.
Proof.
  destruct (uncaught_exception_ends_run 0 [Exported None 3 0] [Exported None 0 2]
              TypeError) as (Hfatal & Hreport & _ & _ & Hwritten & _).
  - by repeat constructor.
  - reflexivity.
  - by repeat split.
Defined.
